(** * Call-session orchestration engine: date resolver, business hours gate,
      tool-call handler, telephony bridge and booking routes.

    A shallow embedding of the JavaScript sources
      services/date-parser.js        (module [DateParser]),
      services/datetime.js           (module [Datetime]),
      services/hume-tool-handler.js  (module [ToolHandler]),
      services/twilio-hume-bridge.js (module [Bridge]),
      services/hume-conversation.js  (module [Conversation]),
      services/knowledge.js          (module [Knowledge], the chunks),
      the voice server               (modules [BusinessHours], [Server] and
                                      [PostCall]; [VoiceFlow] for the spoken
                                      flow of its version with the OpenAI
                                      intents)
    followed by the properties established about them.

    Conventions.
    - An instant is an integer number of milliseconds since the Unix epoch
      ([Z]).  A JavaScript [Date] and a luxon [DateTime] are [option Z]:
      [None] is the invalid date (time value NaN).  An ISO text of an
      instant is represented by that instant.
    - A JavaScript number that may be NaN is [option Z] as well.
    - Strings are byte strings; case folding and white space are the ASCII
      ones.
    - The external collaborators (chrono-node, luxon, Intl, fetch, the
      calendar API, the clock) are parameters of the functions that call
      them.  The modules [FixedOffset] and [Examples] give instances on
      which the sources are run.
    - Listeners and handlers run on the event loop, one at a time: a
      stateful component is a function from its state and an event to its
      new state and the effects it has. *)

From Stdlib Require Import ZArith List String Ascii Bool Lia DecimalString DecimalZ.
From stdpp Require Import base option list gmap strings.

Local Open Scope string_scope.
Local Open Scope Z_scope.

(* ===================================================================== *)
(** ** JavaScript built-ins used by the sources *)
(* ===================================================================== *)

Module JS.

(** A JS number restricted to integers; [None] is NaN. *)
Definition num := option Z.

(** [a <= b], [a < b], [a >= b] on numbers: false as soon as one side is NaN. *)
Definition le (a b : num) : bool :=
  match a, b with Some x, Some y => x <=? y | _, _ => false end.
Definition lt (a b : num) : bool :=
  match a, b with Some x, Some y => x <? y | _, _ => false end.
Definition ge (a b : num) : bool := le b a.

(** [Number.isFinite]. *)
Definition isFinite (a : num) : bool :=
  match a with Some _ => true | None => false end.

(** [!!x] for a value that is a number, or null/undefined ([None]):
    null, undefined and 0 are falsy. *)
Definition truthy_num (x : option Z) : bool :=
  match x with
  | None => false
  | Some n => negb (n =? 0)
  end.

(** Truthiness of a string: only the empty string is falsy. *)
Definition truthy_str (s : string) : bool :=
  match s with EmptyString => false | _ => true end.

(** [a || b] on optional strings (undefined, null and the empty string are falsy). *)
Definition or_str (a : option string) (b : option string) : option string :=
  match a with
  | Some s => if truthy_str s then Some s else b
  | None => b
  end.

(** [a || d] with a string default. *)
Definition or_default (a : option string) (d : string) : string :=
  match a with
  | Some s => if truthy_str s then s else d
  | None => d
  end.

Definition lower_ascii (c : ascii) : ascii :=
  let n := nat_of_ascii c in
  if ((65 <=? n)%nat && (n <=? 90)%nat)%bool then ascii_of_nat (n + 32) else c.

(** [String.prototype.toLowerCase] on ASCII letters. *)
Fixpoint toLowerCase (s : string) : string :=
  match s with
  | EmptyString => EmptyString
  | String c r => String (lower_ascii c) (toLowerCase r)
  end.

(** [s.includes(k)]. *)
Fixpoint includes (s k : string) : bool :=
  if String.prefix k s then true
  else match s with
       | EmptyString => false
       | String _ r => includes r k
       end.

Definition is_space (c : ascii) : bool :=
  let n := nat_of_ascii c in
  ((n =? 32) || ((9 <=? n) && (n <=? 13)))%nat.

Fixpoint trimStart (s : string) : string :=
  match s with
  | String c r => if is_space c then trimStart r else s
  | EmptyString => EmptyString
  end.

Fixpoint rev_string (acc s : string) : string :=
  match s with
  | EmptyString => acc
  | String c r => rev_string (String c acc) r
  end.

(** [String.prototype.trim]. *)
Definition trim (s : string) : string :=
  rev_string EmptyString (trimStart (rev_string EmptyString (trimStart s))).

(** No character of [s] is [c]. *)
Fixpoint no_char (c : ascii) (s : string) : bool :=
  match s with
  | EmptyString => true
  | String x r => negb (Ascii.eqb x c) && no_char c r
  end.

(** [s.split(sep)] for a one-character separator: the pieces between
    the separators, a single piece when there is none. *)
Fixpoint split_go (sep : ascii) (cur : string) (s : string) : list string :=
  match s with
  | EmptyString => [rev_string EmptyString cur]
  | String c r =>
      if Ascii.eqb c sep then rev_string EmptyString cur :: split_go sep EmptyString r
      else split_go sep (String c cur) r
  end.
Definition split (sep : ascii) (s : string) : list string :=
  split_go sep EmptyString s.

Definition is_digit (c : ascii) : bool :=
  let n := nat_of_ascii c in ((48 <=? n) && (n <=? 57))%nat.

Definition digit_val (c : ascii) : Z := Z.of_nat (nat_of_ascii c) - 48.

Fixpoint all_digits (s : string) : bool :=
  match s with
  | EmptyString => true
  | String c r => is_digit c && all_digits r
  end.

Fixpoint digits_val (acc : Z) (s : string) : Z :=
  match s with
  | EmptyString => acc
  | String c r => digits_val (10 * acc + digit_val c) r
  end.

(** [Number(s)] on a string, for the decimal integer literals: white space
    around the literal is ignored, the empty (or blank) string is 0, an
    optional sign precedes the digits.  Every other string is NaN here:
    fractional, exponent, hexadecimal and Infinity literals lie outside
    this fragment and are not used by the properties below.  The value
    is the integer written, which is the value JavaScript holds up to
    2^53 - 1 (from 2^53 on a double rounds); the properties that depend
    on the value keep to texts below that. *)
Definition Number (s : string) : num :=
  match trim s with
  | EmptyString => Some 0
  | String "-" r =>
      if truthy_str r && all_digits r then Some (- digits_val 0 r) else None
  | String "+" r =>
      if truthy_str r && all_digits r then Some (digits_val 0 r) else None
  | r => if all_digits r then Some (digits_val 0 r) else None
  end.

(** The decimal text of an integer, as in a template literal. *)
Definition string_of_Z (z : Z) : string := NilZero.string_of_int (Z.to_int z).

(** The element at index [i] of an array of strings, [undefined] as [None]. *)
Definition at_index (l : list string) (i : nat) : option string := nth_error l i.

End JS.

(* ===================================================================== *)
(** ** The ECMAScript calendar (time values, ECMA-262 section 21.4.1) *)
(* ===================================================================== *)

Module Ecma.

Definition msPerSecond : Z := 1000.
Definition msPerMinute : Z := 60000.
Definition msPerHour : Z := 3600000.
Definition msPerDay : Z := 86400000.

Definition Day (t : Z) : Z := t / msPerDay.
Definition TimeWithinDay (t : Z) : Z := t mod msPerDay.

Definition DaysInYear (y : Z) : Z :=
  if negb (y mod 4 =? 0) then 365
  else if negb (y mod 100 =? 0) then 366
  else if negb (y mod 400 =? 0) then 365
  else 366.

Definition DayFromYear (y : Z) : Z :=
  365 * (y - 1970) + (y - 1969) / 4 - (y - 1901) / 100 + (y - 1601) / 400.

Definition TimeFromYear (y : Z) : Z := msPerDay * DayFromYear y.

(** The largest year [y] with [TimeFromYear y <= t]: an estimate from the
    mean length of a year, corrected by at most one. *)
Definition YearFromTime (t : Z) : Z :=
  let d := Day t in
  let e := 1970 + (400 * d) / 146097 in
  if DayFromYear (e + 1) <=? d then e + 1
  else if DayFromYear e <=? d then e
  else e - 1.

Definition InLeapYear (t : Z) : Z :=
  if DaysInYear (YearFromTime t) =? 366 then 1 else 0.

Definition DayWithinYear (t : Z) : Z := Day t - DayFromYear (YearFromTime t).

(** Month number, 0 = January. *)
Definition MonthFromTime (t : Z) : Z :=
  let d := DayWithinYear t in
  let l := InLeapYear t in
  if d <? 31 then 0
  else if d <? 59 + l then 1
  else if d <? 90 + l then 2
  else if d <? 120 + l then 3
  else if d <? 151 + l then 4
  else if d <? 181 + l then 5
  else if d <? 212 + l then 6
  else if d <? 243 + l then 7
  else if d <? 273 + l then 8
  else if d <? 304 + l then 9
  else if d <? 334 + l then 10
  else 11.

(** Number of days before the first of month [m] (0 = January) in a year
    with [l] leap days. *)
Definition monthStart (m l : Z) : Z :=
  match m with
  | 0 => 0
  | 1 => 31
  | 2 => 59 + l
  | 3 => 90 + l
  | 4 => 120 + l
  | 5 => 151 + l
  | 6 => 181 + l
  | 7 => 212 + l
  | 8 => 243 + l
  | 9 => 273 + l
  | 10 => 304 + l
  | _ => 334 + l
  end.

(** Day of the month, 1..31. *)
Definition DateFromTime (t : Z) : Z :=
  DayWithinYear t - monthStart (MonthFromTime t) (InLeapYear t) + 1.

(** 0 = Sunday .. 6 = Saturday. *)
Definition WeekDay (t : Z) : Z := (Day t + 4) mod 7.

Definition HourFromTime (t : Z) : Z := (t / msPerHour) mod 24.
Definition MinFromTime (t : Z) : Z := (t / msPerMinute) mod 60.
Definition SecFromTime (t : Z) : Z := (t / msPerSecond) mod 60.
Definition msFromTime (t : Z) : Z := t mod msPerSecond.

Definition MakeTime (hour min sec ms : Z) : Z :=
  hour * msPerHour + min * msPerMinute + sec * msPerSecond + ms.

Definition MakeDay (year month date : Z) : Z :=
  let ym := year + month / 12 in
  let mn := month mod 12 in
  let l := if DaysInYear ym =? 366 then 1 else 0 in
  DayFromYear ym + monthStart mn l + date - 1.

Definition MakeDate (day time : Z) : Z := day * msPerDay + time.

(** [TimeClip]: a time value beyond 8.64e15 ms from the epoch is NaN. *)
Definition TimeClip (t : Z) : option Z :=
  if Z.abs t >? 8640000000000000 then None else Some t.

(** Number of days of month [m] (1 = January) of year [y]. *)
Definition daysInMonth (y m : Z) : Z :=
  let l := if DaysInYear y =? 366 then 1 else 0 in
  match m with
  | 2 => 28 + l
  | 4 | 6 | 9 | 11 => 30
  | _ => 31
  end.

End Ecma.

(* ===================================================================== *)
(** ** The JavaScript [Date] object in the local time zone of the process *)
(* ===================================================================== *)

Module JSDate.
Import Ecma.

(** A [Date]: its time value, [None] for NaN (Invalid Date). *)
Definition Date := option Z.

Section LocalZone.
(** [LocalTZA t isUTC]: the offset of the local zone in milliseconds, at
    the UTC time value [t] ([isUTC = true]) or at the local time value
    [t] ([isUTC = false]). *)
Variable LocalTZA : Z -> bool -> Z.

Definition LocalTime (t : Z) : Z := t + LocalTZA t true.
Definition UTC (t : Z) : Z := t - LocalTZA t false.

(** [d.getFullYear()]: NaN for an invalid date. *)
Definition getFullYear (d : Date) : JS.num :=
  match d with
  | Some t => Some (YearFromTime (LocalTime t))
  | None => None
  end.

(** [d.setFullYear(y)]: the new time value of [d]. *)
Definition setFullYear (d : Date) (y : Z) : Date :=
  let t := match d with Some t => LocalTime t | None => 0 end in
  let newDate := MakeDay y (MonthFromTime t) (DateFromTime t) in
  TimeClip (UTC (MakeDate newDate (TimeWithinDay t))).

(** [a < b] on two dates (their time values are compared). *)
Definition date_lt (a b : Date) : bool := JS.lt a b.

(** The local calendar fields that [getCurrentDateTimeISO] prints:
    year, month (1-12), day, hours, minutes, seconds. *)
Record Fields := mkFields {
  f_year : Z; f_month : Z; f_day : Z;
  f_hours : Z; f_minutes : Z; f_seconds : Z }.

Definition localFields (t : Z) : Fields :=
  let l := LocalTime t in
  mkFields (YearFromTime l) (MonthFromTime l + 1) (DateFromTime l)
           (HourFromTime l) (MinFromTime l) (SecFromTime l).

(** [new Date("YYYY-MM-DDTHH:mm:ss")]: a date-time without offset is
    read as local time.  The year is printed without padding, so the
    text is in the ISO format only for a four-digit year; for any other
    year the result is left as Invalid Date. *)
Definition parseLocal (f : Fields) : Date :=
  if (1000 <=? f_year f) && (f_year f <=? 9999) then
    TimeClip (UTC (MakeDate (MakeDay (f_year f) (f_month f - 1) (f_day f))
                            (MakeTime (f_hours f) (f_minutes f) (f_seconds f) 0)))
  else None.
End LocalZone.

(** A process whose local zone is a fixed offset of [off] minutes. *)
Definition fixedTZA (off : Z) : Z -> bool -> Z := fun _ _ => off * msPerMinute.

End JSDate.

(* ===================================================================== *)
(** ** luxon: the operations the sources call, for one time zone *)
(* ===================================================================== *)

Module Luxon.

(** A luxon [DateTime] in the zone at hand: its epoch milliseconds, [None]
    when the DateTime is invalid (its [valueOf()] is then NaN, its
    [toISO()] is null, and [plus]/[set] return it unchanged). *)
Definition DateTime := option Z.

(** Calendar fields of a DateTime in its zone. *)
Record Fields := mkFields {
  year : Z; month : Z; day : Z; hour : Z; minute : Z }.

(** The zone-dependent part of luxon, on valid DateTimes.  luxon is an
    external library: the sources are modelled over any implementation of
    this interface, and [FixedOffset] below provides one. *)
Class Zone := {
  (** [dt.plus({ days: n })]: calendar days in the zone. *)
  plusDaysTs : Z -> Z -> Z;
  (** [dt.set({ hour: h, minute: 0, second: 0, millisecond: 0 })]. *)
  setHourTs : Z -> Z -> Z;
  (** [dt.set({ year: y })]. *)
  setYearTs : Z -> Z -> Z;
  (** [dt.year], [dt.month], [dt.day], [dt.hour], [dt.minute]. *)
  fieldsOf : Z -> Fields;
  (** [DateTime.fromObject({ year, month, day, hour, minute, second: 0,
      millisecond: 0 }, { zone })]; invalid when a field is out of range. *)
  fromObject : Fields -> DateTime;
  (** [DateTime.fromFormat(text, fmt, { zone })] evaluated when the clock
      reads [clock]; the arguments are [clock], [fmt] and [text]. *)
  fromFormat : Z -> string -> string -> DateTime;
  (** [DateTime.fromISO(text, { zone })]. *)
  fromISO : string -> DateTime
}.

Section Ops.
Context `{Zone}.

Definition plusDays (n : Z) (dt : DateTime) : DateTime :=
  match dt with Some t => Some (plusDaysTs n t) | None => None end.

(** [dt.plus({ minutes: n })]: an exact duration. *)
Definition plusMinutes (n : Z) (dt : DateTime) : DateTime :=
  match dt with Some t => Some (t + n * Ecma.msPerMinute) | None => None end.

Definition setHour (h : Z) (dt : DateTime) : DateTime :=
  match dt with Some t => Some (setHourTs h t) | None => None end.

Definition setYear (y : Z) (dt : DateTime) : DateTime :=
  match dt with Some t => Some (setYearTs y t) | None => None end.

(** [DateTime.fromJSDate(d, { zone }).setZone(zone)]. *)
Definition fromJSDate (d : JSDate.Date) : DateTime := d.

(** [dt.toJSDate()]. *)
Definition toJSDate (dt : DateTime) : JSDate.Date := dt.

(** [a <= b] between DateTimes: a comparison of their [valueOf()]. *)
Definition dt_le (a b : DateTime) : bool := JS.le a b.

(** [dt.toISO()]: the ISO text of the instant, null when invalid.  The
    text is represented by the instant it denotes. *)
Definition toISO (dt : DateTime) : option Z := dt.

Definition isValid (dt : DateTime) : bool :=
  match dt with Some _ => true | None => false end.
End Ops.

End Luxon.

(* ===================================================================== *)
(** ** services/date-parser.js *)
(* ===================================================================== *)

Module DateParser.
Import Luxon.

(** function pickDefaultHourByHint(text) *)
Definition pickDefaultHourByHint (text : string) : option Z :=
  let t := JS.toLowerCase text in
  if JS.includes t "morning" then Some 9
  else if JS.includes t "afternoon" then Some 14
  else if JS.includes t "evening" then Some 18
  else None.

(** What the sources read from the first result of chrono-node:
    [r.start.date()], [r.start.isCertain('hour')] and
    [r.start.get('weekday')] (null when the phrase names no weekday,
    otherwise chrono's weekday number, 0 = Sunday .. 6 = Saturday). *)
Record ParsedResult := mkParsed {
  start_date : JSDate.Date;
  hour_certain : bool;
  start_weekday : option Z }.

Section Resolver.
Context `{Zone}.

(** [chrono.casual.parse(text, refDate, { forwardDate: true })]. *)
Variable chrono_parse : string -> JSDate.Date -> list ParsedResult.

(** function ensureFuture(dt, now, weekdayBias = false) *)
Definition ensureFuture (dt now : DateTime) (weekdayBias : bool) : DateTime :=
  if dt_le dt now then
    let future := if weekdayBias then plusDays 7 dt else plusDays 1 dt in
    if dt_le future now then plusMinutes 5 now else future
  else dt.

(** Lines 27-34: the DateTime of the first result, with the default hour
    of the hint when the hour is not certain. *)
Definition withDefaultHour (text : string) (r : ParsedResult) : DateTime :=
  let dt := fromJSDate (start_date r) in
  if negb (hour_certain r) then
    match pickDefaultHourByHint text with
    | Some defaultHour => setHour defaultHour dt
    | None => dt
    end
  else dt.

(** [!!r.start.get('weekday')] *)
Definition weekdayBiasOf (r : ParsedResult) : bool :=
  JS.truthy_num (start_weekday r).

(** The reference DateTime: [now] when the caller passes a DateTime,
    otherwise the clock in the zone. *)
Definition refOf (now : option DateTime) (clock : Z) : DateTime :=
  match now with
  | Some d => d
  | None => Some clock
  end.

(** function parseRelativeDateToISO({ text, timezone, now }).
    [None] is the null result. *)
Definition parseRelativeDateToISO
    (text : string) (now : option DateTime) (clock : Z) : option Z :=
  let ref := refOf now clock in
  match chrono_parse text (toJSDate ref) with
  | [] => None
  | r :: _ =>
      let dt := withDefaultHour text r in
      let weekdayBias := weekdayBiasOf r in
      toISO (ensureFuture dt ref weekdayBias)
  end.
End Resolver.

End DateParser.

(* ===================================================================== *)
(** ** services/datetime.js *)
(* ===================================================================== *)

Module Datetime.
Import JSDate.

(** The argument of [ensureFutureIso]: a falsy value (undefined, null or
    the empty string), or a text together with the result of
    [new Date(text)]. *)
Inductive IsoInput :=
| Falsy
| Text (raw : string) (parsed : Date).

(** Its result: the argument handed back as it came, the
    [toISOString()] text of a time value (represented by that time
    value), or the RangeError that [toISOString()] throws on an invalid
    date. *)
Inductive IsoOutput :=
| Unchanged (i : IsoInput)
| IsoString (t : Z)
| RangeError.

Section LocalZone.
Variable LocalTZA : Z -> bool -> Z.

(** function getCurrentDateTimeISO(), as the fields it prints. *)
Definition getCurrentDateTimeISO (clock : Z) : Fields :=
  localFields LocalTZA clock.

(** [new Date(getCurrentDateTimeISO().replace(' ', 'T'))]: the reference
    instant, the clock without its milliseconds. *)
Definition referenceOf (clock : Z) : Date :=
  parseLocal LocalTZA (getCurrentDateTimeISO clock).

(** [candidate.toISOString()] *)
Definition toISOString (d : Date) : IsoOutput :=
  match d with
  | Some t => IsoString t
  | None => RangeError
  end.

(** function ensureFutureIso(inputIso), when the clock reads [clock]. *)
Definition ensureFutureIso (clock : Z) (inputIso : IsoInput) : IsoOutput :=
  match inputIso with
  | Falsy => Unchanged inputIso
  | Text _ parsed =>
      let now := referenceOf clock in
      match parsed with
      | None => Unchanged inputIso
      | Some _ =>
          let candidate := parsed in
          let currentYear := getFullYear LocalTZA now in
          let candidate :=
            if JS.lt (getFullYear LocalTZA candidate) currentYear then
              match currentYear with
              | Some y => setFullYear LocalTZA candidate y
              | None => candidate
              end
            else candidate in
          let candidate :=
            if date_lt candidate now then
              match getFullYear LocalTZA candidate with
              | Some y => setFullYear LocalTZA candidate (y + 1)
              | None => candidate
              end
            else candidate in
          toISOString candidate
      end
  end.
End LocalZone.

End Datetime.

(* ===================================================================== *)
(** ** luxon in a zone with a fixed offset from UTC *)
(* ===================================================================== *)

Module FixedOffset.
Import Ecma Luxon.

(** The pieces of a luxon format, as the regular expression luxon builds
    from them: [H], [h], [M], [d] are one or two digits, [mm] two digits,
    [yyyy] four digits, [a] the meridiem, anything else a literal. *)
Inductive token :=
| OneOrTwo
| Two
| Four
| Lit (c : ascii)
| Meridiem.

Definition take_digit (s : string) : option (Z * string) :=
  match s with
  | String c r => if JS.is_digit c then Some (JS.digit_val c, r) else None
  | EmptyString => None
  end.

Fixpoint take_digits (n : nat) (acc : Z) (s : string) : option (Z * string) :=
  match n with
  | O => Some (acc, s)
  | S k =>
      match take_digit s with
      | Some (d, r) => take_digits k (10 * acc + d) r
      | None => None
      end
  end.

(** "am" is 0 and "pm" is 1, in either case. *)
Definition take_meridiem (s : string) : option (Z * string) :=
  match s with
  | String a (String m r) =>
      if Ascii.eqb (JS.lower_ascii m) "m" then
        if Ascii.eqb (JS.lower_ascii a) "a" then Some (0, r)
        else if Ascii.eqb (JS.lower_ascii a) "p" then Some (1, r)
        else None
      else None
  | _ => None
  end.

(** Match the whole text against the tokens (anchored at both ends, the
    longer alternative of [OneOrTwo] first), collecting the values. *)
Fixpoint match_tokens (ts : list token) (s : string) : option (list Z) :=
  match ts with
  | [] => match s with EmptyString => Some [] | _ => None end
  | tk :: rest =>
      let continue (r : option (Z * string)) : option (list Z) :=
        match r with
        | Some (v, s') =>
            match match_tokens rest s' with
            | Some vs => Some (v :: vs)
            | None => None
            end
        | None => None
        end in
      match tk with
      | OneOrTwo =>
          match continue (take_digits 2 0 s) with
          | Some vs => Some vs
          | None => continue (take_digits 1 0 s)
          end
      | Two => continue (take_digits 2 0 s)
      | Four => continue (take_digits 4 0 s)
      | Meridiem => continue (take_meridiem s)
      | Lit c =>
          match s with
          | String c' s' => if Ascii.eqb c c' then match_tokens rest s' else None
          | EmptyString => None
          end
      end
  end.

(** The hour of an [h] field with its meridiem. *)
Definition hour12 (h a : Z) : Z :=
  if (h <? 12) && (a =? 1) then h + 12
  else if (h =? 12) && (a =? 0) then 0
  else h.

Section WithOffset.
(** Minutes east of UTC. *)
Variable off : Z.

Definition toLocal (ts : Z) : Z := ts + off * msPerMinute.
Definition ofLocal (l : Z) : Z := l - off * msPerMinute.

(** luxon's [objToLocalTS]. *)
Definition objToLocalTS (y m d h mi s ms : Z) : Z :=
  MakeDate (MakeDay y (m - 1) d) (MakeTime h mi s ms).

Definition fo_fieldsOf (ts : Z) : Fields :=
  let l := toLocal ts in
  mkFields (YearFromTime l) (MonthFromTime l + 1) (DateFromTime l)
           (HourFromTime l) (MinFromTime l).

Definition fo_plusDaysTs (n ts : Z) : Z :=
  let l := toLocal ts in
  let y := YearFromTime l in
  let m := MonthFromTime l + 1 in
  let d := Z.min (DateFromTime l) (daysInMonth y m) + n in
  ofLocal (objToLocalTS y m d (HourFromTime l) (MinFromTime l)
                        (SecFromTime l) (msFromTime l)).

Definition fo_setHourTs (h ts : Z) : Z :=
  let l := toLocal ts in
  ofLocal (objToLocalTS (YearFromTime l) (MonthFromTime l + 1)
                        (DateFromTime l) h 0 0 0).

Definition fo_setYearTs (y ts : Z) : Z :=
  let l := toLocal ts in
  let m := MonthFromTime l + 1 in
  let d := Z.min (daysInMonth y m) (DateFromTime l) in
  ofLocal (objToLocalTS y m d (HourFromTime l) (MinFromTime l)
                        (SecFromTime l) (msFromTime l)).

(** The validity test of [fromObject] for integer fields with
    [second = 0] and [millisecond = 0]. *)
Definition validFields (f : Fields) : bool :=
  (1 <=? month f) && (month f <=? 12)
  && (1 <=? day f) && (day f <=? daysInMonth (year f) (month f))
  && (((0 <=? hour f) && (hour f <=? 23)) || ((hour f =? 24) && (minute f =? 0)))
  && (0 <=? minute f) && (minute f <=? 59).

Definition fo_fromObject (f : Fields) : DateTime :=
  if validFields f then
    Some (ofLocal (objToLocalTS (year f) (month f) (day f) (hour f) (minute f) 0 0))
  else None.

(** [fromFormat] for the formats the server passes.  Fields that precede
    the first parsed one default to the current date, those that follow
    to their minimum. *)
Definition fo_fromFormat (clock : Z) (fmt text : string) : DateTime :=
  let now := fo_fieldsOf clock in
  if String.eqb fmt "H:mm" then
    match match_tokens [OneOrTwo; Lit ":"; Two] text with
    | Some [h; mi] => fo_fromObject (mkFields (year now) (month now) (day now) h mi)
    | _ => None
    end
  else if String.eqb fmt "h:mm a" then
    match match_tokens [OneOrTwo; Lit ":"; Two; Lit " "; Meridiem] text with
    | Some [h; mi; a] =>
        fo_fromObject (mkFields (year now) (month now) (day now) (hour12 h a) mi)
    | _ => None
    end
  else if String.eqb fmt "h a" then
    match match_tokens [OneOrTwo; Lit " "; Meridiem] text with
    | Some [h; a] =>
        fo_fromObject (mkFields (year now) (month now) (day now) (hour12 h a) 0)
    | _ => None
    end
  else if String.eqb fmt "H" then
    match match_tokens [OneOrTwo] text with
    | Some [h] => fo_fromObject (mkFields (year now) (month now) (day now) h 0)
    | _ => None
    end
  else if String.eqb fmt "M/d/yyyy" then
    match match_tokens [OneOrTwo; Lit "/"; OneOrTwo; Lit "/"; Four] text with
    | Some [m; d; y] => fo_fromObject (mkFields y m d 0 0)
    | _ => None
    end
  else if String.eqb fmt "M/d" then
    match match_tokens [OneOrTwo; Lit "/"; OneOrTwo] text with
    | Some [m; d] => fo_fromObject (mkFields (year now) m d 0 0)
    | _ => None
    end
  else None.

(** [fromISO] for the extended calendar form [YYYY-MM-DDTHH:mm] with
    optional [:ss]; the other ISO 8601 forms (week and ordinal dates,
    the basic format, explicit offsets) are not recognised by this
    instance. *)
Definition fo_fromISO (text : string) : DateTime :=
  match match_tokens [Four; Lit "-"; Two; Lit "-"; Two; Lit "T"; Two; Lit ":"; Two] text with
  | Some [y; m; d; h; mi] => fo_fromObject (mkFields y m d h mi)
  | _ =>
      match match_tokens [Four; Lit "-"; Two; Lit "-"; Two; Lit "T"; Two; Lit ":"; Two;
                          Lit ":"; Two] text with
      | Some [y; m; d; h; mi; s] =>
          if (s <=? 59) && validFields (mkFields y m d h mi) then
            Some (ofLocal (objToLocalTS y m d h mi s 0))
          else None
      | _ => None
      end
  end.

Definition zone : Zone := {|
  plusDaysTs := fo_plusDaysTs;
  setHourTs := fo_setHourTs;
  setYearTs := fo_setYearTs;
  fieldsOf := fo_fieldsOf;
  fromObject := fo_fromObject;
  fromFormat := fo_fromFormat;
  fromISO := fo_fromISO
|}.
End WithOffset.

End FixedOffset.

(* ===================================================================== *)
(** ** server.js: business hours *)
(* ===================================================================== *)

Module BusinessHours.

(** The configuration handed to the checks:
    [{ timezone, hoursRange, daysSpec }]. *)
Record Policy := mkPolicy {
  timezone : string;
  hoursRange : string;
  daysSpec : string }.

Definition allDays : gset Z := list_to_set [0; 1; 2; 3; 4; 5; 6].

(** The days one comma-separated part of the specification adds, for
    numbers that [JS.Number] reads as the code does and ranges that the
    loop [for (d = min; d <= max; d++) days.add(d)] runs through: decimal
    integers, far below 2^53 and below the capacity of a [Set].  (Beyond,
    the loop of the code does not end or throws into the [catch], which
    opens all seven days; the properties below keep to small numbers.) *)
Definition daysOfPart (part : string) : gset Z :=
  let p := JS.trim part in
  if negb (JS.truthy_str p) then ∅
  else if JS.includes p "-" then
    let nums := map JS.Number (JS.split "-" p) in
    match nums with
    | Some a :: Some b :: _ =>
        list_to_set (seqZ (Z.min a b) (Z.max a b - Z.min a b + 1))
    | _ => ∅
    end
  else
    match JS.Number p with
    | Some n => {[ n ]}
    | None => ∅
    end.

(** function parseBusinessDays(spec).  Its [catch], which answers all
    seven days, is reached only when the loop of a range throws (see
    [daysOfPart]). *)
Definition parseBusinessDays (spec : string) : gset Z :=
  if negb (JS.truthy_str spec) then allDays
  else
    let days := foldl (fun acc part => acc ∪ daysOfPart part) ∅ (JS.split "," spec) in
    if bool_decide (days = ∅) then allDays else days.

(** One part of [Intl.DateTimeFormat.prototype.formatToParts]: its type
    and its value. *)
Definition part := (string * string)%type.

(** [parts.find((p) => p.type === ty)?.value] *)
Fixpoint findPart (ty : string) (parts : list part) : option string :=
  match parts with
  | [] => None
  | (t, v) :: rest => if String.eqb t ty then Some v else findPart ty rest
  end.

(** [map[weekdayStr] ?? 0] for the table of short weekday names. *)
Definition weekdayIndex (w : string) : Z :=
  if String.eqb w "Sun" then 0
  else if String.eqb w "Mon" then 1
  else if String.eqb w "Tue" then 2
  else if String.eqb w "Wed" then 3
  else if String.eqb w "Thu" then 4
  else if String.eqb w "Fri" then 5
  else if String.eqb w "Sat" then 6
  else 0.

(** [hour * 60 + minute] on numbers that may be NaN. *)
Definition minutesOf (hour minute : JS.num) : JS.num :=
  match hour, minute with
  | Some h, Some m => Some (h * 60 + m)
  | _, _ => None
  end.

(** [Number.isFinite(x) ? x : d] for an element of a destructured array
    (absent elements are undefined). *)
Definition finiteOr (x : option JS.num) (d : Z) : Z :=
  match x with
  | Some (Some n) => n
  | _ => d
  end.

(** The minute of the day of one end of the range,
    [(isFinite(h) ? h : dh) * 60 + (isFinite(m) ? m : dm)] for
    [[h, m] = str.split(':').map(Number)]. *)
Definition minuteOfSide (str : string) (dh dm : Z) : Z :=
  let nums := map JS.Number (JS.split ":" str) in
  finiteOr (nth_error nums 0) dh * 60 + finiteOr (nth_error nums 1) dm.

(** The open and close minute of the day computed from [hoursRange]. *)
Definition windowOf (hoursRange : string) : Z * Z :=
  let parts := JS.split "-" hoursRange in
  let openStr := JS.or_default (nth_error parts 0) "00:00" in
  let closeStr := JS.or_default (nth_error parts 1) "23:59" in
  let openMin := minuteOfSide openStr 0 0 in
  let closeMin := minuteOfSide closeStr 23 59 in
  (openMin, closeMin).

(** [minutes >= openMin && minutes <= closeMin] *)
Definition inWindow (minutes : JS.num) (w : Z * Z) : bool :=
  JS.ge minutes (Some (fst w)) && JS.le minutes (Some (snd w)).

Section WithIntl.
(** [new Intl.DateTimeFormat('en-US', { timeZone: tz, hour12: false,
    weekday: 'short', hour: '2-digit', minute: '2-digit' })
    .formatToParts(date)]; [None] when the formatter throws (an unknown
    time zone). *)
Variable formatToParts : string -> Z -> option (list part).

(** function getPartsForDateInTimezone(date, tz): the pair
    [{ day, minutes }], [None] when it throws. *)
Definition getPartsForDateInTimezone (date : Z) (tz : string) : option (Z * JS.num) :=
  match formatToParts tz date with
  | None => None
  | Some parts =>
      let hour := JS.Number (JS.or_default (findPart "hour" parts) "0") in
      let minute := JS.Number (JS.or_default (findPart "minute" parts) "0") in
      let weekdayStr := JS.or_default (findPart "weekday" parts) "Sun" in
      Some (weekdayIndex weekdayStr, minutesOf hour minute)
  end.

(** function isWithinBusinessHoursAt(isoString, { timezone, hoursRange,
    daysSpec }), on the date [new Date(isoString)]. *)
Definition isWithinBusinessHoursAt (d : JSDate.Date) (p : Policy) : bool :=
  match d with
  | None => false
  | Some t =>
      let days := parseBusinessDays (daysSpec p) in
      match getPartsForDateInTimezone t (timezone p) with
      | None => false
      | Some (day, minutes) =>
          if negb (bool_decide (day ∈ days)) then false
          else inWindow minutes (windowOf (hoursRange p))
      end
  end.

(** function getNowPartsInTimezone(tz), when the clock reads [clock]:
    the same reading of the parts, of [new Date()]. *)
Definition getNowPartsInTimezone (clock : Z) (tz : string) : option (Z * JS.num) :=
  match formatToParts tz clock with
  | None => None
  | Some parts =>
      let hour := JS.Number (JS.or_default (findPart "hour" parts) "0") in
      let minute := JS.Number (JS.or_default (findPart "minute" parts) "0") in
      let weekdayStr := JS.or_default (findPart "weekday" parts) "Sun" in
      Some (weekdayIndex weekdayStr, minutesOf hour minute)
  end.

(** function isBusinessOpen({ timezone, hoursRange, daysSpec }), when
    the clock reads [clock]; it answers true when something throws. *)
Definition isBusinessOpen (clock : Z) (p : Policy) : bool :=
  let days := parseBusinessDays (daysSpec p) in
  match getNowPartsInTimezone clock (timezone p) with
  | None => true
  | Some (day, minutes) =>
      if negb (bool_decide (day ∈ days)) then false
      else inWindow minutes (windowOf (hoursRange p))
  end.
End WithIntl.

(** function businessDaysHuman(spec) *)
Definition businessDaysHuman (spec : string) : string :=
  let s := JS.trim spec in
  if String.eqb s "1-5" then "Mon–Fri"
  else if String.eqb s "0-6" then "Sun–Sat"
  else JS.or_default (Some s) "Mon–Fri".

(** A formatter for a zone at a fixed offset of [off] minutes (whatever
    its name), built on the ECMAScript calendar. *)
Definition two_digits (n : Z) : string :=
  String (ascii_of_nat (Z.to_nat (48 + n / 10)))
    (String (ascii_of_nat (Z.to_nat (48 + n mod 10))) EmptyString).

(** The text [HH:MM] of an hour and a minute. *)
Definition hhmm (h m : Z) : string := two_digits h ++ ":" ++ two_digits m.

(** The text [HH:MM] of [h] and [m] has no dash, is not empty, and is read
    back as minute [h * 60 + m] whatever the defaults. *)
Definition side_ok (h m : Z) : bool :=
  JS.no_char "-" (hhmm h m) && JS.truthy_str (hhmm h m)
  && (minuteOfSide (hhmm h m) 0 0 =? h * 60 + m) && (minuteOfSide (hhmm h m) 23 59 =? h * 60 + m).

Definition weekdayName (w : Z) : string :=
  match w with
  | 0 => "Sun" | 1 => "Mon" | 2 => "Tue" | 3 => "Wed"
  | 4 => "Thu" | 5 => "Fri" | _ => "Sat"
  end.

Definition fixedFormatToParts (off : Z) (tz : string) (t : Z) : option (list part) :=
  let l := t + off * Ecma.msPerMinute in
  Some [ ("weekday", weekdayName (Ecma.WeekDay l));
         ("literal", ", ");
         ("hour", two_digits (Ecma.HourFromTime l));
         ("literal", ":");
         ("minute", two_digits (Ecma.MinFromTime l)) ].

End BusinessHours.

(* ===================================================================== *)
(** ** JSON texts: what [JSON.parse] accepts *)
(* ===================================================================== *)

Module Json.

(** The double quote. *)
Definition dq : ascii := "034"%char.

(** A JSON string literal with the content [s]. *)
Definition quoted (s : string) : string := String dq (s ++ String dq EmptyString).

Definition is_ws (c : ascii) : bool :=
  let n := nat_of_ascii c in
  ((n =? 32) || (n =? 9) || (n =? 10) || (n =? 13))%nat.

Fixpoint skip_ws (s : string) : string :=
  match s with
  | String c r => if is_ws c then skip_ws r else s
  | EmptyString => EmptyString
  end.

Definition is_hex (c : ascii) : bool :=
  let n := nat_of_ascii c in
  (((48 <=? n) && (n <=? 57)) || ((65 <=? n) && (n <=? 70))
   || ((97 <=? n) && (n <=? 102)))%nat.

(** The rest of the text after the closing quote of a string literal whose
    opening quote has been read. *)
Fixpoint string_rest (s : string) : option string :=
  match s with
  | EmptyString => None
  | String c r =>
      if Ascii.eqb c dq then Some r
      else if Ascii.eqb c "\" then
        match r with
        | String e r' =>
            if Ascii.eqb e "u" then
              match r' with
              | String h1 (String h2 (String h3 (String h4 r''))) =>
                  if is_hex h1 && is_hex h2 && is_hex h3 && is_hex h4
                  then string_rest r'' else None
              | _ => None
              end
            else if Ascii.eqb e dq || Ascii.eqb e "\" || Ascii.eqb e "/"
                    || Ascii.eqb e "b" || Ascii.eqb e "f" || Ascii.eqb e "n"
                    || Ascii.eqb e "r" || Ascii.eqb e "t"
            then string_rest r' else None
        | EmptyString => None
        end
      else if (nat_of_ascii c <? 32)%nat then None
      else string_rest r
  end.

Fixpoint skip_digits (s : string) : string :=
  match s with
  | String c r => if JS.is_digit c then skip_digits r else s
  | EmptyString => EmptyString
  end.

(** One or more digits. *)
Definition digits1 (s : string) : option string :=
  match s with
  | String c r => if JS.is_digit c then Some (skip_digits r) else None
  | EmptyString => None
  end.

(** The rest of the text after a number literal. *)
Definition number_rest (s : string) : option string :=
  let s1 := match s with String "-" r => r | _ => s end in
  let int_part :=
    match s1 with
    | String "0" r => Some r
    | _ => digits1 s1
    end in
  match int_part with
  | None => None
  | Some s2 =>
      let frac :=
        match s2 with
        | String "." r => digits1 r
        | _ => Some s2
        end in
      match frac with
      | None => None
      | Some s3 =>
          match s3 with
          | String e r =>
              if Ascii.eqb e "e" || Ascii.eqb e "E" then
                match r with
                | String sg r' =>
                    if Ascii.eqb sg "+" || Ascii.eqb sg "-" then digits1 r'
                    else digits1 r
                | EmptyString => None
                end
              else Some s3
          | EmptyString => Some s3
          end
      end
  end.

Definition literal_rest (lit s : string) : option string :=
  if String.prefix lit s
  then Some (String.substring (String.length lit)
                              (String.length s - String.length lit) s)
  else None.

(** The rest of the text after one JSON value at the head of [s];
    [n] bounds the number of nested calls. *)
Fixpoint value_rest (n : nat) (s : string) : option string :=
  match n with
  | O => None
  | S k =>
      match s with
      | String c r =>
          if Ascii.eqb c "{" then
            match skip_ws r with
            | String "}" r' => Some r'
            | r' => members_rest k r'
            end
          else if Ascii.eqb c "[" then
            match skip_ws r with
            | String "]" r' => Some r'
            | r' => elements_rest k r'
            end
          else if Ascii.eqb c dq then string_rest r
          else if Ascii.eqb c "t" then literal_rest "true" s
          else if Ascii.eqb c "f" then literal_rest "false" s
          else if Ascii.eqb c "n" then literal_rest "null" s
          else number_rest s
      | EmptyString => None
      end
  end
(** After an opening brace and white space: one or more members, then the
    closing brace. *)
with members_rest (n : nat) (s : string) : option string :=
  match n with
  | O => None
  | S k =>
      match s with
      | String c r =>
          if Ascii.eqb c dq then
            match string_rest r with
            | Some r1 =>
                match skip_ws r1 with
                | String ":" r2 =>
                    match value_rest k (skip_ws r2) with
                    | Some r3 =>
                        match skip_ws r3 with
                        | String "," r4 => members_rest k (skip_ws r4)
                        | String "}" r4 => Some r4
                        | _ => None
                        end
                    | None => None
                    end
                | _ => None
                end
            | None => None
            end
          else None
      | EmptyString => None
      end
  end
(** After an opening bracket and white space: one or more elements, then
    the closing bracket. *)
with elements_rest (n : nat) (s : string) : option string :=
  match n with
  | O => None
  | S k =>
      match value_rest k s with
      | Some r1 =>
          match skip_ws r1 with
          | String "," r2 => elements_rest k (skip_ws r2)
          | String "]" r2 => Some r2
          | _ => None
          end
      | None => None
      end
  end.

(** [JSON.parse(s)] returns (rather than throws a SyntaxError) exactly
    when [s] is one JSON value surrounded by optional white space.  Along
    a chain of nested calls every call has a character of the text of its
    own (a bracket, a brace, a colon or a comma), so twice the length of
    the text is more than enough for their number. *)
Definition parses (s : string) : bool :=
  match value_rest (S (2 * String.length s)) (skip_ws s) with
  | Some r => match skip_ws r with EmptyString => true | _ => false end
  | None => false
  end.

End Json.

(* ===================================================================== *)
(** ** services/hume-tool-handler.js *)
(* ===================================================================== *)

Module ToolHandler.

(** The fields the handler reads from a tool-call message; an absent (or
    null) field is [None]. *)
Record ToolCallMessage := mkToolCall {
  name : option string;
  tool_name : option string;
  toolCallId : option string;
  tool_call_id : option string;
  parameters : option string;
  args : option string }.

(** The messages written to the socket. *)
Inductive reply :=
| tool_error (toolCallId : option string) (error content : string)
             (fallback_content : option string)
| tool_response (toolCallId : option string) (content : string).

(** The body of the POST: [JSON.stringify(JSON.parse(src))]. *)
Inductive body := StringifyParsed (src : string).

(** What the handler does to the outside world. *)
Inductive effect :=
| Sent (r : reply)
| Posted (url : string) (b : body).

(** A thrown value: [err.message] and [String(err)]. *)
Record exn := mkExn { message : string; asString : string }.

(** The outcome of the request, as far as the handler looks at it. *)
Inductive text_result := TextOk (text : string) | TextThrows (e : exn).
(** [await resp.json()]: the serialisation of [data.event] when that
    field is truthy, and the serialisation of [data]. *)
Inductive json_result :=
| JsonOk (event : option string) (data : string)
| JsonThrows (e : exn).
(** The response: [resp.ok], [resp.status], [await resp.text()] and
    [await resp.json()]. *)
Record response := mkResponse {
  ok : bool;
  status : Z;
  text : text_result;
  json : json_result }.
(** [await fetch(...)]: a network failure rejects. *)
Inductive fetch_result :=
| FetchThrows (e : exn)
| FetchOk (resp : response).

(** The socket passed to the handler: whether it exposes
    [sendToolResponseMessage] and [sendToolErrorMessage].  A method that
    is present writes the message to the socket. *)
Record Socket := mkSocket {
  has_sendToolResponseMessage : bool;
  has_sendToolErrorMessage : bool }.

(** Computations that log effects and may throw. *)
Inductive outcome (A : Type) :=
| Returned (a : A)
| Thrown (e : exn).
Arguments Returned {A} a.
Arguments Thrown {A} e.

Definition Eff (A : Type) : Type := list effect -> outcome A * list effect.

Definition ret {A} (a : A) : Eff A := fun tr => (Returned a, tr).
Definition bind {A B} (m : Eff A) (k : A -> Eff B) : Eff B :=
  fun tr =>
    match m tr with
    | (Returned a, tr') => k a tr'
    | (Thrown e, tr') => (Thrown e, tr')
    end.
Definition throw {A} (e : exn) : Eff A := fun tr => (Thrown e, tr).
Definition emit (e : effect) : Eff unit := fun tr => (Returned tt, (tr ++ [e])%list).
Definition try_catch {A} (m : Eff A) (handler : exn -> Eff A) : Eff A :=
  fun tr =>
    match m tr with
    | (Returned a, tr') => (Returned a, tr')
    | (Thrown e, tr') => handler e tr'
    end.

Notation "'let!' x ':=' m 'in' k" := (bind m (fun x => k))
  (at level 10, x name, m at level 100, k at level 200).
Notation "'run!' m 'in' k" := (bind m (fun _ => k))
  (at level 10, m at level 100, k at level 200).

(** [socket.sendToolErrorMessage?.(msg)] *)
Definition sendToolErrorMessage (socket : Socket) (r : reply) : Eff unit :=
  if has_sendToolErrorMessage socket then emit (Sent r) else ret tt.

(** [socket.sendToolResponseMessage?.(msg)] *)
Definition sendToolResponseMessage (socket : Socket) (r : reply) : Eff unit :=
  if has_sendToolResponseMessage socket then emit (Sent r) else ret tt.

(** [toolCallMessage?.name || toolCallMessage?.tool_name || ''] *)
Definition nameOf (m : ToolCallMessage) : string :=
  JS.or_default (JS.or_str (name m) (tool_name m)) EmptyString.

(** [toolCallMessage?.toolCallId || toolCallMessage?.tool_call_id] *)
Definition toolCallIdOf (m : ToolCallMessage) : option string :=
  JS.or_str (toolCallId m) (tool_call_id m).

(** [toolCallMessage?.parameters || toolCallMessage?.args || '{}'] *)
Definition paramsStrOf (m : ToolCallMessage) : string :=
  JS.or_default (JS.or_str (parameters m) (args m)) "{}".

(** [`${baseUrl}/tools/hume/book-appointment`] *)
Definition bookingUrl (baseUrl : string) : string :=
  baseUrl ++ "/tools/hume/book-appointment".

(** [text?.slice(0, 500) || 'Error creating event'] *)
Definition errorContent (text : string) : string :=
  JS.or_default (Some (String.substring 0 500 text)) "Error creating event".

(** [err && err.message ? err.message : String(err)] *)
Definition exnContent (e : exn) : string :=
  if JS.truthy_str (message e) then message e else asString e.

Section Handler.
(** [fetch(url, { method: 'POST', headers, body })] *)
Variable fetch : string -> body -> fetch_result.

Definition await_fetch (url : string) (b : body) : Eff response :=
  run! emit (Posted url b) in
  match fetch url b with
  | FetchThrows e => throw e
  | FetchOk resp => ret resp
  end.

Definition await_text (t : text_result) : Eff string :=
  match t with TextOk s => ret s | TextThrows e => throw e end.

Definition await_json (j : json_result) : Eff string :=
  match j with
  | JsonOk (Some ev) _ => ret ev
  | JsonOk None d => ret d
  | JsonThrows e => throw e
  end.

(** async function handleToolCallMessage(toolCallMessage, socket, baseUrl) *)
Definition handleToolCallMessage
    (toolCallMessage : ToolCallMessage) (socket : Socket) (baseUrl : string)
  : Eff unit :=
  try_catch
    (let name := nameOf toolCallMessage in
     let toolCallId := toolCallIdOf toolCallMessage in
     let paramsStr := paramsStrOf toolCallMessage in
     if negb (String.eqb name "book_appointment") then
       sendToolErrorMessage socket
         (tool_error toolCallId "Tool not found"
            "The requested tool is not supported by this server" None)
     else if negb (Json.parses paramsStr) then
       sendToolErrorMessage socket
         (tool_error toolCallId "Malformed parameters"
            "Parameters were not valid JSON" None)
     else
       let! resp := await_fetch (bookingUrl baseUrl) (StringifyParsed paramsStr) in
       if negb (ok resp) then
         let! text := await_text (text resp) in
         sendToolErrorMessage socket
           (tool_error toolCallId ("Bridge error " ++ JS.string_of_Z (status resp))
              (errorContent text)
              (Some "I could not book that time. Would you like to try another time?"))
       else
         let! content := await_json (json resp) in
         sendToolResponseMessage socket (tool_response toolCallId content))
    (fun err =>
       sendToolErrorMessage socket
         (tool_error (toolCallIdOf toolCallMessage)
            "Unhandled tool error"
            (exnContent err)
            (Some "Something went wrong while booking. Want to try a different time?"))).

(** The effects of one call of the handler, in order. *)
Definition effectsOf (m : ToolCallMessage) (socket : Socket) (baseUrl : string)
  : list effect :=
  snd (handleToolCallMessage m socket baseUrl []).
End Handler.

Definition isSent (e : effect) : bool :=
  match e with Sent _ => true | Posted _ _ => false end.
Definition isPosted (e : effect) : bool :=
  match e with Posted _ _ => true | Sent _ => false end.

(** The replies written to the socket, in order. *)
Fixpoint repliesOf (tr : list effect) : list reply :=
  match tr with
  | [] => []
  | Sent r :: rest => r :: repliesOf rest
  | Posted _ _ :: rest => repliesOf rest
  end.

(** The reply of the [catch] block. *)
Definition unhandled (m : ToolCallMessage) (e : exn) : reply :=
  tool_error (toolCallIdOf m) "Unhandled tool error" (exnContent e)
    (Some "Something went wrong while booking. Want to try a different time?").

(** Whether the call ends in a [tool_response]: a supported tool name,
    parameters that parse, a response with [ok] and a body that reads. *)
Definition succeeds (fetch : string -> body -> fetch_result)
    (m : ToolCallMessage) (baseUrl : string) : bool :=
  String.eqb (nameOf m) "book_appointment"
  && Json.parses (paramsStrOf m)
  && match fetch (bookingUrl baseUrl) (StringifyParsed (paramsStrOf m)) with
     | FetchOk resp =>
         ok resp && match json resp with JsonOk _ _ => true | JsonThrows _ => false end
     | FetchThrows _ => false
     end.

Definition isResponse (r : reply) : bool :=
  match r with tool_response _ _ => true | tool_error _ _ _ _ => false end.

(** The [toolCallId] a reply carries. *)
Definition replyId (r : reply) : option string :=
  match r with
  | tool_response id _ => id
  | tool_error id _ _ _ => id
  end.

End ToolHandler.

(* ===================================================================== *)
(** ** services/twilio-hume-bridge.js *)
(* ===================================================================== *)

Module Bridge.
Import ToolHandler.

(** A message from Twilio, after [JSON.parse(data.toString())]. *)
Inductive twilio_msg :=
| TwUnparseable
  (** [msg.event === 'media']; [media] is [msg.media] ([None] when the
      field is absent), holding [payload] ([None] when undefined). *)
| TwMedia (media : option (option string))
| TwStart
| TwStop
| TwOther.

(** A message from Hume, after [JSON.parse(rawData.toString())]. *)
Inductive hume_msg :=
| HmUnparseable
| HmToolCall (m : ToolCallMessage)
| HmAudioOutput (data : option string)
| HmOther.

(** The events of the two sockets, in the order the event loop delivers
    them; each listener runs to completion. *)
Inductive event :=
| HumeOpen
| HumeMessage (m : hume_msg)
| HumeClose
| HumeError
| TwilioMessage (m : twilio_msg)
| TwilioClose
| TwilioError.

(** What the bridge does to the two sockets and to the voice server. *)
Inductive action :=
| HumeSendAudioInput (data : option string)
| HumeSendReply (r : reply)
| HumeSocketClose
| TwilioSendMedia (streamSid : string) (payload : option string)
| TwilioSocketClose
| HttpPost (url : string) (b : body).

(** [humeSocket.readyState] *)
Inductive readyState := CONNECTING | OPEN | CLOSING | CLOSED.

(** The variables of one bridge: the flag [humeReady] and the state of
    the Hume socket.  There is no other storage. *)
Record state := mkState {
  humeReady : bool;
  humeState : readyState }.

Definition initial : state := mkState false CONNECTING.

(** The wrapper handed to the tool handler: both methods write to the
    Hume socket. *)
Definition socketWrapper : Socket := mkSocket true true.

Definition actionOfEffect (e : effect) : action :=
  match e with
  | Sent r => HumeSendReply r
  | Posted url b => HttpPost url b
  end.

Definition closing (s : readyState) : readyState :=
  match s with
  | CLOSED => CLOSED
  | _ => CLOSING
  end.

Section WithEnv.
Variable fetch : string -> body -> fetch_result.
Variable callSid : string.
(** [TOOL_BRIDGE_BASE] *)
Variable toolBridgeBase : string.

(** One listener invocation.  A tool call is answered when its request
    settles; its effects are listed with the event that started it. *)
Definition step (s : state) (e : event) : state * list action :=
  match e with
  | HumeOpen =>
      (mkState true (match humeState s with CONNECTING => OPEN | st => st end), [])
  | TwilioMessage m =>
      match m with
      | TwUnparseable => (s, [])
      | TwMedia media =>
          if humeReady s then
            match media with
            | Some payload => (s, [HumeSendAudioInput payload])
            | None => (s, [])
            end
          else (s, [])
      | TwStart => (s, [])
      | TwStop => (mkState (humeReady s) (closing (humeState s)), [HumeSocketClose])
      | TwOther => (s, [])
      end
  | HumeMessage m =>
      match m with
      | HmUnparseable => (s, [])
      | HmToolCall tc =>
          (s, map actionOfEffect (effectsOf fetch tc socketWrapper toolBridgeBase))
      | HmAudioOutput data => (s, [TwilioSendMedia callSid data])
      | HmOther => (s, [])
      end
  | HumeClose => (mkState (humeReady s) CLOSED, [TwilioSocketClose])
  | HumeError => (s, [])
  | TwilioClose =>
      match humeState s with
      | OPEN => (mkState (humeReady s) CLOSING, [HumeSocketClose])
      | _ => (s, [])
      end
  | TwilioError => (s, [])
  end.

(** The bridge run over a sequence of events. *)
Fixpoint run (s : state) (evs : list event) : state * list action :=
  match evs with
  | [] => (s, [])
  | e :: rest =>
      let '(s1, out1) := step s e in
      let '(s2, out2) := run s1 rest in
      (s2, (out1 ++ out2)%list)
  end.
End WithEnv.

(** The audio frames forwarded to Hume, in order. *)
Fixpoint audioInputs (acts : list action) : list (option string) :=
  match acts with
  | [] => []
  | HumeSendAudioInput d :: rest => d :: audioInputs rest
  | _ :: rest => audioInputs rest
  end.

Definition isMedia (e : event) : bool :=
  match e with TwilioMessage (TwMedia _) => true | _ => false end.

Definition isHumeOpen (e : event) : bool :=
  match e with HumeOpen => true | _ => false end.

(** The tool replies written to the Hume socket, in order. *)
Fixpoint replyActions (acts : list action) : list reply :=
  match acts with
  | [] => []
  | HumeSendReply r :: rest => r :: replyActions rest
  | _ :: rest => replyActions rest
  end.

(** The events that follow the first [open] of the Hume socket. *)
Fixpoint afterOpen (evs : list event) : list event :=
  match evs with
  | [] => []
  | HumeOpen :: rest => rest
  | _ :: rest => afterOpen rest
  end.

(** The payloads of the well-formed media frames of a sequence of events. *)
Fixpoint mediaPayloads (evs : list event) : list (option string) :=
  match evs with
  | [] => []
  | TwilioMessage (TwMedia (Some p)) :: rest => p :: mediaPayloads rest
  | _ :: rest => mediaPayloads rest
  end.

End Bridge.

(* ===================================================================== *)
(** ** server.js: the booking routes *)
(* ===================================================================== *)

Module Server.
Import Luxon.

(** The request body of [calendar.events.insert]; a [dateTime] is the
    instant its ISO text denotes, [None] when the text is null. *)
Record EventBody := mkEventBody {
  ev_summary : string;
  ev_description : string;
  ev_start : option Z;
  ev_end : option Z;
  ev_timeZone : string;
  ev_attendees : option (list string) }.

(** A call of the calendar client. *)
Inductive calendar_call :=
| EventsInsert (calendarId : string) (requestBody : EventBody).

(** Its outcome: the id of the created event, or the message of the
    error it throws. *)
Inductive insert_result :=
| Inserted (eventId : string)
| InsertThrows (message : string).

(** ** POST /tools/hume/book-appointment *)

(** The JSON body of the request; absent fields are [None]. *)
Record BookRequest := mkBookRequest {
  calendarId : option string;
  date : option string;
  startTime : option string;
  endTime : option string;
  timezone : option string;
  summary : option string;
  description : option string;
  attendees : option (list string) }.

(** The response of the route: its status, with the error text, or with
    the id of the event the calendar created.  [start] and [end_] of
    [Ok200] are the start and end the route sent to the calendar; the
    body also echoes [event.start] and [event.end] as the calendar
    returned them, which are not represented. *)
Inductive BookResponse :=
| Status400 (error : string)
| Status500 (error : string)
| Ok200 (eventId : string) (start end_ : option Z).

(** [/^\d{4}-\d{2}-\d{2}$/.test(dStr)] *)
Definition isYmd (dStr : string) : bool :=
  match dStr with
  | String y1 (String y2 (String y3 (String y4 (String "-"
      (String m1 (String m2 (String "-" (String d1 (String d2 EmptyString))))))))) =>
      JS.is_digit y1 && JS.is_digit y2 && JS.is_digit y3 && JS.is_digit y4
      && JS.is_digit m1 && JS.is_digit m2 && JS.is_digit d1 && JS.is_digit d2
  | _ => false
  end.

Section Routes.
(** The luxon zone of an IANA zone name (valid names only). *)
Variable zoneOf : string -> Zone.
(** [calendar.events.insert({ calendarId, requestBody, sendUpdates })] *)
Variable events_insert : string -> EventBody -> insert_result.
(** [BUSINESS_TIMEZONE] and [BUSINESS_NAME] *)
Variable businessTz : string.
Variable businessName : string.

(** The date parts [{ year, month, day }]; NaN parts do not arise from a
    text of digits. *)
Definition parseDate (timezone : string) (clock : Z) (dStr : string)
  : option (Z * Z * Z) :=
  let zone := zoneOf timezone in
  if isYmd dStr then
    match map JS.Number (JS.split "-" dStr) with
    | [Some y; Some m; Some d] => Some (y, m, d)
    | _ => None
    end
  else
    match @fromFormat zone clock "M/d/yyyy" dStr with
    | Some t =>
        let f := @fieldsOf zone t in Some (year f, month f, day f)
    | None =>
        let nowTz := @fieldsOf zone clock in
        match @setYear zone (year nowTz) (@fromFormat zone clock "M/d" dStr) with
        | Some t =>
            let f := @fieldsOf zone t in Some (year f, month f, day f)
        | None =>
            match @fromISO zone dStr with
            | Some t =>
                let f := @fieldsOf zone t in Some (year f, month f, day f)
            | None => None
            end
        end
    end.

(** The time parts [{ hour, minute }]: the first of the formats that
    reads the text, else the colon split. *)
Fixpoint firstFormat (zone : Zone) (clock : Z) (text : string)
    (candidates : list string) : option (Z * Z) :=
  match candidates with
  | [] => None
  | fmt :: rest =>
      match @fromFormat zone clock fmt text with
      | Some t => let f := @fieldsOf zone t in Some (hour f, minute f)
      | None => firstFormat zone clock text rest
      end
  end.

(** function parseTime(tStr).  The colon split reads decimal integers
    (see [JS.Number]); the properties below use texts that one of the
    formats reads, or integers. *)
Definition parseTime (timezone : string) (clock : Z) (tStr : string)
  : option (Z * Z) :=
  let zone := zoneOf timezone in
  match firstFormat zone clock (JS.toLowerCase (JS.trim tStr))
                    ["H:mm"; "h:mm a"; "h a"; "H"] with
  | Some p => Some p
  | None =>
      let nums := map JS.Number (JS.split ":" tStr) in
      match nth_error nums 0 with
      | Some (Some hh) => Some (hh, BusinessHours.finiteOr (nth_error nums 1) 0)
      | _ => None
      end
  end.

(** [String(x || d).trim()] *)
Definition field (x : option string) (d : string) : string :=
  JS.trim (JS.or_default x d).

(** The request is complete and its date and times are read. *)
Record Reads (clock : Z) (body : BookRequest) (y m d sh sm eh em : Z) : Prop := {
  reads_date_given : JS.truthy_str (field (date body) EmptyString) = true;
  reads_start_given : JS.truthy_str (field (startTime body) EmptyString) = true;
  reads_end_given : JS.truthy_str (field (endTime body) EmptyString) = true;
  reads_date :
    parseDate (JS.or_default (timezone body) businessTz) clock
              (field (date body) EmptyString) = Some (y, m, d);
  reads_start :
    parseTime (JS.or_default (timezone body) businessTz) clock
              (field (startTime body) EmptyString) = Some (sh, sm);
  reads_end :
    parseTime (JS.or_default (timezone body) businessTz) clock
              (field (endTime body) EmptyString) = Some (eh, em) }.

(** The handler of the route, when the clock reads [clock]: its
    response and the calls of the calendar client it made. *)
Definition book_appointment (clock : Z) (body : BookRequest)
  : BookResponse * list calendar_call :=
  let calendarId := field (calendarId body) "primary" in
  let date := field (date body) EmptyString in
  let startTime := field (startTime body) EmptyString in
  let endTime := field (endTime body) EmptyString in
  let timezone := JS.or_default (timezone body) businessTz in
  let summary := JS.or_default (summary body) ("Call with " ++ businessName) in
  let description :=
    JS.or_default (description body) "Booked via Hume tool book_appointment" in
  let attendees := attendees body in
  if negb (JS.truthy_str date) || negb (JS.truthy_str startTime)
     || negb (JS.truthy_str endTime) then
    (Status400 "date, startTime, endTime required", [])
  else
    let zone := zoneOf timezone in
    match parseDate timezone clock date,
          parseTime timezone clock startTime,
          parseTime timezone clock endTime with
    | Some (y, m, d), Some (sh, sm), Some (eh, em) =>
        let startDt := @fromObject zone (mkFields y m d sh sm) in
        let endDt := @fromObject zone (mkFields y m d eh em) in
        let endDt := if dt_le endDt startDt then @plusDays zone 1 endDt else endDt in
        let startLocal := toISO startDt in
        let endLocal := toISO endDt in
        let body :=
          mkEventBody summary description startLocal endLocal timezone
            (match attendees with
             | Some (a :: l) => Some (a :: l)
             | _ => None
             end) in
        match events_insert calendarId body with
        | Inserted eventId =>
            (Ok200 eventId startLocal endLocal, [EventsInsert calendarId body])
        | InsertThrows msg =>
            (Status500 msg, [EventsInsert calendarId body])
        end
    | _, _, _ => (Status400 "Invalid date or time format", [])
    end.

(** ** POST /voice/schedule-time, from the normalisation of
    [intent.datetimeISO] on (the session awaits a date and time) *)

(** What is said to the caller. *)
Inductive ScheduleReply :=
| OutsideBusinessHours (msg : string)
| Booked (eventId : string)
| CouldNotSave.

Record Session := mkSession {
  state : string;
  eventId : option string }.

Section ScheduleTime.
(** The offset of the local zone of the process, and the formatter. *)
Variable LocalTZA : Z -> bool -> Z.
Variable formatToParts : string -> Z -> option (list BusinessHours.part).
(** [BUSINESS_HOURS] and [BUSINESS_DAYS] *)
Variable businessHoursRange : string.
Variable businessDaysSpec : string.

(** [createEvent({ summary, description, startISO, durationMinutes,
    timezone })] of services/google-calendar.js: the end is the start
    plus the duration; an unparseable start throws. *)
Definition createEvent (summary description : string) (startISO : JSDate.Date)
    (durationMinutes : Z) (timezone : string)
  : insert_result * list calendar_call :=
  match startISO with
  | None => (InsertThrows "Invalid startISO", [])
  | Some t =>
      let event :=
        mkEventBody (JS.or_default (Some summary) "Appointment") description
                    (Some t) (Some (t + durationMinutes * 60000)) timezone None in
      (events_insert "primary" event, [EventsInsert "primary" event])
  end.

(** [new Date(startISO2)] for the result of [ensureFutureIso]. *)
Definition dateOfIso (o : Datetime.IsoOutput) : JSDate.Date :=
  match o with
  | Datetime.IsoString t => Some t
  | Datetime.Unchanged (Datetime.Text _ parsed) => parsed
  | Datetime.Unchanged Datetime.Falsy => None
  | Datetime.RangeError => None
  end.

Definition outsideHoursMessage : string :=
  "That time is outside business hours. Please choose a time "
  ++ BusinessHours.businessDaysHuman businessDaysSpec
  ++ " between " ++ businessHoursRange ++ ".".

(** The [try] block of the route and its [catch], as the text of the
    route reads with [ensureFutureIso] of services/datetime.js in scope:
    the reply, the calls of the calendar client and the session table
    afterwards.  (In this revision of the server the functions of the
    OpenAI flow are no longer imported and no route sets a session to
    awaiting a date and time, so the route redirects, or falls into the
    [catch] of the intent, before it reaches this block; the revision
    with the spoken flow is in [VoiceFlow].) *)
Definition schedule_time (clock : Z) (callSid speech : string)
    (datetimeISO : Datetime.IsoInput) (sessionByCallSid : gmap string Session)
  : ScheduleReply * list calendar_call * gmap string Session :=
  match Datetime.ensureFutureIso LocalTZA clock datetimeISO with
  | Datetime.RangeError => (CouldNotSave, [], sessionByCallSid)
  | startISO2 =>
      if negb (BusinessHours.isWithinBusinessHoursAt formatToParts
                 (dateOfIso startISO2)
                 (BusinessHours.mkPolicy businessTz businessHoursRange
                                         businessDaysSpec))
      then (OutsideBusinessHours outsideHoursMessage, [], sessionByCallSid)
      else
        match createEvent ("Call with " ++ businessName)
                ("Booked by phone. Caller said: " ++ speech)
                (dateOfIso startISO2) 30 businessTz with
        | (Inserted id, calls) =>
            (Booked id, calls,
             <[ callSid := mkSession "scheduled" (Some id) ]> sessionByCallSid)
        | (InsertThrows _, calls) => (CouldNotSave, calls, sessionByCallSid)
        end
  end.
End ScheduleTime.
End Routes.

End Server.

(* ===================================================================== *)
(** ** More JavaScript built-ins: [parseInt], [padStart], the pieces of
       regular expressions *)
(* ===================================================================== *)

Module JSText.

Definition hex_val (c : ascii) : option Z :=
  let n := nat_of_ascii c in
  if ((48 <=? n) && (n <=? 57))%nat then Some (Z.of_nat n - 48)
  else if ((97 <=? n) && (n <=? 102))%nat then Some (Z.of_nat n - 87)
  else if ((65 <=? n) && (n <=? 70))%nat then Some (Z.of_nat n - 55)
  else None.

Definition dec_val (c : ascii) : option Z :=
  if JS.is_digit c then Some (JS.digit_val c) else None.

(** The value of the longest prefix of digits, [None] when there is no
    digit at the head. *)
Fixpoint digits_prefix (val : ascii -> option Z) (radix : Z) (acc : option Z)
    (s : string) : option Z :=
  match s with
  | String c r =>
      match val c with
      | Some d =>
          digits_prefix val radix
            (Some (radix * (match acc with Some a => a | None => 0 end) + d)) r
      | None => acc
      end
  | EmptyString => acc
  end.

(** The digits of [parseInt] after the sign: hexadecimal after [0x] or
    [0X], decimal otherwise. *)
Definition parseInt_unsigned (s : string) : JS.num :=
  match s with
  | String "0" (String x r) =>
      if Ascii.eqb x "x" || Ascii.eqb x "X" then digits_prefix hex_val 16 None r
      else digits_prefix dec_val 10 None s
  | _ => digits_prefix dec_val 10 None s
  end.

(** [parseInt(s)] without radix; [None] is NaN, and [parseInt(undefined)]
    is NaN. *)
Definition parseInt (s : option string) : JS.num :=
  match s with
  | None => None
  | Some s =>
      match JS.trimStart s with
      | String "-" r =>
          match parseInt_unsigned r with Some n => Some (- n) | None => None end
      | String "+" r => parseInt_unsigned r
      | r => parseInt_unsigned r
      end
  end.

Fixpoint repeat_char (n : nat) (c : ascii) : string :=
  match n with
  | O => EmptyString
  | S k => String c (repeat_char k c)
  end.

(** [s.padStart(n, c)] for a one-character filler. *)
Definition padStart (n : nat) (c : ascii) (s : string) : string :=
  repeat_char (n - String.length s) c ++ s.

(** [l.join(sep)] *)
Definition join (sep : string) (l : list string) : string := String.concat sep l.

(** A letter, for [[a-z]] under the flag [i]. *)
Definition is_letter (c : ascii) : bool :=
  let n := nat_of_ascii c in
  (((97 <=? n) && (n <=? 122)) || ((65 <=? n) && (n <=? 90)))%nat.

(** A literal at the head of [s], letters compared without case: the
    rest of [s] after it. *)
Fixpoint lit_ci (lit s : string) : option string :=
  match lit with
  | EmptyString => Some s
  | String c lit' =>
      match s with
      | String x s' =>
          if Ascii.eqb (JS.lower_ascii x) (JS.lower_ascii c) then lit_ci lit' s' else None
      | EmptyString => None
      end
  end.

(** The longest prefix of characters that satisfy [f], and the rest. *)
Fixpoint span (f : ascii -> bool) (s : string) : string * string :=
  match s with
  | String c r =>
      if f c then let '(a, b) := span f r in (String c a, b) else (EmptyString, s)
  | EmptyString => (EmptyString, EmptyString)
  end.

(** [\s+]: the rest after one or more white-space characters. *)
Definition spaces1 (s : string) : option string :=
  match s with
  | String c r => if JS.is_space c then Some (JS.trimStart r) else None
  | EmptyString => None
  end.

(** [[a-z]+]: the letters and the rest. *)
Definition letters1 (s : string) : option (string * string) :=
  match span is_letter s with
  | (EmptyString, _) => None
  | (w, r) => Some (w, r)
  end.

(** The position (from 1) of the first literal of the list that is at
    the head of [s]. *)
Fixpoint index_ci (lits : list string) (i : Z) (s : string) : option Z :=
  match lits with
  | [] => None
  | lit :: rest =>
      match lit_ci lit s with
      | Some _ => Some i
      | None => index_ci rest (i + 1) s
      end
  end.

(** The leftmost position of [s] at which [here] matches: what
    [String.prototype.match] returns for a pattern without the flag [g]. *)
Fixpoint leftmost {A} (here : string -> option A) (s : string) : option A :=
  match here s with
  | Some a => Some a
  | None =>
      match s with
      | String _ r => leftmost here r
      | EmptyString => None
      end
  end.

End JSText.

(* ===================================================================== *)
(** ** luxon: the week day and years *)
(* ===================================================================== *)

Module LuxonWeek.
Import Luxon.

(** A zone with two more operations on its valid DateTimes:
    [dt.set({ weekday: k })] (1 = Monday .. 7 = Sunday) and
    [dt.plus({ years: n })]. *)
Record ZoneEx := mkZoneEx {
  base : Zone;
  setWeekdayTs : Z -> Z -> Z;
  plusYearsTs : Z -> Z -> Z }.

Definition setWeekday (z : ZoneEx) (k : Z) (dt : DateTime) : DateTime :=
  match dt with Some t => Some (setWeekdayTs z k t) | None => None end.

Definition plusYears (z : ZoneEx) (n : Z) (dt : DateTime) : DateTime :=
  match dt with Some t => Some (plusYearsTs z n t) | None => None end.

End LuxonWeek.

Module FixedOffsetWeek.
Import Ecma FixedOffset LuxonWeek.

(** luxon's weekday of a local time value: 1 = Monday .. 7 = Sunday. *)
Definition isoWeekday (l : Z) : Z := (WeekDay l + 6) mod 7 + 1.

(** [dt.set({ weekday: k })]: the day [k] of the ISO week of [dt], at the
    time of day of [dt]. *)
Definition fo_setWeekdayTs (off k ts : Z) : Z :=
  ts + (k - isoWeekday (toLocal off ts)) * msPerDay.

(** [dt.plus({ years: n })]: the same month, day (or the last day of the
    month) and time of day, [n] years on. *)
Definition fo_plusYearsTs (off n ts : Z) : Z :=
  fo_setYearTs off (YearFromTime (toLocal off ts) + n) ts.

Definition zoneEx (off : Z) : ZoneEx :=
  mkZoneEx (FixedOffset.zone off) (fo_setWeekdayTs off) (fo_plusYearsTs off).

End FixedOffsetWeek.

(* ===================================================================== *)
(** ** services/hume-conversation.js *)
(* ===================================================================== *)

Module Conversation.
Import Luxon LuxonWeek JSText.

(** What is thrown: a TypeError (a property read on null or undefined),
    luxon's InvalidArgumentError for a unit that is NaN, or an [Error]
    with its message. *)
Inductive exn :=
| TypeError
| InvalidUnit
| Error (message : string).

(** The outcome of a call that may throw. *)
Inductive result (A : Type) :=
| Fine (a : A)
| Throws (e : exn).
Arguments Fine {A} a.
Arguments Throws {A} e.

(** A chat event of the Hume API, as far as it is read. *)
Record ChatEvent := mkChatEvent {
  ce_type : string;
  ce_message_text : option string;
  ce_text : option string }.

(** A message of a conversation: [m.message.content] (absent when
    [m.message] is), [m.content] and [m.text]. *)
Record Message := mkMessage {
  role : option string;
  message_content : option string;
  content : option string;
  text : option string }.

Record Conversation := mkConversation {
  event_messages : option (list Message);
  messages : option (list Message);
  metadata_from : option string;
  from : option string }.

(** A chat of the listing: its id and its two spellings of the start time
    (a number of milliseconds). *)
Record Chat := mkChat {
  id : string;
  startTimestamp : option Z;
  start_timestamp : option Z }.

(** The result of [parseAppointmentFromConversation]. *)
Record Appointment := mkAppointment {
  found : bool;
  date : option string;
  startTime : option string;
  endTime : option string;
  timezone : string;
  customerName : string;
  customerPhone : string;
  service : string;
  summary : string;
  description : string }.

(** [x || y] on numbers that may be undefined: 0 is falsy. *)
Definition or_num (a b : option Z) : option Z :=
  if JS.truthy_num a then a else b.

(** [!HUME_API_KEY] *)
Definition missing (key : option string) : bool :=
  negb (JS.truthy_str (JS.or_default key EmptyString)).

Section Api.
(** [process.env.HUME_API_KEY] *)
Variable HUME_API_KEY : option string.

(** async function fetchHumeConversation(chatId); [listChatEvents] is
    all that the iterator of the SDK yields, or what it throws. *)
Definition fetchHumeConversation
    (listChatEvents : string -> result (list ChatEvent)) (chatId : string)
  : result Conversation :=
  if missing HUME_API_KEY then Throws (Error "HUME_API_KEY not configured")
  else
    match listChatEvents chatId with
    | Throws err => Throws err
    | Fine allChatEvents =>
        let messages :=
          map (fun event =>
                 mkMessage
                   (Some (if String.eqb (ce_type event) "USER_MESSAGE"
                          then "user" else "assistant"))
                   (Some (JS.or_default (JS.or_str (ce_message_text event) (ce_text event))
                                        EmptyString))
                   None None)
              (filter (fun event => String.eqb (ce_type event) "USER_MESSAGE"
                                    || String.eqb (ce_type event) "AGENT_MESSAGE")
                      allChatEvents) in
        Fine (mkConversation (Some messages) None None None)
    end.

(** [Math.abs(callTime - chatStartTime) < 120000] *)
Definition startedNear (callTime : JS.num) (chat : Chat) : bool :=
  let chatStartTime :=
    match or_num (startTimestamp chat) (start_timestamp chat) with
    | Some t => Ecma.TimeClip t
    | None => None
    end in
  match callTime, chatStartTime with
  | Some a, Some b => Z.abs (a - b) <? 120000
  | _, _ => false
  end.

(** async function findRecentHumeChat(callTimestamp, phoneNumber);
    [listChats] is what the iterator of the SDK yields, or what it
    throws. *)
Definition findRecentHumeChat
    (listChats : result (list Chat)) (callTimestamp : JSDate.Date) (phoneNumber : option string)
  : result string :=
  if missing HUME_API_KEY then Throws (Error "HUME_API_KEY not configured")
  else
    match listChats with
    | Throws err => Throws err
    | Fine chats =>
        let recentChats := take 20 chats in
        let callTime := callTimestamp in
        match List.find (startedNear callTime) recentChats with
        | Some chat => Fine (id chat)
        | None =>
            match recentChats with
            | chat :: _ => Fine (id chat)
            | [] => Throws (Error "No recent Hume chats found")
            end
        end
    end.
End Api.

(** The text of one message. *)
Definition messageText (m : Message) : string :=
  JS.or_default (JS.or_str (message_content m) (JS.or_str (content m) (text m))) EmptyString.

(** [/(?:my name is|i'm|i am|this is)\s+([a-z]+(?:\s+[a-z]+)?)/i]: the
    captured name at the head of [s]. *)
Definition name_tail (rest : string) : option string :=
  match spaces1 rest with
  | None => None
  | Some r1 =>
      match letters1 r1 with
      | None => None
      | Some (w1, r2) =>
          let '(sp, r3) := span JS.is_space r2 in
          match sp, letters1 r3 with
          | String _ _, Some (w2, _) => Some (w1 ++ sp ++ w2)
          | _, _ => Some w1
          end
      end
  end.

Fixpoint name_alternatives (lits : list string) (s : string) : option string :=
  match lits with
  | [] => None
  | lit :: rest =>
      match match lit_ci lit s with
            | Some r => name_tail r
            | None => None
            end with
      | Some n => Some n
      | None => name_alternatives rest s
      end
  end.

Definition name_here (s : string) : option string :=
  name_alternatives ["my name is"; "i'm"; "i am"; "this is"] s.

Definition nameMatch (s : string) : option string := leftmost name_here s.

Definition daysOfWeek : list string :=
  ["monday"; "tuesday"; "wednesday"; "thursday"; "friday"; "saturday"; "sunday"].

(** [/(?:next\s+)?(monday|...|sunday)/i] at the head of [s]:
    [daysOfWeek.indexOf(dayMatch[1].toLowerCase()) + 1]. *)
Definition day_here (s : string) : option Z :=
  let bare := index_ci daysOfWeek 1 s in
  match lit_ci "next" s with
  | Some r =>
      match spaces1 r with
      | Some r' =>
          match index_ci daysOfWeek 1 r' with
          | Some d => Some d
          | None => bare
          end
      | None => bare
      end
  | None => bare
  end.

Definition dayMatch (s : string) : option Z := leftmost day_here s.

(** [[\/\-](\d{1,2})] *)
Definition date_tail (s : string) : option string :=
  match s with
  | String c (String d1 r) =>
      if (Ascii.eqb c "/" || Ascii.eqb c "-") && JS.is_digit d1 then
        match r with
        | String d2 _ =>
            if JS.is_digit d2 then Some (String d1 (String d2 EmptyString))
            else Some (String d1 EmptyString)
        | EmptyString => Some (String d1 EmptyString)
        end
      else None
  | _ => None
  end.

(** [/(\d{1,2})[\/\-](\d{1,2})/] at the head of [s]: two digits first,
    then one. *)
Definition date_here (s : string) : option (string * string) :=
  match s with
  | String a r =>
      if JS.is_digit a then
        let two :=
          match r with
          | String b r2 =>
              if JS.is_digit b then
                match date_tail r2 with
                | Some d => Some (String a (String b EmptyString), d)
                | None => None
                end
              else None
          | EmptyString => None
          end in
        match two with
        | Some x => Some x
        | None =>
            match date_tail r with
            | Some d => Some (String a EmptyString, d)
            | None => None
            end
        end
      else None
  | EmptyString => None
  end.

Definition dateMatch (s : string) : option (string * string) := leftmost date_here s.

(** [/(\d{1,2})(?::(\d{2}))?\s*(am|pm)?/i] at the head of [s]: the three
    groups. *)
Definition time_here (s : string) : option (string * option string * option string) :=
  match s with
  | String a r =>
      if JS.is_digit a then
        let '(h, r1) :=
          match r with
          | String b r' =>
              if JS.is_digit b then (String a (String b EmptyString), r')
              else (String a EmptyString, r)
          | EmptyString => (String a EmptyString, r)
          end in
        let '(mi, r2) :=
          match r1 with
          | String ":" (String c (String d r'')) =>
              if JS.is_digit c && JS.is_digit d
              then (Some (String c (String d EmptyString)), r'')
              else (None, r1)
          | _ => (None, r1)
          end in
        let r3 := JS.trimStart r2 in
        let mer :=
          match r3 with
          | String x (String y _) =>
              if (Ascii.eqb (JS.lower_ascii x) "a" || Ascii.eqb (JS.lower_ascii x) "p")
                 && Ascii.eqb (JS.lower_ascii y) "m"
              then Some (String x (String y EmptyString))
              else None
          | _ => None
          end in
        Some (h, mi, mer)
      else None
  | EmptyString => None
  end.

Definition timeMatch (s : string) : option (string * option string * option string) :=
  leftmost time_here s.

(** An alternative of
    [/(haircut|fade|lineup|shave|trim|first.time|returning|preferred)/gi]
    at the head of [s]: the length of the match. *)
Definition is_line_end (c : ascii) : bool :=
  Ascii.eqb c "010" || Ascii.eqb c "013".

Definition first_time (s : string) : option nat :=
  match lit_ci "first" s with
  | Some (String x r) =>
      if is_line_end x then None
      else match lit_ci "time" r with Some _ => Some 10%nat | None => None end
  | _ => None
  end.

Fixpoint lit_length (lits : list string) (s : string) : option nat :=
  match lits with
  | [] => None
  | lit :: rest =>
      match lit_ci lit s with
      | Some _ => Some (String.length lit)
      | None => lit_length rest s
      end
  end.

Definition service_here (s : string) : option nat :=
  match lit_length ["haircut"; "fade"; "lineup"; "shave"; "trim"] s with
  | Some n => Some n
  | None =>
      match first_time s with
      | Some n => Some n
      | None => lit_length ["returning"; "preferred"] s
      end
  end.

(** All the matches, from left to right, none overlapping another;
    [skip] characters of the last match are still to be passed. *)
Fixpoint services_from (skip : nat) (s : string) : list string :=
  match s with
  | EmptyString => []
  | String _ r =>
      match skip with
      | S k => services_from k r
      | O =>
          match service_here s with
          | Some n => String.substring 0 n s :: services_from (n - 1) r
          | None => services_from 0 r
          end
      end
  end.

Definition serviceMentions (s : string) : list string := services_from 0 s.

(** [x + n] and [x % n] on a number that may be NaN. *)
Definition num_add (x : JS.num) (n : Z) : JS.num := option_map (fun a => a + n) x.
Definition num_rem (x : JS.num) (n : Z) : JS.num := option_map (fun a => Z.rem a n) x.

(** [meridian === a] *)
Definition is_meridian (meridian : option string) (a : string) : bool :=
  match meridian with Some m => String.eqb m a | None => false end.

(** Lines 201-209: the start [{ hour, minute }] from the groups of the
    time. *)
Definition startOf (m : string * option string * option string) : JS.num * JS.num :=
  let '(g1, g2, g3) := m in
  let hour := parseInt (Some g1) in
  let minute :=
    match g2 with
    | Some g => if JS.truthy_str g then parseInt (Some g) else Some 0
    | None => Some 0
    end in
  let meridian := option_map JS.toLowerCase g3 in
  let hour := if is_meridian meridian "pm" && JS.lt hour (Some 12) then num_add hour 12 else hour in
  let hour :=
    if is_meridian meridian "am" && match hour with Some h => h =? 12 | None => false end
    then Some 0 else hour in
  (hour, minute).

(** Lines 211-213: the end, thirty minutes on. *)
Definition endOf (start : JS.num * JS.num) : JS.num * JS.num :=
  let '(hour, minute) := start in
  let endHour := if JS.ge (num_add minute 30) (Some 60) then num_add hour 1 else hour in
  let endMinute := num_rem (num_add minute 30) 60 in
  (endHour, endMinute).

(** [String(x)] on a number: the decimal text of an integer, as
    JavaScript writes the integers below 10^21 (from there on it writes
    an exponent), among which those up to 2^53 - 1 are exact. *)
Definition string_of_num (x : JS.num) : string :=
  match x with Some z => JS.string_of_Z z | None => "NaN" end.

(** [`${String(hour).padStart(2, '0')}:${String(minute).padStart(2, '0')}`] *)
Definition clockText (t : JS.num * JS.num) : string :=
  padStart 2 "0" (string_of_num (fst t)) ++ ":" ++ padStart 2 "0" (string_of_num (snd t)).

(** luxon's padded number: the sign, then the digits filled to [n]. *)
Definition padNumber (n : nat) (z : Z) : string :=
  if z <? 0 then "-" ++ padStart n "0" (JS.string_of_Z (- z))
  else padStart n "0" (JS.string_of_Z z).

Section Parse.
(** luxon in the zone of an IANA zone name. *)
Variable zoneOf : string -> ZoneEx.
(** [process.env.BUSINESS_TIMEZONE] *)
Variable BUSINESS_TIMEZONE : option string.

(** [dt.toFormat('yyyy-MM-dd')] *)
Definition toFormat_ymd (z : ZoneEx) (dt : DateTime) : string :=
  match dt with
  | None => "Invalid DateTime"
  | Some t =>
      let f := @fieldsOf (base z) t in
      padNumber 4 (year f) ++ "-" ++ padNumber 2 (month f) ++ "-" ++ padNumber 2 (day f)
  end.

(** The text all the messages make, in lower case. *)
Definition fullTextOf (conversation : Conversation) : string :=
  let messages :=
    match event_messages conversation with
    | Some l => l
    | None => match messages conversation with Some l => l | None => [] end
    end in
  JS.toLowerCase (join " " (map messageText messages)).

(** Lines 151-193: the date; [None] is null.  [fromObject] throws on a
    unit that is NaN. *)
Definition appointmentDateOf (z : ZoneEx) (clock : Z) (fullText : string)
  : result (option DateTime) :=
  let now : DateTime := Some clock in
  let appointmentDate :=
    if JS.includes fullText "tomorrow" then Some (@plusDays (base z) 1 now)
    else if JS.includes fullText "today" then Some now
    else
      match dayMatch fullText with
      | Some targetDayIndex =>
          let candidate := setWeekday z targetDayIndex now in
          Some (if dt_le candidate now || JS.includes fullText "next"
                then @plusDays (base z) 7 candidate else candidate)
      | None => None
      end in
  match dateMatch fullText, appointmentDate with
  | Some (g1, g2), None =>
      match parseInt (Some g1), parseInt (Some g2) with
      | Some month, Some day =>
          let d := @fromObject (base z)
                     (mkFields (year (@fieldsOf (base z) clock)) month day 0 0) in
          Fine (Some (if JS.lt d now then plusYears z 1 d else d))
      | _, _ => Throws InvalidUnit
      end
  | _, _ => Fine appointmentDate
  end.

(** function parseAppointmentFromConversation(conversation), when the
    clock reads [clock]. *)
Definition parseAppointmentFromConversation (clock : Z) (conversation : Conversation)
  : result Appointment :=
  let timezone := JS.or_default BUSINESS_TIMEZONE "America/Chicago" in
  let z := zoneOf timezone in
  let fullText := fullTextOf conversation in
  let customerPhone :=
    JS.or_default (JS.or_str (metadata_from conversation) (from conversation)) EmptyString in
  let customerName :=
    match nameMatch fullText with Some n => JS.trim n | None => EmptyString end in
  match appointmentDateOf z clock fullText with
  | Throws e => Throws e
  | Fine appointmentDate =>
      let startTime := option_map startOf (timeMatch fullText) in
      let endTime := option_map endOf startTime in
      let service :=
        match serviceMentions fullText with
        | [] => "General appointment"
        | l => join ", " l
        end in
      Fine (mkAppointment
        (match appointmentDate, startTime with Some _, Some _ => true | _, _ => false end)
        (option_map (toFormat_ymd z) appointmentDate)
        (option_map clockText startTime)
        (option_map clockText endTime)
        timezone
        customerName
        customerPhone
        service
        (if JS.truthy_str customerName then customerName ++ " - " ++ service else service)
        (JS.trim ("Booked via phone conversation. "
                  ++ (if JS.truthy_str customerName then "Customer: " ++ customerName
                      else EmptyString)
                  ++ " "
                  ++ (if JS.truthy_str customerPhone then "Phone: " ++ customerPhone
                      else EmptyString))))
  end.
End Parse.

End Conversation.

(* ===================================================================== *)
(** ** server.js: booking after the call *)
(* ===================================================================== *)

Module PostCall.
Import Luxon LuxonWeek JSText Conversation.

(** What the processing does to the outside world: an event inserted in
    the calendar, a text message sent. *)
Inductive effect :=
| Insert (calendarId : string) (requestBody : Server.EventBody)
| Sms (body from to : string).

(** The conversation used when no chat is found. *)
Definition mockConversation (customerPhone : option string) : Conversation :=
  mkConversation
    (Some [ mkMessage (Some "user")
              (Some "I want to book an appointment for tomorrow at 2pm") None None;
            mkMessage (Some "assistant") (Some "Great! What is your name?") None None;
            mkMessage (Some "user") (Some "My name is John Smith") None None ])
    None customerPhone None.

Section Booking.
(** luxon in the zone of an IANA zone name. *)
Variable zoneOf : string -> ZoneEx.
(** The environment: [BUSINESS_TIMEZONE], [HUME_API_KEY],
    [HUME_CONFIG_ID], [TWILIO_PHONE_NUMBER] and [BUSINESS_NAME]. *)
Variable BUSINESS_TIMEZONE : option string.
Variable HUME_API_KEY : option string.
Variable HUME_CONFIG_ID : option string.
Variable TWILIO_PHONE_NUMBER : option string.
Variable BUSINESS_NAME : option string.
(** [calendar.events.insert] and [twilioClient.messages.create] (with
    the message it throws, if it does). *)
Variable events_insert : string -> Server.EventBody -> Server.insert_result.
Variable messages_create : string -> string -> string -> option string.
(** The Hume API: the listing of the chats, and the events of a chat. *)
Variable listChats : result (list Chat).
Variable listChatEvents : string -> result (list ChatEvent).

Definition twilioPhoneNumber : string := JS.or_default TWILIO_PHONE_NUMBER EmptyString.
Definition businessName : string := JS.or_default BUSINESS_NAME "our office".

(** [parseInt(text.split(sep)[i])] *)
Definition partOf (sep : ascii) (text : string) (i : nat) : JS.num :=
  parseInt (nth_error (JS.split sep text) i).

(** [DateTime.fromObject({ year, month, day, hour, minute, second: 0,
    millisecond: 0 }, { zone })] on numbers that may be NaN. *)
Definition fromParts (timezone : string) (y m d h mi : JS.num) : result DateTime :=
  match y, m, d, h, mi with
  | Some y, Some m, Some d, Some h, Some mi =>
      Fine (@fromObject (base (zoneOf timezone)) (mkFields y m d h mi))
  | _, _, _, _, _ => Throws InvalidUnit
  end.

(** The confirmation sent to the customer. *)
Definition confirmationMessage (customerName date startTime : string) : string :=
  "Hi " ++ JS.or_default (Some customerName) "there"
  ++ "! Your appointment at " ++ businessName ++ " is confirmed for "
  ++ date ++ " at " ++ startTime ++ ". See you then!".

(** async function bookAndNotify(callSid, customerPhone, appointment):
    how the promise settles, and the effects. *)
Definition bookAndNotify (callSid : string) (customerPhone : option string)
    (appointment : Appointment) : result unit * list effect :=
  if negb (found appointment) then (Fine tt, [])
  else
    let calendarId := "primary" in
    let timezone := timezone appointment in
    match date appointment, startTime appointment, endTime appointment with
    | Some date, Some startTime, Some endTime =>
        match fromParts timezone
                (partOf "-" date 0) (partOf "-" date 1) (partOf "-" date 2)
                (partOf ":" startTime 0) (partOf ":" startTime 1) with
        | Throws e => (Throws e, [])
        | Fine startDt =>
            match fromParts timezone
                    (partOf "-" date 0) (partOf "-" date 1) (partOf "-" date 2)
                    (partOf ":" endTime 0) (partOf ":" endTime 1) with
            | Throws e => (Throws e, [])
            | Fine endDt =>
                let eventBody :=
                  Server.mkEventBody (summary appointment) (description appointment)
                    (toISO startDt) (toISO endDt) timezone None in
                match events_insert calendarId eventBody with
                | Server.InsertThrows msg => (Throws (Error msg), [Insert calendarId eventBody])
                | Server.Inserted _ =>
                    if JS.truthy_str (JS.or_default customerPhone EmptyString)
                       && JS.truthy_str twilioPhoneNumber then
                      let to := JS.or_default customerPhone EmptyString in
                      let body :=
                        confirmationMessage (customerName appointment) date startTime in
                      let sms := Sms body twilioPhoneNumber to in
                      match messages_create body twilioPhoneNumber to with
                      | Some msg => (Throws (Error msg), [Insert calendarId eventBody; sms])
                      | None => (Fine tt, [Insert calendarId eventBody; sms])
                      end
                    else (Fine tt, [Insert calendarId eventBody])
                end
            end
        end
    | _, _, _ => (Throws TypeError, [])
    end.

Definition parse := parseAppointmentFromConversation zoneOf BUSINESS_TIMEZONE.

(** [parseAppointmentFromConversation] then [bookAndNotify]. *)
Definition parseAndBook (clock : Z) (callSid : string) (customerPhone : option string)
    (conversation : Conversation) : result unit * list effect :=
  match parse clock conversation with
  | Throws e => (Throws e, [])
  | Fine appointment => bookAndNotify callSid customerPhone appointment
  end.

(** async function processPostCallBooking(callSid, customerPhone), when
    the clock reads [clock]: the effects, and the table of the chat ids
    afterwards.  Whatever is thrown is caught and logged. *)
Definition processPostCallBooking (clock : Z) (callSid : string)
    (customerPhone : option string) (callSidToHumeChatId : gmap string string)
  : list effect * gmap string string :=
  let continue (humeChatId : string) :=
    match fetchHumeConversation HUME_API_KEY listChatEvents humeChatId with
    | Throws _ => ([], callSidToHumeChatId)
    | Fine conversation =>
        (snd (parseAndBook clock callSid customerPhone conversation),
         delete callSid callSidToHumeChatId)
    end in
  match JS.or_str (callSidToHumeChatId !! callSid) None with
  | Some humeChatId => continue humeChatId
  | None =>
      match findRecentHumeChat HUME_API_KEY listChats (Some clock) customerPhone with
      | Throws _ =>
          (snd (parseAndBook clock callSid customerPhone (mockConversation customerPhone)),
           callSidToHumeChatId)
      | Fine humeChatId => continue humeChatId
      end
  end.

(** POST /voice/call-status: the status of the response, the effects of
    the processing it starts, and the table afterwards. *)
Definition call_status (clock : Z) (callSid : string) (callStatus : option string)
    (from : option string) (callSidToHumeChatId : gmap string string)
  : Z * list effect * gmap string string :=
  if match callStatus with Some st => String.eqb st "completed" | None => false end
     && JS.truthy_str (JS.or_default HUME_API_KEY EmptyString)
     && JS.truthy_str (JS.or_default HUME_CONFIG_ID EmptyString)
  then
    let '(effects, table) :=
      processPostCallBooking clock callSid from callSidToHumeChatId in
    (204, effects, table)
  else (204, [], callSidToHumeChatId).
End Booking.

End PostCall.

(* ===================================================================== *)
(** ** The earlier server.js: the spoken flow (/voice/answer,
       /voice/handle-input, /voice/schedule-time) *)
(* ===================================================================== *)

Module VoiceFlow.
Import Luxon Server.

(** The result of [inferIntentFromText]: [datetimeISO] is a string or
    absent. *)
Record Intent := mkIntent {
  intent : string;
  reply : string;
  datetimeISO : Datetime.IsoInput }.

(** What the TwiML of the response does. *)
Inductive Reply :=
| RedirectToAnswer
| Ask (prompt : string)
| Speak (text : string)
| BookedFor (eventId : string)
| Failed (text : string).

Section Routes.
Context `{Zone}.
(** [chrono.casual.parse], the offset of the local zone of the process,
    the calendar, [BUSINESS_TIMEZONE] and [BUSINESS_NAME]. *)
Variable chrono_parse : string -> JSDate.Date -> list DateParser.ParsedResult.
Variable LocalTZA : Z -> bool -> Z.
Variable events_insert : string -> EventBody -> insert_result.
Variable businessTz : string.
Variable businessName : string.
(** [getRelevantContext(speech, 4)], [buildRecentMemorySnippet({ phone,
    callId })] and [inferIntentFromText(speech, { businessName, timezone,
    context })]; [None] when they throw. *)
Variable getRelevantContext : string -> option string.
Variable buildRecentMemorySnippet : string -> string -> option string.
Variable inferIntentFromText : string -> string -> option Intent.

(** POST /voice/answer *)
Definition answer (callSid : string) (sessionByCallSid : gmap string Session)
  : gmap string Session :=
  <[ callSid := mkSession "start" None ]> sessionByCallSid.

(** [state.state !== 'awaiting_datetime'] for
    [state = sessionByCallSid.get(callSid) || {}] *)
Definition awaiting (callSid : string) (sessionByCallSid : gmap string Session) : bool :=
  match sessionByCallSid !! callSid with
  | Some s => String.eqb (state s) "awaiting_datetime"
  | None => false
  end.

(** [ensureFutureIso] then [createEvent] for thirty minutes: the event
    id, or the failure of one of them, and the calls of the calendar
    client. *)
Definition book (clock : Z) (speech : string) (datetimeISO : Datetime.IsoInput)
  : insert_result * list calendar_call :=
  match Datetime.ensureFutureIso LocalTZA clock datetimeISO with
  | Datetime.RangeError => (InsertThrows "Invalid time value", [])
  | startISO =>
      createEvent events_insert ("Call with " ++ businessName)
                  ("Booked by phone. Caller said: " ++ speech)
                  (dateOfIso startISO) 30 businessTz
  end.

(** [intent.datetimeISO], else [parseRelativeDateToISO({ text: speech,
    timezone: businessTz })]; [Falsy] when both are. *)
Definition resolve (clock : Z) (speech : string) (i : Intent) : Datetime.IsoInput :=
  match datetimeISO i with
  | Datetime.Falsy =>
      match DateParser.parseRelativeDateToISO chrono_parse speech None clock with
      | Some t => Datetime.Text "ISO" (Some t)
      | None => Datetime.Falsy
      end
  | given => given
  end.

(** POST /voice/schedule-time, when the clock reads [clock]. *)
Definition schedule_time (clock : Z) (callSid speech : string)
    (sessionByCallSid : gmap string Session)
  : Reply * list calendar_call * gmap string Session :=
  if negb (awaiting callSid sessionByCallSid) then (RedirectToAnswer, [], sessionByCallSid)
  else
    match getRelevantContext speech with
    | None => (Ask "Sorry, what date and time?", [], sessionByCallSid)
    | Some context =>
        match inferIntentFromText speech context with
        | None => (Ask "Sorry, what date and time?", [], sessionByCallSid)
        | Some i =>
            match resolve clock speech i with
            | Datetime.Falsy =>
                (Ask "Please provide a specific day and time.", [], sessionByCallSid)
            | datetimeISO =>
                match book clock speech datetimeISO with
                | (Inserted id, calls) =>
                    (BookedFor id, calls,
                     <[ callSid := mkSession "scheduled" (Some id) ]> sessionByCallSid)
                | (InsertThrows _, calls) =>
                    (Failed "I could not save that appointment. Please try again later.",
                     calls, sessionByCallSid)
                end
            end
        end
    end.

(** [[memory, kb].filter(Boolean).join('\n\n')], each part empty when
    its lookup throws. *)
Definition contextOf (callSid from speech : string) : string :=
  let kb := JS.or_default (getRelevantContext speech) EmptyString in
  let memory := JS.or_default (buildRecentMemorySnippet from callSid) EmptyString in
  String.concat (String "010" (String "010" EmptyString))
                (filter (fun x => JS.truthy_str x = true) [memory; kb]).

(** POST /voice/handle-input, when the clock reads [clock]. *)
Definition handle_input (clock : Z) (callSid from speech : string)
    (sessionByCallSid : gmap string Session)
  : Reply * list calendar_call * gmap string Session :=
  if negb (JS.truthy_str speech) then
    (Ask "I did not catch that. Please tell me how I can help.", [], sessionByCallSid)
  else
    match inferIntentFromText speech (contextOf callSid from speech) with
    | None =>
        (Ask "Sorry, I had trouble understanding. Please say that again.", [],
         sessionByCallSid)
    | Some i =>
        if String.eqb (intent i) "schedule" then
          match resolve clock speech i with
          | Datetime.Falsy =>
              (Ask "What day and time would you like?", [],
               <[ callSid := mkSession "awaiting_datetime" None ]> sessionByCallSid)
          | parsedISO =>
              match book clock speech parsedISO with
              | (Inserted id, calls) => (BookedFor id, calls, sessionByCallSid)
              | (InsertThrows _, calls) =>
                  (Failed "I was unable to access the calendar. Please try again later.",
                   calls, sessionByCallSid)
              end
          end
        else (Speak (reply i), [], sessionByCallSid)
    end.
End Routes.

End VoiceFlow.

(* ===================================================================== *)
(** ** services/knowledge.js: the chunks of a text *)
(* ===================================================================== *)

Module Knowledge.

(** [[\.!?]] *)
Definition ends_sentence (c : ascii) : bool :=
  Ascii.eqb c "." || Ascii.eqb c "!" || Ascii.eqb c "?".

(** [text.split(/(?<=[\.!?])\s+/)]: the text is cut at every run of
    white space that follows one of the three marks.  [cur] is the piece
    read so far, last character first; [skipping] holds inside such a
    run. *)
Fixpoint sentences_go (skipping : bool) (cur : string) (s : string) : list string :=
  match s with
  | EmptyString => [JS.rev_string EmptyString cur]
  | String c r =>
      if JS.is_space c && skipping then sentences_go true EmptyString r
      else if JS.is_space c
              && match cur with String p _ => ends_sentence p | EmptyString => false end
      then JS.rev_string EmptyString cur :: sentences_go true EmptyString r
      else sentences_go false (String c cur) r
  end.

Definition sentences (text : string) : list string :=
  sentences_go false EmptyString text.

(** One turn of the loop of [chunkText] on the sentence [s]. *)
Definition chunk_step (maxLen : nat) (st : list string * string) (s : string)
  : list string * string :=
  let '(parts, current) := st in
  if (maxLen <? String.length (JS.trim (current ++ " " ++ s)))%nat then
    ((if JS.truthy_str (JS.trim current) then (parts ++ [JS.trim current])%list else parts),
     s)
  else
    (parts, current ++ (if JS.truthy_str current then " " else EmptyString) ++ s).

(** What is pushed after the loop. *)
Definition chunk_end (st : list string * string) : list string :=
  let '(parts, current) := st in
  if JS.truthy_str (JS.trim current) then (parts ++ [JS.trim current])%list else parts.

(** function chunkText(text, maxLen = 800) *)
Definition chunkText (text : string) (maxLen : nat) : list string :=
  chunk_end (fold_left (chunk_step maxLen) (sentences text) ([], EmptyString)).

End Knowledge.

(* ===================================================================== *)
(** ** Scenarios: zones at a fixed offset, requests, collaborators *)
(* ===================================================================== *)

Module Examples.
Import Ecma.

(** US Central time: standard time is UTC-6, daylight time UTC-5. *)
Definition CST : Luxon.Zone := FixedOffset.zone (-360).
Definition CDT : Luxon.Zone := FixedOffset.zone (-300).

(** The instant of a UTC wall-clock time. *)
Definition utc (y m d h mi s ms : Z) : Z :=
  MakeDate (MakeDay y (m - 1) d) (MakeTime h mi s ms).

Definition chicago : string := "America/Chicago".

(** The body the booking route sends with status 400 when the date or a
    time is missing. *)
Definition refusal : string :=
  "{" ++ Json.quoted "ok" ++ ":false," ++ Json.quoted "error" ++ ":"
  ++ Json.quoted "date, startTime, endTime required" ++ "}".

(** A request that is answered with it. *)
Definition refusing : string -> ToolHandler.body -> ToolHandler.fetch_result :=
  fun _ _ =>
    ToolHandler.FetchOk
      (ToolHandler.mkResponse false 400 (ToolHandler.TextOk refusal)
                              (ToolHandler.JsonOk None refusal)).

(** A tool call with the given tool name and parameters. *)
Definition call (toolName params : string) : ToolHandler.ToolCallMessage :=
  ToolHandler.mkToolCall (Some toolName) None (Some "call-1") None (Some params) None.

(** The request of the scenarios: 2025-01-05 with the given times. *)
Definition request (startTime endTime : string) : Server.BookRequest :=
  Server.mkBookRequest None (Some "2025-01-05") (Some startTime) (Some endTime)
                       None None None None.

(** A calendar that accepts every event. *)
Definition accepting : string -> Server.EventBody -> Server.insert_result :=
  fun _ _ => Server.Inserted "evt-1".

(** Monday 2025-01-06, 10:00 at UTC-6. *)
Definition monday : Z := utc 2025 1 6 16 0 0 0.

Definition defaultPolicy : BusinessHours.Policy :=
  BusinessHours.mkPolicy chicago "09:00-17:00" "1-5".

End Examples.

(* ===================================================================== *)
(** ** What the properties observe, and the checks they run *)
(* ===================================================================== *)

Module BridgeObs.
Import ToolHandler Bridge.
(** The media messages written to the Twilio socket, in order: the
    [streamSid] and the payload of each. *)
Fixpoint twilioMedia (acts : list action) : list (string * option string) :=
  match acts with
  | [] => []
  | TwilioSendMedia sid p :: rest => (sid, p) :: twilioMedia rest
  | _ :: rest => twilioMedia rest
  end.

(** The [data] of the [audio_output] messages of a sequence of events. *)
Fixpoint audioOutputs (evs : list event) : list (option string) :=
  match evs with
  | [] => []
  | HumeMessage (HmAudioOutput d) :: rest => d :: audioOutputs rest
  | _ :: rest => audioOutputs rest
  end.

(** Whether [humeSocket.close()] is called. *)
Definition closesHume (acts : list action) : bool :=
  existsb (fun a => match a with HumeSocketClose => true | _ => false end) acts.

Definition isStop (e : event) : bool :=
  match e with TwilioMessage TwStop => true | _ => false end.

Definition isTwilioClose (e : event) : bool :=
  match e with TwilioClose => true | _ => false end.
End BridgeObs.

Module HandlerObs.
Import ToolHandler.
(** Whether the socket has the method that writes [e]. *)
Definition written (socket : Socket) (e : effect) : bool :=
  match e with
  | Sent r => if isResponse r then has_sendToolResponseMessage socket
              else has_sendToolErrorMessage socket
  | Posted _ _ => true
  end.
End HandlerObs.

Module HoursChecks.
Import FixedOffset BusinessHours.
(** A specification of days written plainly: decimal digits, dashes
    and blanks only, at most six characters.  Its numbers are decimal
    integers below 100000, which [Number] reads exactly, and its ranges
    are far below what the loop and the [Set] of [parseBusinessDays]
    take. *)
Fixpoint plain_chars (s : string) : bool :=
  match s with
  | EmptyString => true
  | String c r =>
      (JS.is_digit c || Ascii.eqb c "-" || Ascii.eqb c " ") && plain_chars r
  end.

Definition plain (s : string) : bool :=
  plain_chars s && (String.length s <=? 6)%nat.

(** The two-digit text of [n], as the value of a part of the formatter,
    is read as [n]. *)
Definition two_digits_ok (n : Z) : bool :=
  match JS.Number (JS.or_default (Some (two_digits n)) "0") with
  | Some x => x =? n
  | None => false
  end.

(** The range [oh-ch] of two bare hours opens at [oh]:00 and closes at
    [ch]:59. *)
Definition bare_ok (oh ch : Z) : bool :=
  let w := windowOf (JS.string_of_Z oh ++ "-" ++ JS.string_of_Z ch) in
  (fst w =? oh * 60) && (snd w =? ch * 60 + 59).

(** The text [HH:MM] of [h] and [m] is left alone by [trim] and
    [toLowerCase] and matches the format [H:mm] with these values. *)
Definition hhmm_ok (h m : Z) : bool :=
  String.eqb (JS.toLowerCase (JS.trim (hhmm h m))) (hhmm h m)
  && match match_tokens [OneOrTwo; Lit ":"; Two] (hhmm h m) with
     | Some [h'; m'] => (h' =? h) && (m' =? m)
     | _ => false
     end.
End HoursChecks.

Module PostCallChecks.
Import JSText Conversation.
(** Some character of [s] satisfies [f]. *)
Fixpoint any_char (f : ascii -> bool) (s : string) : bool :=
  match s with
  | EmptyString => false
  | String c r => f c || any_char f r
  end.

(** The decimal digits. *)
Definition digit_chars : list ascii :=
  ["0"; "1"; "2"; "3"; "4"; "5"; "6"; "7"; "8"; "9"]%char.

(** [parseInt] reads one digit and two digits as their decimal value. *)
Definition digits_ok (a b : ascii) : bool :=
  match parseInt (Some (String a EmptyString)),
        parseInt (Some (String a (String b EmptyString))) with
  | Some x, Some y => (x =? JS.digit_val a) && (y =? 10 * JS.digit_val a + JS.digit_val b)
                      && (0 <=? JS.digit_val a) && (JS.digit_val a <=? 9)
  | _, _ => false
  end.

(** The text of the mock conversation. *)
Definition mockText : string :=
  "i want to book an appointment for tomorrow at 2pm great! what is your name? my name is john smith".
End PostCallChecks.

Module VoiceFlowObs.
Import Examples Server VoiceFlow.
(** A call of the calendar for thirty minutes from [n] or later. *)
Definition half_hour_from (n : Z) (c : calendar_call) : Prop :=
  exists ev s, c = EventsInsert "primary" ev
    /\ ev_start ev = Some s /\ ev_end ev = Some (s + 1800000) /\ n <= s.

(** A call that was asked for a day and time. *)
Definition awaitingCall : gmap string Session :=
  {[ "CA1" := mkSession "awaiting_datetime" None ]}.

(** A model that answers every utterance with Tuesday 2025-01-07, 09:00
    at UTC-6. *)
Definition tuesdayNine : string -> string -> option Intent :=
  fun _ _ => Some (mkIntent "schedule" "Booking that for you."
                     (Datetime.Text "2025-01-07T09:00:00-06:00"
                                    (Some (utc 2025 1 7 15 0 0 0)))).

Definition tuesdayEvent : EventBody :=
  mkEventBody "Call with our office" "Booked by phone. Caller said: tuesday at nine"
              (Some (utc 2025 1 7 15 0 0 0)) (Some (utc 2025 1 7 15 30 0 0))
              chicago None.
End VoiceFlowObs.

Module KnowledgeObs.
(** What holds of every chunk. *)
Definition chunk_ok (maxLen : nat) (l : list string) (c : string) : Prop :=
  c <> EmptyString
  /\ ((String.length c <= maxLen)%nat \/ exists s, In s l /\ c = JS.trim s).
End KnowledgeObs.

(* ===================================================================== *)
(** * Properties *)
(* ===================================================================== *)

(** ** The sources on concrete inputs *)

Module Evaluation.
Import Examples.

Example pickDefaultHourByHint_morning :
  DateParser.pickDefaultHourByHint "Tomorrow MORNING please" = Some 9.
Proof. reflexivity. Qed.

Example pickDefaultHourByHint_none :
  DateParser.pickDefaultHourByHint "friday at noon" = None.
Proof. reflexivity. Qed.

(** "tomorrow at 3pm" on 2025-06-10 at 10:00 (UTC-5), read by the parser as
    2025-06-11 15:00 with a certain hour, is returned as it is. *)
Example resolve_tomorrow_3pm :
  @DateParser.parseRelativeDateToISO CDT
     (fun _ _ => [DateParser.mkParsed (Some (utc 2025 6 11 20 0 0 0)) true None])
     "tomorrow at 3pm" None (utc 2025 6 10 15 0 0 0)
  = Some (utc 2025 6 11 20 0 0 0).
Proof. reflexivity. Qed.

(** A phrase without a date gives null. *)
Example resolve_nothing :
  @DateParser.parseRelativeDateToISO CDT (fun _ _ => []) "hello" None
     (utc 2025 6 10 15 0 0 0) = None.
Proof. reflexivity. Qed.

Example windowOf_short_close : BusinessHours.windowOf "8:30-12" = (510, 779).
Proof. reflexivity. Qed.

Example windowOf_unreadable : BusinessHours.windowOf "closed" = (0, 1439).
Proof. reflexivity. Qed.

Example parseBusinessDays_week (d : Z) :
  d ∈ BusinessHours.parseBusinessDays "1-5" <-> 1 <= d <= 5.
Proof.
  assert (E : BusinessHours.parseBusinessDays "1-5" = list_to_set (seqZ 1 5))
    by (vm_compute; reflexivity).
  rewrite E, elem_of_list_to_set, elem_of_seqZ. lia.
Qed.

Example parseBusinessDays_unreadable :
  BusinessHours.parseBusinessDays "weekdays" = BusinessHours.allDays.
Proof. vm_compute; reflexivity. Qed.

Example parseTime_24h :
  Server.parseTime (fun _ => CST) chicago monday "07:30" = Some (7, 30).
Proof. reflexivity. Qed.

Example parseTime_12h :
  Server.parseTime (fun _ => CST) chicago monday "3:00 PM" = Some (15, 0).
Proof. reflexivity. Qed.

Example parseTime_unreadable :
  Server.parseTime (fun _ => CST) chicago monday "noon" = None.
Proof. reflexivity. Qed.

Example parseDate_slashes :
  Server.parseDate (fun _ => CST) chicago monday "1/5" = Some (2025, 1, 5).
Proof. reflexivity. Qed.

Example json_object_parses :
  Json.parses ("{" ++ Json.quoted "date" ++ ": " ++ Json.quoted "2025-01-05" ++ "}")
  = true.
Proof. reflexivity. Qed.

Example json_trailing_comma : Json.parses "[1, 2,]" = false.
Proof. reflexivity. Qed.

(** 09:00-09:30 on Monday 2025-01-06 is booked as given. *)
Example book_inside_hours :
  Server.book_appointment (fun _ => CST) accepting chicago "ArenaMinds AI" monday
    (Server.mkBookRequest None (Some "2025-01-06") (Some "09:00") (Some "09:30")
                          None None None None)
  = (Server.Ok200 "evt-1" (Some (utc 2025 1 6 15 0 0 0)) (Some (utc 2025 1 6 15 30 0 0)),
     [Server.EventsInsert "primary"
        (Server.mkEventBody "Call with ArenaMinds AI"
           "Booked via Hume tool book_appointment"
           (Some (utc 2025 1 6 15 0 0 0)) (Some (utc 2025 1 6 15 30 0 0))
           chicago None)]).
Proof. reflexivity. Qed.

(** A request without an end time is refused before anything is parsed. *)
Example book_without_end :
  Server.book_appointment (fun _ => CST) accepting chicago "ArenaMinds AI" monday
    (Server.mkBookRequest None (Some "2025-01-06") (Some "09:00") None
                          None None None None)
  = (Server.Status400 "date, startTime, endTime required", []).
Proof. reflexivity. Qed.

End Evaluation.

(** ** JavaScript comparisons *)

Module JSFacts.

Lemma le_Some (x y : Z) : JS.le (Some x) (Some y) = (x <=? y).
Proof. reflexivity. Qed.

Lemma lt_Some (x y : Z) : JS.lt (Some x) (Some y) = (x <? y).
Proof. reflexivity. Qed.

Lemma lt_irrefl (a : JS.num) : JS.lt a a = false.
Proof. destruct a as [x|]; simpl; [apply Z.ltb_irrefl | reflexivity]. Qed.

Lemma le_true (a b : JS.num) :
  JS.le a b = true -> exists x y, a = Some x /\ b = Some y /\ x <= y.
Proof.
  destruct a as [x|], b as [y|]; simpl; try discriminate.
  intros Hle. exists x, y. repeat split. now apply Z.leb_le.
Qed.

Lemma le_false_Some (x y : Z) : JS.le (Some x) (Some y) = false -> y < x.
Proof. simpl. intros Hle. now apply Z.leb_gt. Qed.

(** Zero is falsy. *)
Lemma truthy_num_zero : JS.truthy_num (Some 0) = false.
Proof. reflexivity. Qed.

Lemma truthy_num_nonzero (n : Z) : n <> 0 -> JS.truthy_num (Some n) = true.
Proof.
  intros Hn. unfold JS.truthy_num.
  destruct (Z.eqb_spec n 0); [contradiction | reflexivity].
Qed.

End JSFacts.

(** ** The resolver (services/date-parser.js) *)

Module DateParserFacts.
Import Luxon DateParser.

Section Generic.
Context `{Zone}.
Variable chrono_parse : string -> JSDate.Date -> list ParsedResult.

(** The future-safety pass returns an instant after the reference, or an
    invalid DateTime. *)
Lemma ensureFuture_after (dt : DateTime) (n : Z) (bias : bool) (t : Z) :
  ensureFuture dt (Some n) bias = Some t -> n < t.
Proof.
  unfold ensureFuture, dt_le.
  destruct dt as [d|]; simpl.
  - destruct (Z.leb_spec d n) as [Hdn|Hdn].
    + destruct bias; simpl.
      * destruct (Z.leb_spec (plusDaysTs 7 d) n); simpl;
          intros [= <-]; unfold Ecma.msPerMinute; lia.
      * destruct (Z.leb_spec (plusDaysTs 1 d) n); simpl;
          intros [= <-]; unfold Ecma.msPerMinute; lia.
    + intros [= <-]. exact Hdn.
  - discriminate.
Qed.

(** A valid DateTime stays valid through the pass. *)
Lemma ensureFuture_valid (d n : Z) (bias : bool) :
  exists t, ensureFuture (Some d) (Some n) bias = Some t.
Proof.
  unfold ensureFuture, dt_le. simpl.
  destruct (d <=? n); [|eauto].
  destruct bias; simpl.
  - destruct (plusDaysTs 7 d <=? n); eauto.
  - destruct (plusDaysTs 1 d <=? n); eauto.
Qed.

(** The shape of the pass on valid DateTimes. *)
Lemma ensureFuture_cases (d n : Z) (bias : bool) :
  let k := if bias then 7 else 1 in
  ensureFuture (Some d) (Some n) bias =
    if d <=? n then
      if plusDaysTs k d <=? n then Some (n + 5 * 60000) else Some (plusDaysTs k d)
    else Some d.
Proof.
  unfold ensureFuture, dt_le. simpl.
  destruct (d <=? n); [|reflexivity].
  destruct bias; reflexivity.
Qed.

(** Whenever the resolver returns a timestamp, it is strictly after the
    reference instant. *)
Lemma parseRelativeDateToISO_after
    (text : string) (now : option DateTime) (clock n t : Z) :
  refOf now clock = Some n ->
  parseRelativeDateToISO chrono_parse text now clock = Some t ->
  n < t.
Proof.
  unfold parseRelativeDateToISO, toISO. intros ->.
  destruct (chrono_parse text (toJSDate (Some n))) as [|r rest]; [discriminate|].
  apply ensureFuture_after.
Qed.

(** The resolver on a result that is valid and not after the reference:
    seven days with the weekday bias, one day without, and five minutes
    after the reference when that is still not after it. *)
Lemma parseRelativeDateToISO_past
    (text : string) (now : option DateTime) (clock : Z)
    (r : ParsedResult) (rest : list ParsedResult) (d n : Z) :
  refOf now clock = Some n ->
  chrono_parse text (toJSDate (Some n)) = r :: rest ->
  withDefaultHour text r = Some d ->
  d <= n ->
  let k := if weekdayBiasOf r then 7 else 1 in
  parseRelativeDateToISO chrono_parse text now clock =
    if plusDaysTs k d <=? n then Some (n + 5 * 60000) else Some (plusDaysTs k d).
Proof.
  intros Href Hparse Hd Hle. cbv zeta.
  unfold parseRelativeDateToISO, toISO. rewrite Href, Hparse, Hd.
  rewrite (ensureFuture_cases d n (weekdayBiasOf r)). cbv zeta.
  destruct (Z.leb_spec d n); [reflexivity | lia].
Qed.

(** A result after the reference is returned as it is. *)
Lemma parseRelativeDateToISO_future
    (text : string) (now : option DateTime) (clock : Z)
    (r : ParsedResult) (rest : list ParsedResult) (d n : Z) :
  refOf now clock = Some n ->
  chrono_parse text (toJSDate (Some n)) = r :: rest ->
  withDefaultHour text r = Some d ->
  n < d ->
  parseRelativeDateToISO chrono_parse text now clock = Some d.
Proof.
  intros Href Hparse Hd Hlt.
  unfold parseRelativeDateToISO, toISO. rewrite Href, Hparse, Hd.
  rewrite (ensureFuture_cases d n (weekdayBiasOf r)). cbv zeta.
  destruct (Z.leb_spec d n); [lia | reflexivity].
Qed.

(** Only a weekday other than Sunday switches the bias on. *)
Lemma weekdayBiasOf_true (r : ParsedResult) :
  weekdayBiasOf r = true <-> exists w, start_weekday r = Some w /\ w <> 0.
Proof.
  unfold weekdayBiasOf, JS.truthy_num.
  destruct (start_weekday r) as [w|].
  - destruct (Z.eqb_spec w 0) as [->|Hw]; simpl; split.
    + discriminate.
    + intros (w & [= <-] & Hw). contradiction.
    + eauto.
    + reflexivity.
  - split; [discriminate | intros (w & [=] & _)].
Qed.
End Generic.

End DateParserFacts.

(** ** The calendar *)

Module CalendarFacts.
Import Ecma.

(** Division and remainder by constants, then linear arithmetic. *)
Ltac dlia := Z.div_mod_to_equations; lia.

(** A year is as long as [DaysInYear] says. *)
Lemma DayFromYear_succ (y : Z) : DayFromYear (y + 1) = DayFromYear y + DaysInYear y.
Proof.
  unfold DayFromYear, DaysInYear.
  replace (y + 1 - 1970) with (y - 1970 + 1) by lia.
  replace (y + 1 - 1969) with (y - 1968) by lia.
  replace (y + 1 - 1901) with (y - 1900) by lia.
  replace (y + 1 - 1601) with (y - 1600) by lia.
  destruct (Z.eqb_spec (y mod 4) 0); destruct (Z.eqb_spec (y mod 100) 0);
    destruct (Z.eqb_spec (y mod 400) 0); cbn [negb]; dlia.
Qed.

Lemma DaysInYear_cases (y : Z) : DaysInYear y = 365 \/ DaysInYear y = 366.
Proof.
  unfold DaysInYear.
  destruct (y mod 4 =? 0), (y mod 100 =? 0), (y mod 400 =? 0); simpl; auto.
Qed.

Lemma DayFromYear_mono (y1 y2 : Z) : y1 <= y2 -> DayFromYear y1 <= DayFromYear y2.
Proof. unfold DayFromYear. intros Hy. dlia. Qed.

(** [YearFromTime] is the year whose days contain the day of [t]. *)
Lemma YearFromTime_bounds (t : Z) :
  DayFromYear (YearFromTime t) <= Day t < DayFromYear (YearFromTime t + 1).
Proof.
  unfold YearFromTime. set (d := Day t). set (e := 1970 + 400 * d / 146097).
  assert (He : DayFromYear (e - 1) <= d < DayFromYear (e + 2)).
  { unfold e, DayFromYear. dlia. }
  destruct (Z.leb_spec (DayFromYear (e + 1)) d).
  - replace (e + 1 + 1) with (e + 2) by lia. lia.
  - destruct (Z.leb_spec (DayFromYear e) d).
    + lia.
    + replace (e - 1 + 1) with e by lia. lia.
Qed.

(** It is the only such year. *)
Lemma YearFromTime_unique (t y : Z) :
  DayFromYear y <= Day t < DayFromYear (y + 1) -> YearFromTime t = y.
Proof.
  intros Hy. pose proof (YearFromTime_bounds t) as Hb.
  destruct (Z.lt_trichotomy (YearFromTime t) y) as [Hlt|[Heq|Hgt]]; [|exact Heq|].
  - pose proof (DayFromYear_mono (YearFromTime t + 1) y ltac:(lia)). lia.
  - pose proof (DayFromYear_mono (y + 1) (YearFromTime t) ltac:(lia)). lia.
Qed.

Lemma YearFromTime_lt (a b : Z) : YearFromTime a < YearFromTime b -> a < b.
Proof.
  intros Hy. pose proof (YearFromTime_bounds a) as Ha.
  pose proof (YearFromTime_bounds b) as Hb.
  pose proof (DayFromYear_mono (YearFromTime a + 1) (YearFromTime b) ltac:(lia)).
  assert (Day a < Day b) by lia. unfold Day, msPerDay in *. dlia.
Qed.

Lemma DayWithinYear_range (t : Z) : 0 <= DayWithinYear t < 365 + InLeapYear t.
Proof.
  unfold DayWithinYear, InLeapYear. pose proof (YearFromTime_bounds t) as Hb.
  rewrite DayFromYear_succ in Hb.
  destruct (DaysInYear_cases (YearFromTime t)) as [E|E]; rewrite E in *; simpl; lia.
Qed.

Lemma MonthFromTime_range (t : Z) : 0 <= MonthFromTime t <= 11.
Proof.
  unfold MonthFromTime.
  repeat match goal with |- context [if ?b then _ else _] => destruct b end; lia.
Qed.

Lemma DateFromTime_range (t : Z) : 1 <= DateFromTime t <= 31.
Proof.
  pose proof (DayWithinYear_range t) as Hr.
  unfold DateFromTime, MonthFromTime.
  assert (Hl : InLeapYear t = 0 \/ InLeapYear t = 1).
  { unfold InLeapYear. destruct (DaysInYear (YearFromTime t) =? 366); auto. }
  repeat match goal with
         | |- context [if ?a <? ?b then _ else _] => destruct (Z.ltb_spec a b)
         end; cbn [monthStart]; lia.
Qed.

(** [MakeDay] gives back the day of the date it is made from. *)
Lemma MakeDay_civil (t : Z) :
  MakeDay (YearFromTime t) (MonthFromTime t) (DateFromTime t) = Day t.
Proof.
  pose proof (MonthFromTime_range t) as Hm.
  unfold MakeDay.
  replace (MonthFromTime t / 12) with 0 by dlia.
  replace (MonthFromTime t mod 12) with (MonthFromTime t) by dlia.
  rewrite Z.add_0_r. unfold DateFromTime, DayWithinYear, InLeapYear. lia.
Qed.

(** A month and a day of the month, even one the month does not have, stay
    within the year. *)
Lemma MakeDay_in_year (y m d : Z) :
  0 <= m <= 11 -> 1 <= d <= 31 ->
  DayFromYear y <= MakeDay y m d < DayFromYear (y + 1).
Proof.
  intros Hm Hd. unfold MakeDay.
  replace (m / 12) with 0 by dlia. replace (m mod 12) with m by dlia.
  rewrite Z.add_0_r, DayFromYear_succ.
  destruct (DaysInYear_cases y) as [E|E]; rewrite E; simpl;
    assert (Hc : m = 0 \/ m = 1 \/ m = 2 \/ m = 3 \/ m = 4 \/ m = 5 \/ m = 6
                 \/ m = 7 \/ m = 8 \/ m = 9 \/ m = 10 \/ m = 11) by lia;
    repeat (destruct Hc as [->|Hc]; [simpl; lia|]); subst; simpl; lia.
Qed.

Lemma Day_MakeDate (day tod : Z) : 0 <= tod < msPerDay -> Day (MakeDate day tod) = day.
Proof. unfold Day, MakeDate, msPerDay. intros. dlia. Qed.

Lemma TimeWithinDay_range (t : Z) : 0 <= TimeWithinDay t < msPerDay.
Proof. unfold TimeWithinDay, msPerDay. dlia. Qed.

Lemma MakeDate_civil (t : Z) :
  MakeDate (MakeDay (YearFromTime t) (MonthFromTime t) (DateFromTime t)) (TimeWithinDay t) = t.
Proof. rewrite MakeDay_civil. unfold MakeDate, Day, TimeWithinDay, msPerDay. dlia. Qed.

Lemma MakeTime_fields (t : Z) :
  MakeTime (HourFromTime t) (MinFromTime t) (SecFromTime t) (msFromTime t) = TimeWithinDay t.
Proof.
  unfold MakeTime, HourFromTime, MinFromTime, SecFromTime, msFromTime, TimeWithinDay,
    msPerHour, msPerMinute, msPerSecond, msPerDay.
  dlia.
Qed.

(** The day of the month never exceeds the length of the month. *)
Lemma DateFromTime_le_daysInMonth (t : Z) :
  DateFromTime t <= daysInMonth (YearFromTime t) (MonthFromTime t + 1).
Proof.
  pose proof (DayWithinYear_range t) as Hr.
  unfold DateFromTime, MonthFromTime, daysInMonth, InLeapYear in *.
  destruct (DaysInYear (YearFromTime t) =? 366);
  repeat match goal with
         | |- context [if ?a <? ?b then _ else _] => destruct (Z.ltb_spec a b)
         end; simpl; lia.
Qed.

End CalendarFacts.

(** ** luxon at a fixed offset *)

Module FixedOffsetFacts.
Import Ecma FixedOffset CalendarFacts.

Lemma MakeDay_add (y m d n : Z) : MakeDay y m (d + n) = MakeDay y m d + n.
Proof. unfold MakeDay. lia. Qed.

(** In a zone at a fixed offset, adding calendar days adds multiples of 24 hours. *)
Lemma fo_plusDaysTs_exact (off n ts : Z) :
  fo_plusDaysTs off n ts = ts + n * msPerDay.
Proof.
  unfold fo_plusDaysTs, objToLocalTS, ofLocal. set (l := toLocal off ts).
  rewrite Z.min_l by apply DateFromTime_le_daysInMonth.
  replace (MonthFromTime l + 1 - 1) with (MonthFromTime l) by lia.
  rewrite MakeDay_add, MakeDay_civil, MakeTime_fields.
  unfold MakeDate, l, toLocal, Day, TimeWithinDay, msPerDay, msPerMinute. dlia.
Qed.

(** The same for the zone instance: one calendar day is 86400000 ms. *)
Lemma plusDaysTs_fixed (off n ts : Z) :
  @Luxon.plusDaysTs (FixedOffset.zone off) n ts = ts + n * 86400000.
Proof. apply fo_plusDaysTs_exact. Qed.

(** Setting the hour keeps the local day and gives the local time
    [h]:00:00.000. *)
Lemma fo_setHourTs_local (off h ts : Z) :
  toLocal off (fo_setHourTs off h ts) = Day (toLocal off ts) * msPerDay + h * msPerHour.
Proof.
  unfold fo_setHourTs, objToLocalTS, ofLocal. set (l := toLocal off ts).
  replace (MonthFromTime l + 1 - 1) with (MonthFromTime l) by lia.
  rewrite MakeDay_civil. unfold toLocal, MakeDate, MakeTime. lia.
Qed.

End FixedOffsetFacts.

(** ** [Date] at a fixed local offset *)

Module JSDateFacts.
Import Ecma JSDate CalendarFacts.

(** [setFullYear] puts the date in the year it is given (a 29 February
    becomes 1 March of that year). *)
Lemma setFullYear_year (off t y t' : Z) :
  setFullYear (fixedTZA off) (Some t) y = Some t' ->
  getFullYear (fixedTZA off) (Some t') = Some y.
Proof.
  unfold setFullYear, getFullYear, TimeClip, LocalTime, UTC, fixedTZA.
  set (l := t + off * msPerMinute).
  destruct (_ >? _); [discriminate|]. intros [= <-]. f_equal.
  apply YearFromTime_unique.
  replace (MakeDate (MakeDay y (MonthFromTime l) (DateFromTime l)) (TimeWithinDay l)
           - off * msPerMinute + off * msPerMinute)
    with (MakeDate (MakeDay y (MonthFromTime l) (DateFromTime l)) (TimeWithinDay l)) by lia.
  rewrite Day_MakeDate by apply TimeWithinDay_range.
  apply MakeDay_in_year; [apply MonthFromTime_range | apply DateFromTime_range].
Qed.

(** A date in an earlier year is an earlier instant. *)
Lemma getFullYear_lt (off a b : Z) :
  JS.lt (getFullYear (fixedTZA off) (Some a)) (getFullYear (fixedTZA off) (Some b)) = true ->
  a < b.
Proof.
  unfold getFullYear, LocalTime, fixedTZA. simpl. intros Hlt.
  apply Z.ltb_lt in Hlt. apply YearFromTime_lt in Hlt. lia.
Qed.

End JSDateFacts.

Module ResolverClaims.
Import Luxon DateParser Examples.

(** C9, as amended: when the first result has no certain hour, the hour is
    taken from the first of "morning" (09:00), "afternoon" (14:00) and
    "evening" (18:00), in this order, that the lower-cased phrase
    contains, with minutes, seconds and milliseconds set to zero; a
    phrase with none of them keeps the time the parser gave. *)
Theorem default_hour_follows_first_hint `{Zone} (text : string) (r : ParsedResult) :
  hour_certain r = false ->
  let t := JS.toLowerCase text in
  let dt := fromJSDate (start_date r) in
  (JS.includes t "morning" = true -> withDefaultHour text r = setHour 9 dt)
  /\ (JS.includes t "morning" = false -> JS.includes t "afternoon" = true ->
      withDefaultHour text r = setHour 14 dt)
  /\ (JS.includes t "morning" = false -> JS.includes t "afternoon" = false ->
      JS.includes t "evening" = true ->
      withDefaultHour text r = setHour 18 dt)
  /\ (JS.includes t "morning" = false -> JS.includes t "afternoon" = false ->
      JS.includes t "evening" = false ->
      withDefaultHour text r = dt).
Proof.
  intros Hc t dt. unfold withDefaultHour, pickDefaultHourByHint.
  rewrite Hc. simpl negb. cbv iota. fold t. fold dt.
  repeat split.
  - intros ->. reflexivity.
  - intros -> ->. reflexivity.
  - intros -> -> ->. reflexivity.
  - intros -> -> ->. reflexivity.
Qed.

(** "tomorrow evening", parsed as 2025-06-11 12:00 in a zone at UTC-5,
    becomes 18:00 of that day. *)
Lemma default_hour_follows_first_hint_witness :
  @withDefaultHour CDT "Tomorrow evening"
    (mkParsed (Some (utc 2025 6 11 17 0 0 0)) false None)
  = Some (utc 2025 6 11 23 0 0 0).
Proof.
  pose proof (@default_hour_follows_first_hint CDT "Tomorrow evening"
                (mkParsed (Some (utc 2025 6 11 17 0 0 0)) false None)
                eq_refl) as (_ & _ & Hevening & _).
  rewrite Hevening; reflexivity.
Defined.

(** C9, as stated, fails: the phrase below contains "afternoon", yet the
    hour is set to 09:00 and not to 14:00. *)
Lemma afternoon_after_morning_gets_nine :
  let text := "tomorrow morning or afternoon" in
  let r := mkParsed (Some (utc 2025 6 11 17 0 0 0)) false None in
  JS.includes (JS.toLowerCase text) "afternoon" = true
  /\ @withDefaultHour CDT text r = Some (utc 2025 6 11 14 0 0 0)
  /\ @withDefaultHour CDT text r
     <> @setHour CDT 14 (fromJSDate (start_date r)).
Proof.
  cbv zeta. split; [reflexivity|]. split; [reflexivity|].
  vm_compute. discriminate.
Qed.

(** C5: a phrase that names Sunday (chrono's weekday 0) and resolves to an
    instant at or before the reference is advanced by one day, not by
    seven: the weekday bias is computed as [!!0].  When one day later is
    still not after the reference, the result is the reference plus five
    minutes. *)
Theorem sunday_is_advanced_by_one_day `{Zone}
    (chrono_parse : string -> JSDate.Date -> list ParsedResult)
    (text : string) (now : option DateTime) (clock : Z)
    (r : ParsedResult) (rest : list ParsedResult) (d n : Z) :
  refOf now clock = Some n ->
  chrono_parse text (toJSDate (Some n)) = r :: rest ->
  start_weekday r = Some 0 ->
  withDefaultHour text r = Some d ->
  d <= n ->
  parseRelativeDateToISO chrono_parse text now clock =
    if plusDaysTs 1 d <=? n then Some (n + 5 * 60000) else Some (plusDaysTs 1 d).
Proof.
  intros Href Hparse Hw Hd Hle.
  unfold parseRelativeDateToISO, toISO. rewrite Href, Hparse, Hd.
  unfold weekdayBiasOf. rewrite Hw. simpl JS.truthy_num.
  rewrite (DateParserFacts.ensureFuture_cases d n false).
  cbv zeta. destruct (Z.leb_spec d n); [reflexivity | lia].
Qed.

(** On Wednesday 2025-06-11 at 10:00 (UTC-5) the phrase "Sunday, June 8
    2025 9am" names a day of the past with its year, which the parser
    keeps (the option [forwardDate] moves only a weekday or a day and
    month given alone), with Sunday as weekday 0 and a certain hour.  One
    day later is still before the reference, so the result is the
    reference plus five minutes; seven days later is Sunday 2025-06-15 at
    09:00, after the reference. *)
Lemma sunday_is_advanced_by_one_day_witness :
  let chrono := fun (_ : string) (_ : JSDate.Date) =>
    [mkParsed (Some (utc 2025 6 8 14 0 0 0)) true (Some 0)] in
  @parseRelativeDateToISO CDT chrono "Sunday, June 8 2025 9am" None
    (utc 2025 6 11 15 0 0 0)
  = Some (utc 2025 6 11 15 5 0 0)
  /\ @plusDays CDT 7 (Some (utc 2025 6 8 14 0 0 0)) = Some (utc 2025 6 15 14 0 0 0)
  /\ utc 2025 6 11 15 0 0 0 < utc 2025 6 15 14 0 0 0.
Proof.
  cbv zeta. split; [|split; reflexivity].
  rewrite (@sunday_is_advanced_by_one_day CDT _ "Sunday, June 8 2025 9am" None
             (utc 2025 6 11 15 0 0 0)
             (mkParsed (Some (utc 2025 6 8 14 0 0 0)) true (Some 0)) []
             (utc 2025 6 8 14 0 0 0) (utc 2025 6 11 15 0 0 0));
    first [reflexivity | (vm_compute; discriminate)].
Defined.

End ResolverClaims.

(** ** The year-safety pass (services/datetime.js) *)

Module DatetimeClaims.
Import Ecma JSDate Datetime Examples CalendarFacts JSDateFacts.

(** What the pass does guarantee, at a fixed local offset: the result is
    never before the reference instant, and never in an earlier year. *)
Lemma ensureFutureIso_not_before_reference
    (off clock : Z) (raw : string) (t n o : Z) :
  let tza := fixedTZA off in
  referenceOf tza clock = Some n ->
  ensureFutureIso tza clock (Text raw (Some t)) = IsoString o ->
  n <= o /\ JS.le (getFullYear tza (Some n)) (getFullYear tza (Some o)) = true.
Proof.
  cbv zeta. unfold ensureFutureIso. intros Href. rewrite Href.
  set (y := YearFromTime (LocalTime (fixedTZA off) n)).
  change (getFullYear (fixedTZA off) (Some n)) with (Some y).
  (* the candidate after the first step is in the reference year or later *)
  set (c1 := if JS.lt (getFullYear (fixedTZA off) (Some t)) (Some y)
             then setFullYear (fixedTZA off) (Some t) y else Some t).
  assert (Hc1 : forall x, c1 = Some x ->
                  JS.le (Some y) (getFullYear (fixedTZA off) (Some x)) = true).
  { intros x Hx. unfold c1 in Hx.
    destruct (JS.lt (getFullYear (fixedTZA off) (Some t)) (Some y)) eqn:Hlt.
    - rewrite (setFullYear_year off t y x Hx). simpl. apply Z.leb_refl.
    - injection Hx as <-. simpl in *. apply Z.leb_le.
      apply Z.ltb_ge in Hlt. exact Hlt. }
  change (match Some y with
          | Some y0 => setFullYear (fixedTZA off) (Some t) y0
          | None => Some t
          end)
    with (setFullYear (fixedTZA off) (Some t) y).
  fold c1. clearbody c1.
  destruct c1 as [x|]; [|simpl; discriminate].
  specialize (Hc1 x eq_refl).
  unfold date_lt. simpl JS.lt at 1.
  destruct (Z.ltb_spec x n) as [Hxn|Hxn].
  - (* second step: the next year is after the year of the reference *)
    cbn [getFullYear].
    destruct (setFullYear (fixedTZA off) (Some x)
                (YearFromTime (LocalTime (fixedTZA off) x) + 1))
      as [x2|] eqn:Hx2; simpl; [|discriminate].
    intros [= Ho]. subst o.
    pose proof (setFullYear_year off x _ x2 Hx2) as Hy2.
    simpl in Hc1. apply Z.leb_le in Hc1.
    assert (Hlt : JS.lt (getFullYear (fixedTZA off) (Some n))
                        (getFullYear (fixedTZA off) (Some x2)) = true).
    { rewrite Hy2. simpl. apply Z.ltb_lt. fold y. lia. }
    split.
    + apply getFullYear_lt in Hlt. lia.
    + unfold getFullYear in Hy2 |- *. injection Hy2 as Hy2.
      simpl. apply Z.leb_le. rewrite Hy2. fold y. lia.
  - simpl. intros [= Ho]. subst o. split; [exact Hxn | exact Hc1].
Qed.

(** C1: an explicit timestamp equal to the reference instant is handed
    back as it is, so the result is not strictly after the reference: the
    pass advances a candidate only when [candidate < now]. *)
Theorem ensureFutureIso_keeps_reference_instant
    (LocalTZA : Z -> bool -> Z) (clock : Z) (raw : string) (n : Z) :
  referenceOf LocalTZA clock = Some n ->
  ensureFutureIso LocalTZA clock (Text raw (Some n)) = IsoString n.
Proof.
  unfold ensureFutureIso. intros Href. rewrite Href.
  rewrite JSFacts.lt_irrefl. unfold date_lt. rewrite JSFacts.lt_irrefl.
  reflexivity.
Qed.

(** At 2025-06-10 10:00:00.250 local time (UTC-5) the timestamp
    2025-06-10 10:00:00 comes back unchanged: it equals the reference. *)
Lemma ensureFutureIso_keeps_reference_instant_witness :
  let tza := fixedTZA (-300) in
  let clock := utc 2025 6 10 15 0 0 250 in
  referenceOf tza clock = Some (utc 2025 6 10 15 0 0 0)
  /\ ensureFutureIso tza clock
       (Text "2025-06-10 10:00:00" (Some (utc 2025 6 10 15 0 0 0)))
     = IsoString (utc 2025 6 10 15 0 0 0).
Proof.
  cbv zeta. split; [reflexivity|].
  apply (ensureFutureIso_keeps_reference_instant (fixedTZA (-300))
           (utc 2025 6 10 15 0 0 250) "2025-06-10 10:00:00"
           (utc 2025 6 10 15 0 0 0)).
  reflexivity.
Defined.

(** C4: a timestamp of an earlier year whose month, day and time are
    those of the reference instant gets the reference year and is then
    returned: it equals the reference and is not advanced, because the
    second step tests [candidate < now]. *)
Theorem ensureFutureIso_earlier_year_lands_on_reference
    (LocalTZA : Z -> bool -> Z) (clock : Z) (raw : string) (t n y : Z) :
  referenceOf LocalTZA clock = Some n ->
  getFullYear LocalTZA (Some n) = Some y ->
  JS.lt (getFullYear LocalTZA (Some t)) (Some y) = true ->
  setFullYear LocalTZA (Some t) y = Some n ->
  ensureFutureIso LocalTZA clock (Text raw (Some t)) = IsoString n.
Proof.
  unfold ensureFutureIso. intros Href Hy Hlt Hset. rewrite Href.
  rewrite Hy, Hlt, Hset. unfold date_lt. rewrite JSFacts.lt_irrefl.
  reflexivity.
Qed.

(** At 2025-06-10 10:00:00.250 local time (UTC-5) the timestamp
    2024-06-10T10:00:00 is moved to 2025-06-10T10:00:00, the reference
    instant itself. *)
Lemma ensureFutureIso_earlier_year_lands_on_reference_witness :
  let tza := fixedTZA (-300) in
  let clock := utc 2025 6 10 15 0 0 250 in
  referenceOf tza clock = Some (utc 2025 6 10 15 0 0 0)
  /\ getFullYear tza (Some (utc 2024 6 10 15 0 0 0)) = Some 2024
  /\ getFullYear tza (referenceOf tza clock) = Some 2025
  /\ ensureFutureIso tza clock
       (Text "2024-06-10T10:00:00" (Some (utc 2024 6 10 15 0 0 0)))
     = IsoString (utc 2025 6 10 15 0 0 0).
Proof.
  cbv zeta. split; [reflexivity|]. split; [reflexivity|]. split; [reflexivity|].
  apply (ensureFutureIso_earlier_year_lands_on_reference (fixedTZA (-300))
           (utc 2025 6 10 15 0 0 250) "2024-06-10T10:00:00"
           (utc 2024 6 10 15 0 0 0) (utc 2025 6 10 15 0 0 0) 2025);
    reflexivity.
Defined.

End DatetimeClaims.


(** ** Strings: reversal and [split] *)

Module StringFacts.

Lemma append_cons (x : ascii) (a b : string) : String x a ++ b = String x (a ++ b).
Proof. reflexivity. Qed.

Lemma append_assoc (a b c : string) : (a ++ b) ++ c = a ++ (b ++ c).
Proof.
  induction a as [|x a IH]; [reflexivity|].
  rewrite !append_cons. f_equal. exact IH.
Qed.

Lemma append_empty (a : string) : a ++ EmptyString = a.
Proof.
  induction a as [|x a IH]; [reflexivity|].
  rewrite append_cons. f_equal. exact IH.
Qed.

Lemma rev_string_append (a b acc : string) :
  JS.rev_string acc (a ++ b) = JS.rev_string (JS.rev_string acc a) b.
Proof.
  revert acc. induction a as [|x a IH]; intros acc; [reflexivity|].
  rewrite append_cons. simpl. apply IH.
Qed.

Lemma rev_string_acc (acc s : string) :
  JS.rev_string acc s = JS.rev_string EmptyString s ++ acc.
Proof.
  revert acc. induction s as [|c s IH]; intros acc; simpl; [reflexivity|].
  rewrite (IH (String c acc)), (IH (String c EmptyString)).
  now rewrite append_assoc.
Qed.

Lemma rev_string_rev (s acc : string) :
  JS.rev_string acc (JS.rev_string EmptyString s) = s ++ acc.
Proof.
  revert acc. induction s as [|c s IH]; intros acc; simpl; [reflexivity|].
  rewrite (rev_string_acc (String c EmptyString) s), rev_string_append, IH.
  reflexivity.
Qed.

Lemma rev_string_involutive (s : string) :
  JS.rev_string EmptyString (JS.rev_string EmptyString s) = s.
Proof. rewrite rev_string_rev. apply append_empty. Qed.

Lemma split_go_prefix (sep : ascii) (a x cur : string) :
  JS.no_char sep a = true ->
  JS.split_go sep cur (a ++ x) = JS.split_go sep (JS.rev_string cur a) x.
Proof.
  revert cur. induction a as [|c a IH]; intros cur Hno; [reflexivity|].
  rewrite append_cons. simpl in *.
  apply andb_true_iff in Hno as [Hc Ha].
  destruct (Ascii.eqb c sep); [discriminate|]. now apply IH.
Qed.

Lemma split_two (sep : ascii) (a b : string) :
  JS.no_char sep a = true -> JS.no_char sep b = true ->
  JS.split sep (a ++ String sep b) = [a; b].
Proof.
  intros Ha Hb. unfold JS.split.
  rewrite split_go_prefix by exact Ha. simpl. rewrite Ascii.eqb_refl.
  rewrite rev_string_involutive. f_equal.
  rewrite <- (append_empty b) at 1.
  rewrite split_go_prefix by exact Hb. simpl.
  now rewrite rev_string_involutive.
Qed.

End StringFacts.

(** ** The business hours gate (server.js) *)

Module BusinessHoursClaims.
Import BusinessHours Examples StringFacts.

(** On an open day the answer is the comparison of the minute of the day
    with the two ends of the window. *)
Lemma isWithinBusinessHoursAt_open_day
    (formatToParts : string -> Z -> option (list part))
    (p : Policy) (t day : Z) (minutes : JS.num) :
  getPartsForDateInTimezone formatToParts t (timezone p) = Some (day, minutes) ->
  day ∈ parseBusinessDays (daysSpec p) ->
  isWithinBusinessHoursAt formatToParts (Some t) p
  = inWindow minutes (windowOf (hoursRange p)).
Proof.
  intros Hparts Hday. unfold isWithinBusinessHoursAt. rewrite Hparts.
  rewrite (bool_decide_eq_true_2 _ Hday). reflexivity.
Qed.

(** A day outside the open days is closed whatever the time. *)
Lemma isWithinBusinessHoursAt_closed_day
    (formatToParts : string -> Z -> option (list part))
    (p : Policy) (t day : Z) (minutes : JS.num) :
  getPartsForDateInTimezone formatToParts t (timezone p) = Some (day, minutes) ->
  day ∉ parseBusinessDays (daysSpec p) ->
  isWithinBusinessHoursAt formatToParts (Some t) p = false.
Proof.
  intros Hparts Hday. unfold isWithinBusinessHoursAt. rewrite Hparts.
  rewrite (bool_decide_eq_false_2 _ Hday). reflexivity.
Qed.

Lemma inWindow_spec (m o c : Z) :
  inWindow (Some m) (o, c) = true <-> o <= m <= c.
Proof.
  unfold inWindow, JS.ge, JS.le. simpl.
  rewrite andb_true_iff, !Z.leb_le. tauto.
Qed.

(** The default configuration: 09:00 is minute 540, 17:00 minute 1020. *)
Lemma windowOf_default : windowOf "09:00-17:00" = (540, 1020).
Proof. reflexivity. Qed.

(** A range of two parts without dash is read part by part. *)
Lemma windowOf_sides (a b : string) :
  JS.no_char "-" a = true -> JS.no_char "-" b = true ->
  JS.truthy_str a = true -> JS.truthy_str b = true ->
  windowOf (a ++ String "-" b) = (minuteOfSide a 0 0, minuteOfSide b 23 59).
Proof.
  intros Ha Hb Hta Htb. unfold windowOf. rewrite split_two by assumption.
  simpl nth_error. unfold JS.or_default. rewrite Hta, Htb. reflexivity.
Qed.

(** Every hour and minute of the clock, checked one by one. *)
Lemma side_ok_all :
  forallb (fun h => forallb (side_ok h) (seqZ 0 60)) (seqZ 0 24) = true.
Proof. vm_compute. reflexivity. Qed.

(** Hence for all of them. *)
Lemma side_hhmm (h m : Z) :
  0 <= h <= 23 -> 0 <= m <= 59 -> side_ok h m = true.
Proof.
  intros Hh Hm. pose proof side_ok_all as Hall.
  rewrite forallb_forall in Hall.
  specialize (Hall h). rewrite forallb_forall in Hall.
  apply Hall.
  - apply list_elem_of_In, elem_of_seqZ. lia.
  - apply list_elem_of_In, elem_of_seqZ. lia.
Qed.

(** A range [HH:MM-HH:MM] gives the minutes of the day of its two ends. *)
Lemma windowOf_wellformed (oh om ch cm : Z) :
  0 <= oh <= 23 -> 0 <= om <= 59 -> 0 <= ch <= 23 -> 0 <= cm <= 59 ->
  windowOf (hhmm oh om ++ String "-" (hhmm ch cm)) = (oh * 60 + om, ch * 60 + cm).
Proof.
  intros Hoh Hom Hch Hcm.
  pose proof (side_hhmm oh om Hoh Hom) as Ho.
  pose proof (side_hhmm ch cm Hch Hcm) as Hc.
  unfold side_ok in Ho, Hc.
  apply andb_true_iff in Ho as [Ho _]. apply andb_true_iff in Ho as [Ho Ho3].
  apply andb_true_iff in Ho as [Ho1 Ho2].
  apply andb_true_iff in Hc as [Hc Hc4]. apply andb_true_iff in Hc as [Hc _].
  apply andb_true_iff in Hc as [Hc1 Hc2].
  rewrite (windowOf_sides _ _ Ho1 Hc1 Ho2 Hc2).
  apply Z.eqb_eq in Ho3, Hc4. now rewrite Ho3, Hc4.
Qed.

(** The four boundary cases, for the window the policy is read as. *)
Lemma boundaries_of_window
    (formatToParts : string -> Z -> option (list part))
    (p : Policy) (t day minutes openMin closeMin : Z) :
  getPartsForDateInTimezone formatToParts t (timezone p) = Some (day, Some minutes) ->
  day ∈ parseBusinessDays (daysSpec p) ->
  windowOf (hoursRange p) = (openMin, closeMin) ->
  openMin <= closeMin ->
  (minutes = openMin -> isWithinBusinessHoursAt formatToParts (Some t) p = true)
  /\ (minutes = openMin - 1 -> isWithinBusinessHoursAt formatToParts (Some t) p = false)
  /\ (minutes = closeMin -> isWithinBusinessHoursAt formatToParts (Some t) p = true)
  /\ (minutes = closeMin + 1 -> isWithinBusinessHoursAt formatToParts (Some t) p = false).
Proof.
  intros Hparts Hday Hwin Hle.
  rewrite (isWithinBusinessHoursAt_open_day _ _ _ _ _ Hparts Hday), Hwin.
  repeat split; intros ->.
  - apply inWindow_spec. lia.
  - apply not_true_is_false. rewrite inWindow_spec. lia.
  - apply inWindow_spec. lia.
  - apply not_true_is_false. rewrite inWindow_spec. lia.
Qed.

(** The parts of the formatter, as the gate reads them: the short name of
    the weekday gives its number (Sunday is 0), the two-digit hour and
    minute give the minute of the day. *)
Lemma two_digits_ok_all : forallb HoursChecks.two_digits_ok (seqZ 0 60) = true.
Proof. vm_compute. reflexivity. Qed.

Lemma two_digits_read (n : Z) :
  0 <= n <= 59 -> JS.Number (JS.or_default (Some (two_digits n)) "0") = Some n.
Proof.
  intros Hn. pose proof two_digits_ok_all as Hall. rewrite forallb_forall in Hall.
  assert (Hok : HoursChecks.two_digits_ok n = true)
    by (apply Hall, list_elem_of_In, elem_of_seqZ; lia).
  unfold HoursChecks.two_digits_ok in Hok.
  destruct (JS.Number _) as [x|]; [|discriminate].
  apply Z.eqb_eq in Hok. now subst.
Qed.

Lemma weekdayIndex_name (d : Z) :
  0 <= d <= 6 -> weekdayIndex (JS.or_default (Some (weekdayName d)) "Sun") = d.
Proof.
  intros Hd.
  assert (Hc : d = 0 \/ d = 1 \/ d = 2 \/ d = 3 \/ d = 4 \/ d = 5 \/ d = 6) by lia.
  destruct Hc as [->|[->|[->|[->|[->|[->| ->]]]]]]; reflexivity.
Qed.

Lemma getPartsForDateInTimezone_parts
    (formatToParts : string -> Z -> option (list part))
    (tz : string) (t : Z) (parts : list part) (day h m : Z) :
  formatToParts tz t = Some parts ->
  findPart "weekday" parts = Some (weekdayName day) -> 0 <= day <= 6 ->
  findPart "hour" parts = Some (two_digits h) -> 0 <= h <= 23 ->
  findPart "minute" parts = Some (two_digits m) -> 0 <= m <= 59 ->
  getPartsForDateInTimezone formatToParts t tz = Some (day, Some (h * 60 + m)).
Proof.
  intros Hparts Hw Hday Hh Hhr Hm Hmr. unfold getPartsForDateInTimezone.
  rewrite Hparts, Hw, Hh, Hm.
  rewrite (weekdayIndex_name day Hday), (two_digits_read h), (two_digits_read m) by lia.
  reflexivity.
Qed.

(** In a zone at a fixed offset the gate compares the weekday and the
    minute of the day of the instant, in that zone, with the open days
    and the window. *)
Lemma gate_at_fixed_offset (off t : Z) (p : Policy) :
  let l := t + off * Ecma.msPerMinute in
  isWithinBusinessHoursAt (fixedFormatToParts off) (Some t) p
  = bool_decide (Ecma.WeekDay l ∈ parseBusinessDays (daysSpec p))
    && inWindow (Some (Ecma.HourFromTime l * 60 + Ecma.MinFromTime l))
                (windowOf (hoursRange p)).
Proof.
  cbv zeta. set (l := t + off * Ecma.msPerMinute).
  assert (Hw : 0 <= Ecma.WeekDay l <= 6)
    by (unfold Ecma.WeekDay; Z.div_mod_to_equations; lia).
  assert (Hh : 0 <= Ecma.HourFromTime l <= 23)
    by (unfold Ecma.HourFromTime; Z.div_mod_to_equations; lia).
  assert (Hm : 0 <= Ecma.MinFromTime l <= 59)
    by (unfold Ecma.MinFromTime; Z.div_mod_to_equations; lia).
  unfold isWithinBusinessHoursAt.
  rewrite (getPartsForDateInTimezone_parts (fixedFormatToParts off) (timezone p) t _
             (Ecma.WeekDay l) (Ecma.HourFromTime l) (Ecma.MinFromTime l) eq_refl
             eq_refl Hw eq_refl Hh eq_refl Hm).
  destruct (bool_decide _); reflexivity.
Qed.

(** C6: for a policy whose hours are a well-formed range [HH:MM-HH:MM] that
    does not close before it opens, take an instant for which the
    formatter of the business time zone gives the weekday [day] (by its
    short name) and the hour [h] and minute [m] (two digits each), [day]
    being an open day.  If the minute of the day [h * 60 + m] is the open
    minute the instant is open, one minute before it is closed, at the
    close minute it is open and one minute after it is closed. *)
Theorem business_hours_boundaries_inclusive
    (formatToParts : string -> Z -> option (list part))
    (p : Policy) (t : Z) (parts : list part) (day h m oh om ch cm : Z) :
  hoursRange p = hhmm oh om ++ "-" ++ hhmm ch cm ->
  0 <= oh <= 23 -> 0 <= om <= 59 -> 0 <= ch <= 23 -> 0 <= cm <= 59 ->
  oh * 60 + om <= ch * 60 + cm ->
  formatToParts (timezone p) t = Some parts ->
  findPart "weekday" parts = Some (weekdayName day) -> 0 <= day <= 6 ->
  findPart "hour" parts = Some (two_digits h) -> 0 <= h <= 23 ->
  findPart "minute" parts = Some (two_digits m) -> 0 <= m <= 59 ->
  day ∈ parseBusinessDays (daysSpec p) ->
  let minutes := h * 60 + m in
  let openMin := oh * 60 + om in
  let closeMin := ch * 60 + cm in
  (minutes = openMin -> isWithinBusinessHoursAt formatToParts (Some t) p = true)
  /\ (minutes = openMin - 1 -> isWithinBusinessHoursAt formatToParts (Some t) p = false)
  /\ (minutes = closeMin -> isWithinBusinessHoursAt formatToParts (Some t) p = true)
  /\ (minutes = closeMin + 1 -> isWithinBusinessHoursAt formatToParts (Some t) p = false).
Proof.
  intros Hrange Hoh Hom Hch Hcm Hle Hparts Hw Hday Hh Hhr Hm Hmr Hopen. cbv zeta.
  pose proof (getPartsForDateInTimezone_parts formatToParts (timezone p) t parts
                day h m Hparts Hw Hday Hh Hhr Hm Hmr) as Hread.
  apply (boundaries_of_window formatToParts p t day (h * 60 + m)); try assumption.
  rewrite Hrange. apply windowOf_wellformed; assumption.
Qed.

(** Monday 2025-01-06 in a zone at UTC-6, hours 09:00-17:00 on days 1-5:
    09:00 is open and 08:59 closed, 17:00 open and 17:01 closed. *)
Lemma business_hours_boundaries_inclusive_witness :
  let fmt := fixedFormatToParts (-360) in
  let p := mkPolicy chicago "09:00-17:00" "1-5" in
  isWithinBusinessHoursAt fmt (Some (utc 2025 1 6 15 0 0 0)) p = true
  /\ isWithinBusinessHoursAt fmt (Some (utc 2025 1 6 14 59 0 0)) p = false
  /\ isWithinBusinessHoursAt fmt (Some (utc 2025 1 6 23 0 0 0)) p = true
  /\ isWithinBusinessHoursAt fmt (Some (utc 2025 1 6 23 1 0 0)) p = false.
Proof.
  cbv zeta.
  assert (Hday : 1 ∈ parseBusinessDays "1-5")
    by (apply (bool_decide_unpack _); vm_compute; exact I).
  pose (boundary := fun t h m (Hh : 0 <= h <= 23) (Hm : 0 <= m <= 59)
      (Hparts : fixedFormatToParts (-360) chicago t
                = Some [("weekday", "Mon"); ("literal", ", "); ("hour", two_digits h);
                        ("literal", ":"); ("minute", two_digits m)]) =>
    business_hours_boundaries_inclusive (fixedFormatToParts (-360))
      (mkPolicy chicago "09:00-17:00" "1-5") t
      [("weekday", "Mon"); ("literal", ", "); ("hour", two_digits h);
       ("literal", ":"); ("minute", two_digits m)]
      1 h m 9 0 17 0
      eq_refl ltac:(lia) ltac:(lia) ltac:(lia) ltac:(lia) ltac:(lia)
      Hparts eq_refl ltac:(lia) eq_refl Hh eq_refl Hm Hday).
  split; [|split; [|split]].
  - destruct (boundary (utc 2025 1 6 15 0 0 0) 9 0 ltac:(lia) ltac:(lia) eq_refl)
      as (Hopen & _).
    apply Hopen. reflexivity.
  - destruct (boundary (utc 2025 1 6 14 59 0 0) 8 59 ltac:(lia) ltac:(lia) eq_refl)
      as (_ & Hbefore & _).
    apply Hbefore. reflexivity.
  - destruct (boundary (utc 2025 1 6 23 0 0 0) 17 0 ltac:(lia) ltac:(lia) eq_refl)
      as (_ & _ & Hclose & _).
    apply Hclose. reflexivity.
  - destruct (boundary (utc 2025 1 6 23 1 0 0) 17 1 ltac:(lia) ltac:(lia) eq_refl)
      as (_ & _ & _ & Hafter).
    apply Hafter. reflexivity.
Defined.

End BusinessHoursClaims.


(** ** The tool-call handler (services/hume-tool-handler.js) *)

Module ToolHandlerClaims.
Import ToolHandler Examples.

(** Every path of the handler, with a socket that has both methods. *)
Lemma effectsOf_cases (fetch : string -> body -> fetch_result)
    (m : ToolCallMessage) (baseUrl : string) :
  effectsOf fetch m (mkSocket true true) baseUrl =
    if negb (String.eqb (nameOf m) "book_appointment") then
      [Sent (tool_error (toolCallIdOf m) "Tool not found"
               "The requested tool is not supported by this server" None)]
    else if negb (Json.parses (paramsStrOf m)) then
      [Sent (tool_error (toolCallIdOf m) "Malformed parameters"
               "Parameters were not valid JSON" None)]
    else
      Posted (bookingUrl baseUrl) (StringifyParsed (paramsStrOf m)) ::
      match fetch (bookingUrl baseUrl) (StringifyParsed (paramsStrOf m)) with
      | FetchThrows e => [Sent (unhandled m e)]
      | FetchOk resp =>
          if negb (ok resp) then
            match text resp with
            | TextOk s =>
                [Sent (tool_error (toolCallIdOf m)
                         ("Bridge error " ++ JS.string_of_Z (status resp))
                         (errorContent s)
                         (Some "I could not book that time. Would you like to try another time?"))]
            | TextThrows e => [Sent (unhandled m e)]
            end
          else
            match json resp with
            | JsonOk (Some ev) _ => [Sent (tool_response (toolCallIdOf m) ev)]
            | JsonOk None d => [Sent (tool_response (toolCallIdOf m) d)]
            | JsonThrows e => [Sent (unhandled m e)]
            end
      end.
Proof.
  unfold effectsOf, handleToolCallMessage, try_catch.
  destruct (String.eqb (nameOf m) "book_appointment"); [|reflexivity].
  destruct (Json.parses (paramsStrOf m)); [|reflexivity].
  cbn [negb]. unfold bind at 1. unfold await_fetch, bind at 1. cbn [emit app].
  destruct (fetch (bookingUrl baseUrl) (StringifyParsed (paramsStrOf m)))
    as [e|resp]; [reflexivity|].
  cbn [ret]. destruct (ok resp); cbn [negb].
  - unfold bind. destruct (json resp) as [[ev|] d|e]; reflexivity.
  - unfold bind. destruct (text resp) as [s|e]; reflexivity.
Qed.

Lemma replyActions_map (tr : list effect) :
  Bridge.replyActions (map Bridge.actionOfEffect tr) = repliesOf tr.
Proof.
  induction tr as [|[r|url b] tr IH]; simpl; [reflexivity | now f_equal | exact IH].
Qed.

(** C3: with the socket of the bridge, one call of the handler writes
    exactly one reply, whatever the message and whatever the request does;
    the reply carries the id of the call, and it is a [tool_response]
    exactly when the call succeeds and a [tool_error] in every other case
    (unsupported tool, malformed parameters, failed or refused request,
    unreadable body).  The bridge passes every [tool_call] message to the
    handler once, so that one reply is all it writes for the message. *)
Theorem exactly_one_reply_per_tool_call
    (fetch : string -> body -> fetch_result) (m : ToolCallMessage) (baseUrl : string) :
  exists r : reply,
    repliesOf (effectsOf fetch m Bridge.socketWrapper baseUrl) = [r]
    /\ replyId r = toolCallIdOf m
    /\ isResponse r = succeeds fetch m baseUrl
    /\ forall (callSid : string) (s : Bridge.state),
         Bridge.replyActions
           (snd (Bridge.step fetch callSid baseUrl s
                   (Bridge.HumeMessage (Bridge.HmToolCall m)))) = [r].
Proof.
  assert (Hone : exists r : reply,
             repliesOf (effectsOf fetch m Bridge.socketWrapper baseUrl) = [r]
             /\ replyId r = toolCallIdOf m
             /\ isResponse r = succeeds fetch m baseUrl).
  { unfold Bridge.socketWrapper, succeeds. rewrite effectsOf_cases.
    destruct (String.eqb (nameOf m) "book_appointment"); cbn [negb andb];
      [|eexists; repeat split].
    destruct (Json.parses (paramsStrOf m)); cbn [negb andb];
      [|eexists; repeat split].
    destruct (fetch (bookingUrl baseUrl) (StringifyParsed (paramsStrOf m)))
      as [e|resp]; [eexists; repeat split|].
    destruct (ok resp); cbn [negb andb].
    - destruct (json resp) as [[ev|] d|e]; eexists; repeat split.
    - destruct (text resp) as [s|e]; eexists; repeat split. }
  destruct Hone as (r & Hr & Hid & Hkind). exists r.
  split; [exact Hr|]. split; [exact Hid|]. split; [exact Hkind|].
  intros callSid s. cbn [Bridge.step snd]. rewrite replyActions_map. exact Hr.
Qed.

(** C7, as amended: a call of [book_appointment] whose parameter text (the
    field [parameters], else [args], else ["{}"] when both are absent or
    empty) is not valid JSON gets the "Malformed parameters" error and
    nothing else happens: no request is posted. *)
Theorem malformed_parameters_are_refused_without_request
    (fetch : string -> body -> fetch_result) (m : ToolCallMessage) (baseUrl : string) :
  nameOf m = "book_appointment" ->
  Json.parses (paramsStrOf m) = false ->
  effectsOf fetch m Bridge.socketWrapper baseUrl =
    [Sent (tool_error (toolCallIdOf m) "Malformed parameters"
             "Parameters were not valid JSON" None)].
Proof.
  intros Hname Hparse. unfold Bridge.socketWrapper.
  rewrite effectsOf_cases, Hname, Hparse. reflexivity.
Qed.

Lemma malformed_parameters_are_refused_without_request_witness :
  effectsOf refusing (call "book_appointment" "{date: tomorrow")
            Bridge.socketWrapper "http://localhost:3001" =
    [Sent (tool_error (Some "call-1") "Malformed parameters"
             "Parameters were not valid JSON" None)].
Proof.
  apply (malformed_parameters_are_refused_without_request refusing
           (call "book_appointment" "{date: tomorrow") "http://localhost:3001");
    reflexivity.
Defined.

(** C7, as stated, fails twice.  The parameters of an unsupported tool are
    never parsed: the reply is "Tool not found".  And an empty [parameters]
    text, which is not valid JSON, is replaced by ["{}"]: the request is
    posted. *)
Lemma invalid_parameters_not_always_malformed :
  (Json.parses "{date: tomorrow" = false
   /\ effectsOf refusing (call "cancel_appointment" "{date: tomorrow")
                Bridge.socketWrapper "http://localhost:3001" =
        [Sent (tool_error (Some "call-1") "Tool not found"
                 "The requested tool is not supported by this server" None)])
  /\ (Json.parses EmptyString = false
      /\ effectsOf refusing (call "book_appointment" EmptyString)
                   Bridge.socketWrapper "http://localhost:3001" =
           [Posted "http://localhost:3001/tools/hume/book-appointment"
                   (StringifyParsed "{}");
            Sent (tool_error (Some "call-1") "Bridge error 400" refusal
                    (Some "I could not book that time. Would you like to try another time?"))]).
Proof. repeat split. Qed.

End ToolHandlerClaims.


(** ** The telephony-agent bridge (services/twilio-hume-bridge.js) *)

Module BridgeClaims.
Import ToolHandler Bridge.

Section WithEnv.
Variable fetch : string -> body -> fetch_result.
Variable callSid : string.
Variable toolBridgeBase : string.

Local Abbreviation step := (Bridge.step fetch callSid toolBridgeBase).
Local Abbreviation run := (Bridge.run fetch callSid toolBridgeBase).

Lemma audioInputs_app (a b : list action) :
  audioInputs (a ++ b) = (audioInputs a ++ audioInputs b)%list.
Proof.
  induction a as [|x a IH]; simpl; [reflexivity|].
  destruct x; simpl; rewrite ?IH; reflexivity.
Qed.

Lemma audioInputs_effects (tr : list effect) :
  audioInputs (map actionOfEffect tr) = [].
Proof. induction tr as [|[r|url b] tr IH]; simpl; exact IH || reflexivity. Qed.

(** [humeReady] is only ever set, by the [open] listener. *)
Lemma step_humeReady (s : state) (e : event) :
  humeReady (fst (step s e)) = humeReady s || isHumeOpen e.
Proof.
  destruct e as [|m| | |m| |]; simpl;
    rewrite ?orb_false_r, ?orb_true_r; try reflexivity.
  - destruct m; reflexivity.
  - destruct m as [|media| | |]; try reflexivity.
    destruct (humeReady s) eqn:Hr; [destruct media|]; simpl; now rewrite ?Hr.
  - destruct (humeState s); reflexivity.
Qed.

(** What one listener invocation forwards to Hume as audio. *)
Lemma step_audio (s : state) (e : event) :
  audioInputs (snd (step s e)) =
    if humeReady s then mediaPayloads [e] else [].
Proof.
  destruct e as [|m| | |m| |]; simpl.
  - now destruct (humeReady s).
  - destruct m; simpl; rewrite ?audioInputs_effects; now destruct (humeReady s).
  - now destruct (humeReady s).
  - now destruct (humeReady s).
  - destruct m as [|media| | |]; simpl; try now destruct (humeReady s).
    destruct (humeReady s); [destruct media|]; reflexivity.
  - destruct (humeState s); now destruct (humeReady s).
  - now destruct (humeReady s).
Qed.

Lemma run_cons (s : state) (e : event) (evs : list event) :
  run s (e :: evs) =
    (fst (run (fst (step s e)) evs),
     (snd (step s e) ++ snd (run (fst (step s e)) evs))%list).
Proof.
  simpl. destruct (step s e) as [s1 o1]. simpl.
  destruct (Bridge.run fetch callSid toolBridgeBase s1 evs) as [s2 o2]. reflexivity.
Qed.

(** Once the socket is ready, every well-formed media frame is forwarded,
    in order. *)
Lemma run_ready (evs : list event) (s : state) :
  humeReady s = true ->
  audioInputs (snd (run s evs)) = mediaPayloads evs.
Proof.
  revert s. induction evs as [|e evs IH]; intros s Hr; [reflexivity|].
  rewrite run_cons. cbn [snd]. rewrite audioInputs_app, step_audio, Hr.
  rewrite IH by (rewrite step_humeReady, Hr; reflexivity).
  destruct e as [|m| | |m| |]; try reflexivity.
  destruct m as [|[p|]| | |]; reflexivity.
Qed.

(** Before that, nothing is forwarded, and what is forwarded later does not
    depend on the frames received so far. *)
Lemma run_not_ready (evs : list event) (s : state) :
  humeReady s = false ->
  audioInputs (snd (run s evs)) = mediaPayloads (afterOpen evs).
Proof.
  revert s. induction evs as [|e evs IH]; intros s Hr; [reflexivity|].
  rewrite run_cons. cbn [snd]. rewrite audioInputs_app, step_audio, Hr.
  cbn [app].
  destruct (isHumeOpen e) eqn:Ho.
  - destruct e; try discriminate. cbn [afterOpen].
    apply run_ready. reflexivity.
  - rewrite IH by (rewrite step_humeReady, Hr, Ho; reflexivity).
    destruct e; try discriminate; reflexivity.
Qed.

(** C10: while the Hume socket has not opened, a media frame from Twilio
    changes nothing (nothing is sent and the state of the bridge, which has
    no buffer, stays as it was), and over any sequence of events the audio
    forwarded to Hume is exactly the payloads of the media frames that
    arrive after the socket opened, in their order: a frame received before
    is never forwarded or replayed. *)
Theorem media_before_open_is_dropped :
  (forall (st : readyState) (media : option (option string)),
      step (mkState false st) (TwilioMessage (TwMedia media)) = (mkState false st, []))
  /\ (forall evs : list event,
         audioInputs (snd (run initial evs)) = mediaPayloads (afterOpen evs)).
Proof.
  split.
  - intros st media. reflexivity.
  - intros evs. apply run_not_ready. reflexivity.
Qed.

End WithEnv.

End BridgeClaims.


(** ** The booking routes (server.js) *)

Module ServerClaims.
Import Luxon Server Examples.

Section Routes.
Variable zoneOf : string -> Zone.
Variable events_insert : string -> EventBody -> insert_result.
Variable businessTz : string.
Variable businessName : string.

Local Abbreviation book_appointment :=
  (Server.book_appointment zoneOf events_insert businessTz businessName).
Local Abbreviation parseDate := (Server.parseDate zoneOf).
Local Abbreviation parseTime := (Server.parseTime zoneOf).
Local Abbreviation Reads := (Server.Reads zoneOf businessTz).

(** The one call of the calendar client the route makes for such a request,
    and its response. *)
Lemma book_appointment_reads (clock : Z) (body : BookRequest) (y m d sh sm eh em : Z) :
  Reads clock body y m d sh sm eh em ->
  let tz := JS.or_default (timezone body) businessTz in
  let startDt := @fromObject (zoneOf tz) (mkFields y m d sh sm) in
  let endDt0 := @fromObject (zoneOf tz) (mkFields y m d eh em) in
  let endDt := if dt_le endDt0 startDt then @plusDays (zoneOf tz) 1 endDt0 else endDt0 in
  exists req : EventBody,
    ev_start req = startDt /\ ev_end req = endDt /\ ev_timeZone req = tz
    /\ book_appointment clock body =
         (match events_insert (field (calendarId body) "primary") req with
          | Inserted id => Ok200 id startDt endDt
          | InsertThrows msg => Status500 msg
          end,
          [EventsInsert (field (calendarId body) "primary") req]).
Proof.
  intros [Hd Hs He Hpd Hps Hpe]. cbv zeta.
  exists (mkEventBody
            (JS.or_default (summary body) ("Call with " ++ businessName))
            (JS.or_default (description body) "Booked via Hume tool book_appointment")
            (@fromObject (zoneOf (JS.or_default (timezone body) businessTz))
                         (mkFields y m d sh sm))
            (if dt_le (@fromObject (zoneOf (JS.or_default (timezone body) businessTz))
                                   (mkFields y m d eh em))
                      (@fromObject (zoneOf (JS.or_default (timezone body) businessTz))
                                   (mkFields y m d sh sm))
             then @plusDays (zoneOf (JS.or_default (timezone body) businessTz)) 1
                    (@fromObject (zoneOf (JS.or_default (timezone body) businessTz))
                                 (mkFields y m d eh em))
             else @fromObject (zoneOf (JS.or_default (timezone body) businessTz))
                              (mkFields y m d eh em))
            (JS.or_default (timezone body) businessTz)
            (match attendees body with
             | Some (a :: l) => Some (a :: l)
             | _ => None
             end)).
  split; [reflexivity|]. split; [reflexivity|]. split; [reflexivity|].
  unfold Server.book_appointment.
  rewrite Hd, Hs, He. cbn [negb orb]. rewrite Hpd, Hps, Hpe. unfold toISO.
  match goal with
  | |- match ?X with _ => _ end = (match ?Y with _ => _ end, _) =>
      change Y with X; destruct X; reflexivity
  end.
Qed.

(** C8, as amended: when the end instant built from the date and the end
    time is at or before the start instant built from the date and the start
    time, the end passed to the calendar is that instant plus one calendar
    day; when it is after the start, it is passed unchanged. *)
Theorem end_not_after_start_rolls_one_day
    (clock : Z) (body : BookRequest) (y m d sh sm eh em s e : Z) :
  Reads clock body y m d sh sm eh em ->
  let zone := zoneOf (JS.or_default (timezone body) businessTz) in
  @fromObject zone (mkFields y m d sh sm) = Some s ->
  @fromObject zone (mkFields y m d eh em) = Some e ->
  exists req : EventBody,
    snd (book_appointment clock body)
    = [EventsInsert (field (calendarId body) "primary") req]
    /\ ev_start req = Some s
    /\ (e <= s -> ev_end req = Some (@plusDaysTs zone 1 e))
    /\ (s < e -> ev_end req = Some e).
Proof.
  intros Hreads zone Hs He.
  destruct (book_appointment_reads clock body y m d sh sm eh em Hreads)
    as (req & Hstart & Hend & _ & Hbook).
  fold zone in Hstart, Hend. rewrite Hs in Hstart, Hend. rewrite He in Hend.
  exists req. rewrite Hbook. split; [reflexivity|]. split; [exact Hstart|].
  unfold dt_le, JS.le in Hend. split; intros Hcmp; rewrite Hend.
  - apply Z.leb_le in Hcmp. rewrite Hcmp. reflexivity.
  - apply Z.leb_gt in Hcmp. rewrite Hcmp. reflexivity.
Qed.

(** C2: the route books a request whose start is outside business hours:
    when the calendar accepts the event, the answer is 200 with the event,
    and the calendar client has been called, whatever the business hours
    gate says about the start instant. *)
Theorem tool_route_books_outside_business_hours
    (formatToParts : string -> Z -> option (list BusinessHours.part))
    (policy : BusinessHours.Policy)
    (clock : Z) (body : BookRequest) (y m d sh sm eh em s : Z) :
  Reads clock body y m d sh sm eh em ->
  @fromObject (zoneOf (JS.or_default (timezone body) businessTz))
              (mkFields y m d sh sm) = Some s ->
  BusinessHours.isWithinBusinessHoursAt formatToParts (Some s) policy = false ->
  (forall req, exists id, events_insert (field (calendarId body) "primary") req = Inserted id) ->
  exists (id : string) (end_ : option Z) (req : EventBody),
    book_appointment clock body
    = (Ok200 id (Some s) end_, [EventsInsert (field (calendarId body) "primary") req])
    /\ ev_start req = Some s.
Proof.
  intros Hreads Hs _ Hcal.
  destruct (book_appointment_reads clock body y m d sh sm eh em Hreads)
    as (req & Hstart & Hend & _ & Hbook).
  rewrite Hs in Hstart, Hbook.
  destruct (Hcal req) as (id & Hid). rewrite Hid in Hbook.
  exists id. eexists. exists req. split; [exact Hbook | exact Hstart].
Qed.

Section ScheduleTime.
Variable LocalTZA : Z -> bool -> Z.
Variable formatToParts : string -> Z -> option (list BusinessHours.part).
Variable businessHoursRange : string.
Variable businessDaysSpec : string.

Local Abbreviation schedule_time :=
  (Server.schedule_time events_insert businessTz businessName LocalTZA formatToParts
                        businessHoursRange businessDaysSpec).
Local Abbreviation gate :=
  (fun d => BusinessHours.isWithinBusinessHoursAt formatToParts d
              (BusinessHours.mkPolicy businessTz businessHoursRange businessDaysSpec)).

(** The sibling route /voice/schedule-time does run the gate: a start the
    gate refuses is answered with the open window and the calendar client
    is not called. *)
Lemma schedule_time_refuses_outside_hours
    (clock : Z) (callSid speech : string) (datetimeISO : Datetime.IsoInput)
    (sessions : gmap string Session) :
  Datetime.ensureFutureIso LocalTZA clock datetimeISO <> Datetime.RangeError ->
  gate (dateOfIso (Datetime.ensureFutureIso LocalTZA clock datetimeISO)) = false ->
  schedule_time clock callSid speech datetimeISO sessions
  = (OutsideBusinessHours
       ("That time is outside business hours. Please choose a time "
        ++ BusinessHours.businessDaysHuman businessDaysSpec
        ++ " between " ++ businessHoursRange ++ "."),
     [], sessions).
Proof.
  intros Hok Hgate. unfold Server.schedule_time.
  destruct (Datetime.ensureFutureIso LocalTZA clock datetimeISO) as [i|t|];
    [| |contradiction]; rewrite Hgate; reflexivity.
Qed.

(** On that route the calendar client is only called for a start inside
    business hours. *)
Lemma schedule_time_calls_inside_hours
    (clock : Z) (callSid speech : string) (datetimeISO : Datetime.IsoInput)
    (sessions : gmap string Session) :
  snd (fst (schedule_time clock callSid speech datetimeISO sessions)) <> [] ->
  gate (dateOfIso (Datetime.ensureFutureIso LocalTZA clock datetimeISO)) = true.
Proof.
  unfold Server.schedule_time.
  destruct (Datetime.ensureFutureIso LocalTZA clock datetimeISO) as [i|t|];
    cbn [dateOfIso]; try (intros Hc; now contradiction Hc).
  - destruct (BusinessHours.isWithinBusinessHoursAt _ _ _); [reflexivity|].
    intros Hc; now contradiction Hc.
  - destruct (BusinessHours.isWithinBusinessHoursAt _ _ _); [reflexivity|].
    intros Hc; now contradiction Hc.
Qed.

End ScheduleTime.

End Routes.

(** Start 07:30 on Sunday 2025-01-05, hours 09:00-17:00 on days 1-5: the
    gate says closed, the route inserts the event and answers 200. *)
Lemma tool_route_books_outside_business_hours_witness :
  BusinessHours.isWithinBusinessHoursAt (BusinessHours.fixedFormatToParts (-360))
    (Some (utc 2025 1 5 13 30 0 0)) defaultPolicy = false
  /\ exists (id : string) (end_ : option Z) (req : EventBody),
       Server.book_appointment (fun _ => CST) accepting chicago "ArenaMinds AI"
                               monday (request "07:30" "09:30")
       = (Ok200 id (Some (utc 2025 1 5 13 30 0 0)) end_, [EventsInsert "primary" req])
       /\ ev_start req = Some (utc 2025 1 5 13 30 0 0).
Proof.
  split; [reflexivity|].
  apply (tool_route_books_outside_business_hours (fun _ => CST) accepting chicago
           "ArenaMinds AI" (BusinessHours.fixedFormatToParts (-360)) defaultPolicy
           monday (request "07:30" "09:30") 2025 1 5 7 30 9 30
           (utc 2025 1 5 13 30 0 0)).
  - split; reflexivity.
  - reflexivity.
  - reflexivity.
  - intros req. exists "evt-1". reflexivity.
Defined.

(** The route applies no future check either: with the clock at Monday
    2025-01-06 10:00 it books a start on the day before. *)
Lemma tool_route_books_past_start :
  utc 2025 1 5 13 30 0 0 < monday
  /\ Server.book_appointment (fun _ => CST) accepting chicago "ArenaMinds AI"
                             monday (request "07:30" "09:30")
     = (Ok200 "evt-1" (Some (utc 2025 1 5 13 30 0 0)) (Some (utc 2025 1 5 15 30 0 0)),
        [EventsInsert "primary"
           (mkEventBody "Call with ArenaMinds AI" "Booked via Hume tool book_appointment"
                        (Some (utc 2025 1 5 13 30 0 0)) (Some (utc 2025 1 5 15 30 0 0))
                        chicago None)]).
Proof. split; reflexivity. Qed.

(** An end time after the start is kept; an end time before it is moved to
    the next day. *)
Lemma end_not_after_start_rolls_one_day_witness :
  exists req : EventBody,
    snd (Server.book_appointment (fun _ => CST) accepting chicago "ArenaMinds AI"
                                 monday (request "23:30" "00:15"))
    = [EventsInsert "primary" req]
    /\ ev_start req = Some (utc 2025 1 6 5 30 0 0)
    /\ ev_end req = Some (utc 2025 1 6 6 15 0 0).
Proof.
  destruct (end_not_after_start_rolls_one_day (fun _ => CST) accepting chicago
              "ArenaMinds AI" monday (request "23:30" "00:15") 2025 1 5 23 30 0 15
              (utc 2025 1 6 5 30 0 0) (utc 2025 1 5 6 15 0 0))
    as (req & Hcalls & Hstart & Hroll & _).
  - split; reflexivity.
  - reflexivity.
  - reflexivity.
  - exists req. split; [exact Hcalls|]. split; [exact Hstart|].
    rewrite Hroll by (vm_compute; discriminate). reflexivity.
Defined.

(** C8, as stated, fails: an end time equal to the start time does not
    precede it, yet the end is moved to the next day. *)
Lemma equal_end_is_rolled_forward :
  @fromObject CST (mkFields 2025 1 5 9 0) = Some (utc 2025 1 5 15 0 0 0)
  /\ ~ (utc 2025 1 5 15 0 0 0 < utc 2025 1 5 15 0 0 0)
  /\ snd (Server.book_appointment (fun _ => CST) accepting chicago "ArenaMinds AI"
                                  monday (request "09:00" "09:00"))
     = [EventsInsert "primary"
          (mkEventBody "Call with ArenaMinds AI" "Booked via Hume tool book_appointment"
                       (Some (utc 2025 1 5 15 0 0 0)) (Some (utc 2025 1 6 15 0 0 0))
                       chicago None)].
Proof.
  split; [reflexivity|]. split; [apply Z.lt_irrefl | reflexivity].
Qed.

End ServerClaims.

(* ===================================================================== *)
(** ** More facts about the strings *)
(* ===================================================================== *)

Module MoreStringFacts.
Import StringFacts.

Lemma trimStart_head (c : ascii) (s : string) :
  JS.is_space c = false -> JS.trimStart (String c s) = String c s.
Proof. intros Hc. simpl. now rewrite Hc. Qed.

(** A text that neither starts nor ends with white space is its own trim. *)
Lemma trim_fixed (s : string) :
  JS.trimStart s = s ->
  JS.trimStart (JS.rev_string EmptyString s) = JS.rev_string EmptyString s ->
  JS.trim s = s.
Proof.
  intros Hs Hr. unfold JS.trim. rewrite Hs, Hr. apply rev_string_involutive.
Qed.

Lemma rev_string_app (a b : string) :
  JS.rev_string EmptyString (a ++ b)
  = JS.rev_string EmptyString b ++ JS.rev_string EmptyString a.
Proof. rewrite rev_string_append. apply rev_string_acc. Qed.

Lemma all_digits_app (a b : string) :
  JS.all_digits (a ++ b) = JS.all_digits a && JS.all_digits b.
Proof.
  induction a as [|c a IH]; [reflexivity|].
  rewrite append_cons. simpl. rewrite IH. now rewrite andb_assoc.
Qed.

Lemma all_digits_rev (s acc : string) :
  JS.all_digits (JS.rev_string acc s) = JS.all_digits s && JS.all_digits acc.
Proof.
  revert acc. induction s as [|c s IH]; intros acc; simpl; [reflexivity|].
  rewrite IH. simpl. destruct (JS.is_digit c), (JS.all_digits s); reflexivity.
Qed.

Lemma is_digit_not_space (c : ascii) : JS.is_digit c = true -> JS.is_space c = false.
Proof.
  unfold JS.is_digit, JS.is_space. cbv zeta.
  intros H. apply andb_true_iff in H as [H1 H2].
  apply Nat.leb_le in H1, H2.
  apply orb_false_iff. split.
  - apply Nat.eqb_neq. lia.
  - apply andb_false_iff. right. apply Nat.leb_gt. lia.
Qed.

Lemma all_digits_trimStart (s : string) :
  JS.all_digits s = true -> JS.trimStart s = s.
Proof.
  destruct s as [|c s]; [reflexivity|]. simpl. intros H.
  apply andb_true_iff in H as [H _]. now rewrite (is_digit_not_space c H).
Qed.

Lemma all_digits_trim (s : string) : JS.all_digits s = true -> JS.trim s = s.
Proof.
  intros H. apply trim_fixed; apply all_digits_trimStart; [exact H|].
  rewrite all_digits_rev, H. reflexivity.
Qed.

Lemma is_digit_not (c x : ascii) :
  JS.is_digit x = false -> JS.is_digit c = true -> Ascii.eqb c x = false.
Proof.
  intros Hx Hc. destruct (Ascii.eqb_spec c x) as [->|]; [congruence | reflexivity].
Qed.

Lemma all_digits_no_char (x : ascii) (s : string) :
  JS.is_digit x = false -> JS.all_digits s = true -> JS.no_char x s = true.
Proof.
  intros Hx. induction s as [|c s IH]; [reflexivity|]. simpl. intros H.
  apply andb_true_iff in H as [Hc Hs]. rewrite (is_digit_not c x Hx Hc), IH by exact Hs.
  reflexivity.
Qed.

(** [Number] on a text of decimal digits (the empty text is 0). *)
Lemma Number_digits (s : string) :
  JS.all_digits s = true -> JS.Number s = Some (JS.digits_val 0 s).
Proof.
  intros H. unfold JS.Number. rewrite (all_digits_trim s H).
  destruct s as [|c s]; [reflexivity|].
  pose proof H as H'. simpl in H'. apply andb_true_iff in H' as [Hc Hs].
  assert (Hm : Ascii.eqb c "-" = false) by (apply (is_digit_not c "-"); [reflexivity|exact Hc]).
  assert (Hp : Ascii.eqb c "+" = false) by (apply (is_digit_not c "+"); [reflexivity|exact Hc]).
  destruct c as [[] [] [] [] [] [] [] []]; try discriminate; rewrite ?H; reflexivity.
Qed.

Lemma split_none (sep : ascii) (s : string) :
  JS.no_char sep s = true -> JS.split sep s = [s].
Proof.
  intros H. unfold JS.split. rewrite <- (append_empty s) at 1.
  rewrite split_go_prefix by exact H. simpl. now rewrite rev_string_involutive.
Qed.

Lemma no_char_app (c : ascii) (a b : string) :
  JS.no_char c (a ++ b) = JS.no_char c a && JS.no_char c b.
Proof.
  induction a as [|x a IH]; [reflexivity|].
  rewrite append_cons. simpl. rewrite IH. now rewrite andb_assoc.
Qed.

Lemma includes_eq (s k : string) :
  JS.includes s k =
    if String.prefix k s then true
    else match s with EmptyString => false | String _ r => JS.includes r k end.
Proof. destruct s; reflexivity. Qed.

Lemma prefix_app (k b : string) : String.prefix k (k ++ b) = true.
Proof.
  induction k as [|c k IH]; [now destruct b|].
  rewrite append_cons. simpl. destruct (Ascii.ascii_dec c c); [exact IH | contradiction].
Qed.

Lemma includes_app (a k b : string) : JS.includes (a ++ k ++ b) k = true.
Proof.
  induction a as [|x a IH].
  - change (EmptyString ++ k ++ b) with (k ++ b).
    now rewrite includes_eq, prefix_app.
  - rewrite append_cons, includes_eq.
    destruct (String.prefix k (String x (a ++ k ++ b))); [reflexivity | exact IH].
Qed.
End MoreStringFacts.

(* ===================================================================== *)
(** ** server.js: more about the business days and hours *)
(* ===================================================================== *)

Module BusinessHoursFacts.
Import BusinessHours StringFacts MoreStringFacts BusinessHoursClaims HoursChecks.

Lemma trimStart_digits_app (u v : string) :
  JS.all_digits u = true -> JS.trimStart v = v -> JS.trimStart (u ++ v) = u ++ v.
Proof.
  destruct u as [|c u]; [intros _ Hv; exact Hv|].
  simpl JS.all_digits. intros H _. apply andb_true_iff in H as [Hc _].
  rewrite append_cons. apply trimStart_head, is_digit_not_space, Hc.
Qed.

Lemma truthy_app_cons (a : string) (c : ascii) (b : string) :
  JS.truthy_str (a ++ String c b) = true.
Proof. destruct a; reflexivity. Qed.

(** A range of two digit texts is a part that [trim] leaves alone. *)
Lemma trim_range (a b : string) :
  JS.all_digits a = true -> JS.all_digits b = true ->
  JS.trim (a ++ String "-" b) = a ++ String "-" b.
Proof.
  intros Ha Hb. apply trim_fixed.
  - apply trimStart_digits_app; [exact Ha | reflexivity].
  - rewrite rev_string_app.
    change (String "-" b) with (String "-" EmptyString ++ b).
    rewrite rev_string_app, append_assoc.
    apply trimStart_digits_app; [now rewrite all_digits_rev, Hb | reflexivity].
Qed.

Lemma daysOfPart_range (a b : string) (x y : Z) :
  JS.all_digits a = true -> JS.all_digits b = true ->
  JS.Number a = Some x -> JS.Number b = Some y ->
  daysOfPart (a ++ String "-" b)
  = list_to_set (seqZ (Z.min x y) (Z.max x y - Z.min x y + 1)).
Proof.
  intros Ha Hb Hx Hy. unfold daysOfPart. rewrite (trim_range a b Ha Hb).
  rewrite truthy_app_cons. cbn [negb].
  change (String "-" b) with ("-" ++ b). rewrite includes_app.
  change ("-" ++ b) with (String "-" b).
  rewrite split_two by (apply all_digits_no_char; [reflexivity | assumption]).
  cbn [map]. rewrite Hx, Hy. reflexivity.
Qed.

(** X1: A days specification that is one range of two digit texts, with
    numbers up to 99999, opens exactly the day numbers between the
    smaller and the larger of the two numbers, whichever of them is
    written first ('5-1' opens the same days as '1-5'). *)
Theorem range_is_read_in_either_order (a b : string) (x y d : Z) :
  JS.all_digits a = true -> JS.all_digits b = true ->
  JS.Number a = Some x -> JS.Number b = Some y ->
  x <= 99999 -> y <= 99999 ->
  d ∈ parseBusinessDays (a ++ "-" ++ b) <-> Z.min x y <= d <= Z.max x y.
Proof.
  intros Ha Hb Hx Hy _ _. change (a ++ "-" ++ b) with (a ++ String "-" b).
  unfold parseBusinessDays. rewrite truthy_app_cons. cbn [negb].
  rewrite split_none.
  2:{ rewrite no_char_app. change (String "-" b) with ("-" ++ b).
      rewrite no_char_app.
      rewrite (all_digits_no_char "," a), (all_digits_no_char "," b)
        by (reflexivity || assumption). reflexivity. }
  cbn [foldl]. rewrite (daysOfPart_range a b x y Ha Hb Hx Hy).
  set (days := ∅ ∪ list_to_set (seqZ (Z.min x y) (Z.max x y - Z.min x y + 1)) : gset Z).
  assert (Hin : forall e, e ∈ days <-> Z.min x y <= e <= Z.max x y).
  { intros e. unfold days. rewrite elem_of_union, elem_of_list_to_set, elem_of_seqZ.
    split; [intros [H|H]; [now apply elem_of_empty in H | lia] | intros H; right; lia]. }
  destruct (bool_decide (days = ∅)) eqn:He.
  - apply bool_decide_eq_true in He.
    assert (Hmin : Z.min x y ∈ days) by (apply Hin; lia).
    rewrite He in Hmin. now apply elem_of_empty in Hmin.
  - apply Hin.
Qed.

Lemma range_is_read_in_either_order_witness : 3 ∈ parseBusinessDays "5-1".
Proof.
  apply (range_is_read_in_either_order "5" "1" 5 1 3 eq_refl eq_refl eq_refl eq_refl);
    lia.
Defined.

(** A specification without comma is one part; what is not readable
    leaves all days open. *)
(** A plain specification has no comma. *)
Lemma plain_no_comma (s : string) : plain s = true -> JS.no_char "," s = true.
Proof.
  unfold plain. intros H. apply andb_true_iff in H as [H _].
  induction s as [|c s IH]; [reflexivity|].
  cbn [plain_chars] in H. apply andb_true_iff in H as [Hc Hs].
  cbn [JS.no_char]. rewrite (IH Hs), andb_true_r.
  apply orb_true_iff in Hc as [Hc|Hc]; [apply orb_true_iff in Hc as [Hc|Hc]|].
  - now rewrite (is_digit_not c "," eq_refl Hc).
  - apply Ascii.eqb_eq in Hc as ->. reflexivity.
  - apply Ascii.eqb_eq in Hc as ->. reflexivity.
Qed.

Lemma parseBusinessDays_single (a : string) :
  JS.no_char "," a = true ->
  parseBusinessDays a = if bool_decide (daysOfPart a = ∅) then allDays else daysOfPart a.
Proof.
  intros Ha. unfold parseBusinessDays. destruct a as [|c a].
  - reflexivity.
  - cbn [JS.truthy_str negb]. rewrite split_none by exact Ha. cbn [foldl].
    now rewrite (left_id_L ∅ (∪)).
Qed.

(** X2: For two specifications a and b written plainly (decimal digits,
    dashes and blanks only, at most six characters each: no comma, and
    only small decimal numbers), the days opened by 'a,b' are among the
    days opened by a together with those opened by b, and are exactly
    their union when neither a nor b on its own opens all seven days. *)
Theorem comma_parts_are_united (a b : string) :
  plain a = true -> plain b = true ->
  parseBusinessDays (a ++ "," ++ b) ⊆ parseBusinessDays a ∪ parseBusinessDays b
  /\ (parseBusinessDays a <> allDays -> parseBusinessDays b <> allDays ->
      parseBusinessDays (a ++ "," ++ b) = parseBusinessDays a ∪ parseBusinessDays b).
Proof.
  intros Ha Hb. apply plain_no_comma in Ha, Hb.
  assert (Hab : parseBusinessDays (a ++ "," ++ b) =
                if bool_decide (daysOfPart a ∪ daysOfPart b = ∅) then allDays
                else daysOfPart a ∪ daysOfPart b).
  { change (a ++ "," ++ b) with (a ++ String "," b).
    unfold parseBusinessDays. rewrite truthy_app_cons. cbn [negb].
    rewrite split_two by assumption. cbn [foldl].
    now rewrite (left_id_L ∅ (∪)). }
  rewrite Hab, (parseBusinessDays_single a Ha), (parseBusinessDays_single b Hb).
  clear Hab.
  destruct (decide (daysOfPart a = ∅)) as [Ea|Ea];
    destruct (decide (daysOfPart b = ∅)) as [Eb|Eb].
  - rewrite Ea, Eb, (left_id_L ∅ (∪)), !bool_decide_eq_true_2 by reflexivity.
    split; [apply union_subseteq_l | intros Hc; now contradiction Hc].
  - rewrite Ea, (left_id_L ∅ (∪)), (bool_decide_eq_true_2 (∅ = ∅)) by reflexivity.
    rewrite (bool_decide_eq_false_2 _ Eb).
    split; [apply union_subseteq_r | intros Hc; now contradiction Hc].
  - rewrite Eb, (right_id_L ∅ (∪)), (bool_decide_eq_true_2 (∅ = ∅)) by reflexivity.
    rewrite (bool_decide_eq_false_2 _ Ea).
    split; [apply union_subseteq_l | intros _ Hc; now contradiction Hc].
  - rewrite (bool_decide_eq_false_2 _ Ea), (bool_decide_eq_false_2 _ Eb).
    rewrite bool_decide_eq_false_2.
    + split; [reflexivity | intros _ _; reflexivity].
    + intros Hu. apply empty_union_L in Hu as [Hu _]. contradiction.
Qed.

Lemma comma_parts_are_united_witness :
  parseBusinessDays "1-3,5" ⊆ parseBusinessDays "1-3" ∪ parseBusinessDays "5"
  /\ parseBusinessDays "1-3,5" = parseBusinessDays "1-3" ∪ parseBusinessDays "5".
Proof.
  destruct (comma_parts_are_united "1-3" "5" eq_refl eq_refl) as [Hsub Heq].
  split; [exact Hsub|]. apply Heq; vm_compute; discriminate.
Defined.

(** X3: When the Intl formatter works for the business zone,
    isBusinessOpen answers for the current instant what
    isWithinBusinessHoursAt answers for it; when the formatter throws
    (an unknown zone name), isBusinessOpen answers open while
    isWithinBusinessHoursAt answers closed. *)
Theorem formatter_failure_opens_now_but_refuses_bookings
    (formatToParts : string -> Z -> option (list part)) (clock : Z) (p : Policy) :
  match formatToParts (timezone p) clock with
  | Some _ =>
      isBusinessOpen formatToParts clock p
      = isWithinBusinessHoursAt formatToParts (Some clock) p
  | None =>
      isBusinessOpen formatToParts clock p = true
      /\ isWithinBusinessHoursAt formatToParts (Some clock) p = false
  end.
Proof.
  unfold isBusinessOpen, isWithinBusinessHoursAt, getNowPartsInTimezone,
    getPartsForDateInTimezone.
  destruct (formatToParts (timezone p) clock) as [parts|]; [reflexivity|].
  split; reflexivity.
Qed.

Lemma inWindow_empty (minutes : JS.num) (o c : Z) : c < o -> inWindow minutes (o, c) = false.
Proof.
  intros Hlt. destruct minutes as [m|]; [|reflexivity].
  apply not_true_is_false. rewrite inWindow_spec. lia.
Qed.

(** X4: With hours HH:MM-HH:MM whose closing minute is before the
    opening minute (such as 22:00-06:00), isWithinBusinessHoursAt
    refuses every instant on every day: a window over midnight is an
    empty window. *)
Theorem range_closing_before_it_opens_admits_nothing
    (formatToParts : string -> Z -> option (list part))
    (p : Policy) (d : JSDate.Date) (oh om ch cm : Z) :
  hoursRange p = hhmm oh om ++ "-" ++ hhmm ch cm ->
  0 <= oh <= 23 -> 0 <= om <= 59 -> 0 <= ch <= 23 -> 0 <= cm <= 59 ->
  ch * 60 + cm < oh * 60 + om ->
  isWithinBusinessHoursAt formatToParts d p = false.
Proof.
  intros Hrange Hoh Hom Hch Hcm Hlt. unfold isWithinBusinessHoursAt.
  destruct d as [t|]; [|reflexivity].
  destruct (getPartsForDateInTimezone formatToParts t (timezone p)) as [[day minutes]|];
    [|reflexivity].
  destruct (bool_decide (day ∈ parseBusinessDays (daysSpec p))); [|reflexivity].
  cbn [negb]. rewrite Hrange.
  change (hhmm oh om ++ "-" ++ hhmm ch cm) with (hhmm oh om ++ String "-" (hhmm ch cm)).
  rewrite windowOf_wellformed by assumption.
  apply inWindow_empty, Hlt.
Qed.

Lemma range_closing_before_it_opens_admits_nothing_witness :
  isWithinBusinessHoursAt (fixedFormatToParts (-360))
    (Some (Examples.utc 2025 1 7 5 0 0 0)) (mkPolicy Examples.chicago "22:00-06:00" "0-6")
  = false.
Proof.
  apply (range_closing_before_it_opens_admits_nothing (fixedFormatToParts (-360))
           (mkPolicy Examples.chicago "22:00-06:00" "0-6")
           (Some (Examples.utc 2025 1 7 5 0 0 0)) 22 0 6 0 eq_refl);
    lia.
Defined.

Lemma bare_ok_all :
  forallb (fun oh => forallb (bare_ok oh) (seqZ 0 24)) (seqZ 0 24) = true.
Proof. vm_compute. reflexivity. Qed.

(** X5: Hours written as two bare hours oh-ch (0 to 23, no minutes) open
    at oh:00 and close at ch:59: a missing minute is 0 on the opening
    side and 59 on the closing side, so '9-17' admits 17:59. *)
Theorem bare_hours_close_at_minute_59 (oh ch : Z) :
  0 <= oh <= 23 -> 0 <= ch <= 23 ->
  windowOf (JS.string_of_Z oh ++ "-" ++ JS.string_of_Z ch) = (oh * 60, ch * 60 + 59).
Proof.
  intros Hoh Hch. pose proof bare_ok_all as Hall.
  rewrite forallb_forall in Hall. specialize (Hall oh).
  rewrite forallb_forall in Hall.
  assert (Hok : bare_ok oh ch = true).
  { apply Hall; apply list_elem_of_In, elem_of_seqZ; lia. }
  unfold bare_ok in Hok. cbv zeta in Hok.
  apply andb_true_iff in Hok as [Ho Hc]. apply Z.eqb_eq in Ho, Hc.
  destruct (windowOf _) as [o c]. simpl in Ho, Hc. now subst.
Qed.

Lemma bare_hours_close_at_minute_59_witness : windowOf "9-17" = (540, 1079).
Proof. apply (bare_hours_close_at_minute_59 9 17); lia. Defined.
End BusinessHoursFacts.

(* ===================================================================== *)
(** ** services/date-parser.js: more about the future-safety pass *)
(* ===================================================================== *)

Module ResolverFacts.
Import Luxon DateParser DateParserFacts.

(** X6: ensureFuture is idempotent for a given reference instant:
    applied to its own result, with either value of the weekday bias, it
    changes nothing. *)
Theorem ensureFuture_idempotent `{Zone} (dt now : DateTime) (b b' : bool) :
  ensureFuture (ensureFuture dt now b) now b' = ensureFuture dt now b.
Proof.
  destruct now as [n|].
  - destruct dt as [d|]; [|reflexivity].
    destruct (ensureFuture_valid d n b) as (t & Ht). rewrite Ht.
    pose proof (ensureFuture_after (Some d) n b t Ht) as Hlt.
    unfold ensureFuture at 1, dt_le, JS.le.
    destruct (Z.leb_spec t n); [lia | reflexivity].
  - unfold ensureFuture, dt_le, JS.le. destruct dt; reflexivity.
Qed.

End ResolverFacts.

(* ===================================================================== *)
(** ** services/datetime.js: more about the year-safety pass *)
(* ===================================================================== *)

Module DatetimeFacts.
Import Ecma JSDate Datetime CalendarFacts JSDateFacts DatetimeClaims.

Lemma setFullYear_time_of_day (off t y t' : Z) :
  setFullYear (fixedTZA off) (Some t) y = Some t' ->
  TimeWithinDay (LocalTime (fixedTZA off) t') = TimeWithinDay (LocalTime (fixedTZA off) t).
Proof.
  unfold setFullYear, TimeClip, LocalTime, UTC, fixedTZA.
  set (l := t + off * msPerMinute).
  destruct (_ >? _); [discriminate|]. intros [= <-].
  pose proof (TimeWithinDay_range l) as Hr.
  unfold MakeDate, TimeWithinDay, msPerDay in *. dlia.
Qed.

(** X7: With the process at a fixed local offset and the clock in the
    years 1000 to 9999, the reference instant that ensureFutureIso
    rebuilds from the text of getCurrentDateTimeISO is the clock with
    its milliseconds dropped. *)
Theorem reference_is_clock_without_milliseconds (off clock y : Z) :
  Z.abs clock <= 8640000000000000 ->
  getFullYear (fixedTZA off) (Some clock) = Some y ->
  1000 <= y <= 9999 ->
  referenceOf (fixedTZA off) clock = Some (clock - clock mod 1000).
Proof.
  intros Hclock Hy Hrange.
  unfold referenceOf, getCurrentDateTimeISO, parseLocal, localFields.
  cbn [f_year f_month f_day f_hours f_minutes f_seconds].
  unfold getFullYear in Hy. injection Hy as Hy. rewrite Hy.
  destruct (Z.leb_spec 1000 y); [|lia]. destruct (Z.leb_spec y 9999); [|lia].
  cbn [andb]. unfold LocalTime, UTC, fixedTZA in *.
  set (l := clock + off * msPerMinute) in *.
  replace (MonthFromTime l + 1 - 1) with (MonthFromTime l) by lia.
  rewrite <- Hy, MakeDay_civil.
  assert (Ht : MakeTime (HourFromTime l) (MinFromTime l) (SecFromTime l) 0
               = TimeWithinDay l - l mod 1000).
  { rewrite <- MakeTime_fields. unfold MakeTime, msFromTime, msPerSecond. lia. }
  rewrite Ht.
  assert (Hv : MakeDate (Day l) (TimeWithinDay l - l mod 1000) - off * msPerMinute
               = clock - clock mod 1000).
  { unfold MakeDate, Day, TimeWithinDay, l, msPerDay, msPerMinute. dlia. }
  rewrite Hv. unfold TimeClip.
  destruct (Z.gtb_spec (Z.abs (clock - clock mod 1000)) 8640000000000000) as [Hgt|];
    [|reflexivity].
  exfalso. revert Hclock Hgt. clear. intros. dlia.
Qed.

Lemma reference_is_clock_without_milliseconds_witness :
  let clock := Examples.utc 2025 6 10 15 0 0 250 in
  referenceOf (fixedTZA (-300)) clock = Some (clock - clock mod 1000)
  /\ clock - clock mod 1000 = Examples.utc 2025 6 10 15 0 0 0.
Proof.
  cbv zeta. split; [|vm_compute; reflexivity].
  apply (reference_is_clock_without_milliseconds (-300)
           (Examples.utc 2025 6 10 15 0 0 250) 2025);
    [vm_compute; discriminate | vm_compute; reflexivity | lia].
Defined.

(** X8: At a fixed local offset, ensureFutureIso hands back a valid
    timestamp that is at or after the reference instant as it is,
    whatever its year, and changes every timestamp that is before the
    reference instant. *)
Theorem only_earlier_timestamps_are_changed
    (off clock : Z) (raw : string) (t n : Z) :
  let tza := fixedTZA off in
  referenceOf tza clock = Some n ->
  (n <= t -> ensureFutureIso tza clock (Text raw (Some t)) = IsoString t)
  /\ (t < n -> ensureFutureIso tza clock (Text raw (Some t)) <> IsoString t).
Proof.
  cbv zeta. intros Href. split.
  - intros Hle. unfold ensureFutureIso. rewrite Href.
    destruct (JS.lt (getFullYear (fixedTZA off) (Some t))
                    (getFullYear (fixedTZA off) (Some n))) eqn:Hy.
    + apply getFullYear_lt in Hy. lia.
    + unfold date_lt, JS.lt. destruct (Z.ltb_spec t n); [lia | reflexivity].
  - intros Hlt Heq.
    destruct (ensureFutureIso_not_before_reference off clock raw t n t Href Heq) as [Hle _].
    lia.
Qed.

Lemma only_earlier_timestamps_are_changed_witness :
  let tza := fixedTZA (-300) in
  let clock := Examples.utc 2025 6 10 15 0 0 250 in
  ensureFutureIso tza clock (Text "2025-06-11T09:00:00" (Some (Examples.utc 2025 6 11 14 0 0 0)))
  = IsoString (Examples.utc 2025 6 11 14 0 0 0)
  /\ ensureFutureIso tza clock (Text "2025-06-09T09:00:00" (Some (Examples.utc 2025 6 9 14 0 0 0)))
     <> IsoString (Examples.utc 2025 6 9 14 0 0 0).
Proof.
  cbv zeta. split.
  - destruct (only_earlier_timestamps_are_changed (-300) (Examples.utc 2025 6 10 15 0 0 250)
                "2025-06-11T09:00:00" (Examples.utc 2025 6 11 14 0 0 0)
                (Examples.utc 2025 6 10 15 0 0 0)) as [Hkeep _];
      [vm_compute; reflexivity|].
    apply Hkeep. vm_compute. discriminate.
  - destruct (only_earlier_timestamps_are_changed (-300) (Examples.utc 2025 6 10 15 0 0 250)
                "2025-06-09T09:00:00" (Examples.utc 2025 6 9 14 0 0 0)
                (Examples.utc 2025 6 10 15 0 0 0)) as [_ Hchange];
      [vm_compute; reflexivity|].
    apply Hchange. vm_compute. reflexivity.
Defined.

(** X9: At a fixed local offset, when ensureFutureIso returns an ISO
    text for a timestamp that is before the reference instant, that text
    is in the year of the reference or the year after it, at the local
    time of day the timestamp had. *)
Theorem past_timestamp_lands_in_this_or_next_year
    (off clock : Z) (raw : string) (t n y o : Z) :
  let tza := fixedTZA off in
  referenceOf tza clock = Some n ->
  getFullYear tza (Some n) = Some y ->
  t < n ->
  ensureFutureIso tza clock (Text raw (Some t)) = IsoString o ->
  (getFullYear tza (Some o) = Some y \/ getFullYear tza (Some o) = Some (y + 1))
  /\ TimeWithinDay (LocalTime tza o) = TimeWithinDay (LocalTime tza t).
Proof.
  cbv zeta. intros Href Hy Hlt. unfold ensureFutureIso. rewrite Href, Hy.
  destruct (JS.lt (getFullYear (fixedTZA off) (Some t)) (Some y)) eqn:Hty.
  - (* an earlier year: the year of the reference first *)
    destruct (setFullYear (fixedTZA off) (Some t) y) as [c|] eqn:Hc;
      [|simpl; discriminate].
    pose proof (setFullYear_year off t y c Hc) as Hcy.
    pose proof (setFullYear_time_of_day off t y c Hc) as Hct.
    unfold date_lt. destruct (JS.lt (Some c) (Some n)).
    + rewrite Hcy.
      destruct (setFullYear (fixedTZA off) (Some c) (y + 1)) as [c2|] eqn:Hc2;
        simpl; [|discriminate].
      intros [= <-]. split.
      * right. exact (setFullYear_year off c (y + 1) c2 Hc2).
      * rewrite (setFullYear_time_of_day off c (y + 1) c2 Hc2). exact Hct.
    + simpl. intros [= <-]. split; [left; exact Hcy | exact Hct].
  - (* the year of the reference already *)
    assert (Hyt : getFullYear (fixedTZA off) (Some t) = Some y).
    { destruct (JS.lt (getFullYear (fixedTZA off) (Some n))
                      (getFullYear (fixedTZA off) (Some t))) eqn:Hnt.
      - apply getFullYear_lt in Hnt. lia.
      - rewrite Hy in Hnt. unfold getFullYear in *. simpl in *.
        apply Z.ltb_ge in Hty, Hnt. injection Hy as Hy. f_equal. lia. }
    unfold date_lt, JS.lt. destruct (Z.ltb_spec t n); [|lia].
    rewrite Hyt.
    destruct (setFullYear (fixedTZA off) (Some t) (y + 1)) as [c2|] eqn:Hc2;
      simpl; [|discriminate].
    intros [= <-]. split.
    + right. exact (setFullYear_year off t (y + 1) c2 Hc2).
    + exact (setFullYear_time_of_day off t (y + 1) c2 Hc2).
Qed.

Lemma past_timestamp_lands_in_this_or_next_year_witness :
  let tza := fixedTZA (-300) in
  let o := Examples.utc 2025 12 24 22 30 0 0 in
  (getFullYear tza (Some o) = Some 2025 \/ getFullYear tza (Some o) = Some 2026)
  /\ TimeWithinDay (LocalTime tza o)
     = TimeWithinDay (LocalTime tza (Examples.utc 2019 12 24 22 30 0 0)).
Proof.
  apply (past_timestamp_lands_in_this_or_next_year (-300)
           (Examples.utc 2025 6 10 15 0 0 250) "2019-12-24T17:30:00"
           (Examples.utc 2019 12 24 22 30 0 0) (Examples.utc 2025 6 10 15 0 0 0) 2025
           (Examples.utc 2025 12 24 22 30 0 0));
    vm_compute; reflexivity.
Defined.
End DatetimeFacts.

(* ===================================================================== *)
(** ** services/hume-tool-handler.js: more about the handler *)
(* ===================================================================== *)

Module ToolHandlerFacts.
Import ToolHandler Examples ToolHandlerClaims StringFacts HandlerObs.


(** X10: Whatever methods the socket lacks, handleToolCallMessage
    returns normally and never throws; what it does is what it does with
    a socket having both send methods, minus the messages whose send
    method is missing. *)
Theorem handler_settles_on_any_socket
    (fetch : string -> body -> fetch_result) (m : ToolCallMessage)
    (socket : Socket) (baseUrl : string) :
  handleToolCallMessage fetch m socket baseUrl []
  = (Returned tt, filter (written socket) (effectsOf fetch m (mkSocket true true) baseUrl)).
Proof.
  rewrite effectsOf_cases.
  unfold handleToolCallMessage, try_catch, sendToolErrorMessage, sendToolResponseMessage.
  destruct socket as [hr he]. cbn [has_sendToolResponseMessage has_sendToolErrorMessage].
  destruct (String.eqb (nameOf m) "book_appointment"); cbn [negb].
  2:{ destruct he; reflexivity. }
  destruct (Json.parses (paramsStrOf m)); cbn [negb].
  2:{ destruct he; reflexivity. }
  unfold bind at 1. unfold await_fetch, bind at 1. cbn [emit app].
  destruct (fetch (bookingUrl baseUrl) (StringifyParsed (paramsStrOf m))) as [e|resp].
  { destruct he; reflexivity. }
  cbn [ret]. destruct (ok resp); cbn [negb].
  - unfold bind. destruct (json resp) as [[ev|] d|e]; simpl;
      first [destruct hr; reflexivity | destruct he; reflexivity].
  - unfold bind. destruct (text resp) as [s|e]; simpl; destruct he; reflexivity.
Qed.

(** X11: With any socket, the handler makes exactly one POST, to
    baseUrl/tools/hume/book-appointment with the parsed parameters
    serialised again, when the tool is book_appointment and its
    parameters are valid JSON, and makes no HTTP request otherwise. *)
Theorem request_is_posted_once_for_readable_bookings
    (fetch : string -> body -> fetch_result) (m : ToolCallMessage)
    (socket : Socket) (baseUrl : string) :
  filter isPosted (effectsOf fetch m socket baseUrl) =
    if String.eqb (nameOf m) "book_appointment" && Json.parses (paramsStrOf m)
    then [Posted (baseUrl ++ "/tools/hume/book-appointment") (StringifyParsed (paramsStrOf m))]
    else [].
Proof.
  unfold effectsOf, handleToolCallMessage, try_catch, sendToolErrorMessage,
    sendToolResponseMessage.
  destruct socket as [hr he]. cbn [has_sendToolResponseMessage has_sendToolErrorMessage].
  destruct (String.eqb (nameOf m) "book_appointment"); cbn [negb andb].
  2:{ destruct he; reflexivity. }
  destruct (Json.parses (paramsStrOf m)); cbn [negb].
  2:{ destruct he; reflexivity. }
  unfold bind at 1. unfold await_fetch, bind at 1. cbn [emit app].
  fold (bookingUrl baseUrl).
  destruct (fetch (bookingUrl baseUrl) (StringifyParsed (paramsStrOf m))) as [e|resp].
  { destruct he; reflexivity. }
  cbn [ret]. destruct (ok resp); cbn [negb].
  - unfold bind. destruct (json resp) as [[ev|] d|e]; simpl;
      first [destruct hr; reflexivity | destruct he; reflexivity].
  - unfold bind. destruct (text resp) as [s|e]; simpl; destruct he; reflexivity.
Qed.


Lemma substring_length (n : nat) (s : string) :
  (String.length (String.substring 0 n s) <= n)%nat.
Proof.
  revert s. induction n as [|n IH]; intros [|c s]; simpl; try lia.
  specialize (IH s). lia.
Qed.

Lemma substring_prefix (n : nat) (s : string) :
  String.prefix (String.substring 0 n s) s = true.
Proof.
  revert s. induction n as [|n IH]; intros [|c s]; simpl; try reflexivity.
  destruct (Ascii.ascii_dec c c); [apply IH | contradiction].
Qed.

(** X12: The content of a 'Bridge error' reply is never longer than 500
    characters: it is a prefix of the body of the response, or 'Error
    creating event' when that body is empty. *)
Theorem bridge_error_content_is_bounded (text : string) :
  (String.length (errorContent text) <= 500)%nat
  /\ match text with
     | EmptyString => errorContent text = "Error creating event"
     | String _ _ => String.prefix (errorContent text) text = true
     end.
Proof.
  unfold errorContent, JS.or_default. split.
  - destruct (JS.truthy_str (String.substring 0 500 text)).
    + apply substring_length.
    + cbn. lia.
  - destruct text as [|c text]; [reflexivity|].
    change (String.substring 0 500 (String c text))
      with (String c (String.substring 0 499 text)).
    cbn [JS.truthy_str]. apply (substring_prefix 500 (String c text)).
Qed.
End ToolHandlerFacts.

(* ===================================================================== *)
(** ** services/twilio-hume-bridge.js: the other direction, and the close *)
(* ===================================================================== *)

Module BridgeFacts.
Import ToolHandler Bridge BridgeObs BridgeClaims.

Section WithEnv.
Variable fetch : string -> body -> fetch_result.
Variable callSid : string.
Variable toolBridgeBase : string.

Local Abbreviation step := (Bridge.step fetch callSid toolBridgeBase).
Local Abbreviation run := (Bridge.run fetch callSid toolBridgeBase).

Lemma twilioMedia_app (a b : list action) :
  twilioMedia (a ++ b) = (twilioMedia a ++ twilioMedia b)%list.
Proof.
  induction a as [|x a IH]; simpl; [reflexivity|].
  destruct x; simpl; rewrite ?IH; reflexivity.
Qed.

Lemma twilioMedia_effects (tr : list effect) :
  twilioMedia (map actionOfEffect tr) = [].
Proof. induction tr as [|[r|url b] tr IH]; simpl; exact IH || reflexivity. Qed.

Lemma step_twilioMedia (s : state) (e : event) :
  twilioMedia (snd (step s e)) = map (fun d => (callSid, d)) (audioOutputs [e]).
Proof.
  destruct e as [|m| | |m| |]; simpl; try reflexivity.
  - destruct m; simpl; rewrite ?twilioMedia_effects; reflexivity.
  - destruct m as [|media| | |]; simpl; try reflexivity.
    destruct (humeReady s); [destruct media|]; reflexivity.
  - destruct (humeState s); reflexivity.
Qed.

(** X13: From any state and over any sequence of events, the media
    messages the bridge writes to the Twilio socket are exactly the data
    of Hume's audio_output messages, in their order, each with the call
    SID as streamSid: no agent audio is dropped, reordered or invented.
    *)
Theorem agent_audio_is_forwarded_to_the_caller (s : state) (evs : list event) :
  twilioMedia (snd (run s evs)) = map (fun d => (callSid, d)) (audioOutputs evs).
Proof.
  revert s. induction evs as [|e evs IH]; intros s; [reflexivity|].
  rewrite (run_cons fetch callSid toolBridgeBase). cbn [snd].
  rewrite twilioMedia_app, step_twilioMedia, IH.
  destruct e as [|m| | |m| |]; try reflexivity.
  destruct m; reflexivity.
Qed.

Lemma closesHume_app (a b : list action) :
  closesHume (a ++ b) = closesHume a || closesHume b.
Proof. apply existsb_app. Qed.

Lemma closesHume_effects (tr : list effect) :
  closesHume (map actionOfEffect tr) = false.
Proof. induction tr as [|[r|url b] tr IH]; simpl; exact IH || reflexivity. Qed.

(** One listener invocation calls [humeSocket.close()] on a [stop]
    message, and on the close of the Twilio socket when the Hume socket is
    open. *)
Lemma step_closesHume (s : state) (e : event) :
  closesHume (snd (step s e)) =
    isStop e || (isTwilioClose e && match humeState s with OPEN => true | _ => false end).
Proof.
  destruct e as [|m| | |m| |]; simpl; try reflexivity.
  - destruct m; simpl; rewrite ?closesHume_effects; reflexivity.
  - destruct m as [|media| | |]; simpl; try reflexivity.
    destruct (humeReady s); [destruct media|]; reflexivity.
  - destruct (humeState s); reflexivity.
Qed.

(** Without [stop] message and without close of the Twilio socket, the
    Hume socket is not closed by the bridge. *)
Lemma run_keeps_hume (evs : list event) (s : state) :
  forallb (fun e => negb (isStop e) && negb (isTwilioClose e)) evs = true ->
  closesHume (snd (run s evs)) = false.
Proof.
  revert s. induction evs as [|e evs IH]; intros s Hevs; [reflexivity|].
  cbn [forallb] in Hevs. apply andb_true_iff in Hevs as [He Hevs].
  apply andb_true_iff in He as [Hs Hc].
  rewrite (run_cons fetch callSid toolBridgeBase). cbn [snd].
  rewrite closesHume_app, step_closesHume, (IH _ Hevs).
  apply negb_true_iff in Hs, Hc. now rewrite Hs, Hc.
Qed.

(** Before the Hume socket opens, its state is not [OPEN]. *)
Lemma run_before_open (evs : list event) (s : state) :
  forallb (fun e => negb (isStop e) && negb (isHumeOpen e)) evs = true ->
  humeState s <> OPEN ->
  closesHume (snd (run s evs)) = false /\ humeState (fst (run s evs)) <> OPEN.
Proof.
  revert s. induction evs as [|e evs IH]; intros s Hevs Hs; [split; [reflexivity|exact Hs]|].
  cbn [forallb] in Hevs. apply andb_true_iff in Hevs as [He Hevs].
  apply andb_true_iff in He as [Hstop Hopen].
  apply negb_true_iff in Hstop, Hopen.
  rewrite (run_cons fetch callSid toolBridgeBase). cbn [fst snd].
  assert (Hs1 : humeState (fst (step s e)) <> OPEN).
  { destruct e as [|m| | |m| |]; simpl; try assumption; try discriminate.
    - destruct m; assumption.
    - destruct m as [|media| | |]; simpl; try assumption; try discriminate.
      destruct (humeReady s); [destruct media|]; assumption.
    - destruct (humeState s) eqn:E; simpl; congruence. }
  destruct (IH _ Hevs Hs1) as [Hc Hst]. split; [|exact Hst].
  rewrite closesHume_app, step_closesHume, Hc, Hstop.
  destruct (humeState s); try reflexivity; try (now rewrite andb_false_r).
  contradiction.
Qed.

(** X14: If the Twilio socket closes before the Hume socket has opened,
    and no stop message arrives, the bridge never calls close on the
    Hume socket, whatever the Hume socket does afterwards. *)
Theorem hume_socket_stays_open_when_caller_hangs_up_first (pre post : list event) :
  forallb (fun e => negb (isStop e) && negb (isHumeOpen e)) pre = true ->
  forallb (fun e => negb (isStop e) && negb (isTwilioClose e)) post = true ->
  closesHume (snd (run initial (pre ++ TwilioClose :: post))) = false.
Proof.
  intros Hpre Hpost.
  assert (Happ : forall (a b : list event) (s : state),
             snd (run s (a ++ b)) =
             (snd (run s a) ++ snd (run (fst (run s a)) b))%list).
  { induction a as [|e a IH]; intros b s; [reflexivity|].
    rewrite <- app_comm_cons, !(run_cons fetch callSid toolBridgeBase). cbn [fst snd].
    rewrite IH. now rewrite app_assoc. }
  rewrite Happ, closesHume_app.
  destruct (run_before_open pre initial Hpre) as [Hc Hst]; [discriminate|].
  rewrite Hc. cbn [orb].
  rewrite (run_cons fetch callSid toolBridgeBase). cbn [snd].
  rewrite closesHume_app, step_closesHume. cbn [isStop isTwilioClose orb andb].
  rewrite run_keeps_hume by exact Hpost.
  destruct (humeState (fst (run initial pre))); try reflexivity. contradiction.
Qed.
End WithEnv.

Lemma hume_socket_stays_open_when_caller_hangs_up_first_witness :
  closesHume (snd (Bridge.run Examples.refusing "CA1" "http://localhost:3001" initial
                     ([TwilioMessage TwStart] ++ TwilioClose :: [HumeOpen; HumeMessage HmOther])))
  = false.
Proof.
  apply (hume_socket_stays_open_when_caller_hangs_up_first Examples.refusing "CA1"
           "http://localhost:3001" [TwilioMessage TwStart] [HumeOpen; HumeMessage HmOther]);
    reflexivity.
Defined.
End BridgeFacts.

(* ===================================================================== *)
(** ** server.js: more about POST /tools/hume/book-appointment *)
(* ===================================================================== *)

Module ServerFacts.
Import Ecma Luxon Server Examples FixedOffset CalendarFacts FixedOffsetFacts ServerClaims HoursChecks.

Section Routes.
Variable zoneOf : string -> Zone.
Variable events_insert : string -> EventBody -> insert_result.
Variable businessTz : string.
Variable businessName : string.

Local Abbreviation book_appointment :=
  (Server.book_appointment zoneOf events_insert businessTz businessName).


(** X15: POST /tools/hume/book-appointment calls the calendar at most
    once per request: not at all when it answers 400, once when it
    answers 500 (with the error of that call) and once when it answers
    200 (with the id of the event that call created). *)
Theorem calendar_is_called_at_most_once (clock : Z) (body : BookRequest) :
  match book_appointment clock body with
  | (Status400 _, calls) => calls = []
  | (Status500 msg, calls) =>
      exists cid req, calls = [EventsInsert cid req]
                      /\ events_insert cid req = InsertThrows msg
  | (Ok200 id _ _, calls) =>
      exists cid req, calls = [EventsInsert cid req]
                      /\ events_insert cid req = Inserted id
  end.
Proof.
  unfold Server.book_appointment.
  destruct (negb _ || negb _ || negb _); [reflexivity|].
  destruct (parseDate _ _ _ _) as [[[y m] d]|]; [|reflexivity].
  destruct (parseTime _ _ _ _) as [[sh sm]|]; [|reflexivity].
  destruct (parseTime _ _ _ _) as [[eh em]|]; [|reflexivity].
  match goal with
  | |- context [events_insert ?c ?r] =>
      destruct (events_insert c r) as [id|msg] eqn:Hins; exists c, r
  end.
  - split; [reflexivity | exact Hins].
  - split; [reflexivity | exact Hins].
Qed.
End Routes.


(** What a valid [fromObject] in a zone at a fixed offset says of its
    fields and of its instant. *)
Lemma fo_fromObject_Some (off : Z) (f : Fields) (t : Z) :
  fo_fromObject off f = Some t ->
  t = MakeDay (year f) (month f - 1) (day f) * msPerDay
      + hour f * msPerHour + minute f * msPerMinute - off * msPerMinute
  /\ 0 <= minute f <= 59
  /\ (0 <= hour f <= 23 \/ (hour f = 24 /\ minute f = 0)).
Proof.
  unfold fo_fromObject, validFields.
  destruct (_ && _) eqn:Hv; [|discriminate]. intros [= <-].
  apply andb_true_iff in Hv as [Hv Hm2]. apply andb_true_iff in Hv as [Hv Hm1].
  apply andb_true_iff in Hv as [_ Hh].
  apply Z.leb_le in Hm1, Hm2.
  split; [unfold ofLocal, objToLocalTS, MakeDate, MakeTime; lia|].
  split; [lia|].
  apply orb_true_iff in Hh as [Hh|Hh]; apply andb_true_iff in Hh as [Hh1 Hh2].
  - left. apply Z.leb_le in Hh1, Hh2. lia.
  - right. apply Z.eqb_eq in Hh1, Hh2. lia.
Qed.

(** X16: In a zone at a fixed offset, when the date and the two times of
    the request are read and give valid instants with a start hour of at
    most 23, the event sent to the calendar ends strictly after it
    starts and at most 24 hours after it. *)
Theorem booked_event_ends_after_it_starts
    (off : Z) (events_insert : string -> EventBody -> insert_result)
    (businessTz businessName : string)
    (clock : Z) (body : BookRequest) (y m d sh sm eh em s e : Z) :
  let zoneOf := fun _ : string => FixedOffset.zone off in
  Reads zoneOf businessTz clock body y m d sh sm eh em ->
  fo_fromObject off (mkFields y m d sh sm) = Some s ->
  fo_fromObject off (mkFields y m d eh em) = Some e ->
  sh <= 23 ->
  exists (req : EventBody) (e' : Z),
    snd (Server.book_appointment zoneOf events_insert businessTz businessName clock body)
    = [EventsInsert (field (calendarId body) "primary") req]
    /\ ev_start req = Some s /\ ev_end req = Some e'
    /\ s < e' <= s + 86400000.
Proof.
  intros zoneOf Hreads Hs He Hsh.
  destruct (book_appointment_reads zoneOf events_insert businessTz businessName
              clock body y m d sh sm eh em Hreads)
    as (req & Hstart & Hend & _ & Hbook).
  change (@fromObject (zoneOf (JS.or_default (timezone body) businessTz)))
    with (fo_fromObject off) in Hstart, Hend.
  rewrite Hs in Hstart, Hend. rewrite He in Hend.
  apply fo_fromObject_Some in Hs as (Hsv & Hsm & Hsh').
  apply fo_fromObject_Some in He as (Hev & Hem & Heh).
  cbn [year month day hour minute] in *.
  unfold msPerDay, msPerHour, msPerMinute in *.
  unfold dt_le, JS.le in Hend.
  destruct (Z.leb_spec e s) as [Hle|Hgt].
  - exists req, (e + 86400000). rewrite Hbook.
    split; [reflexivity|]. split; [exact Hstart|]. split.
    + rewrite Hend. unfold plusDays, zoneOf. now rewrite plusDaysTs_fixed.
    + lia.
  - exists req, e. rewrite Hbook.
    split; [reflexivity|]. split; [exact Hstart|]. split; [exact Hend | lia].
Qed.

Lemma booked_event_ends_after_it_starts_witness :
  exists (req : EventBody) (e' : Z),
    snd (Server.book_appointment (fun _ => FixedOffset.zone (-360)) accepting chicago
           "ArenaMinds AI" monday (request "23:30" "00:15"))
    = [EventsInsert "primary" req]
    /\ ev_start req = Some (utc 2025 1 6 5 30 0 0) /\ ev_end req = Some e'
    /\ utc 2025 1 6 5 30 0 0 < e' <= utc 2025 1 6 5 30 0 0 + 86400000.
Proof.
  apply (booked_event_ends_after_it_starts (-360) accepting chicago "ArenaMinds AI"
           monday (request "23:30" "00:15") 2025 1 5 23 30 0 15
           (utc 2025 1 6 5 30 0 0) (utc 2025 1 5 6 15 0 0)).
  - split; reflexivity.
  - reflexivity.
  - reflexivity.
  - lia.
Defined.

(** Every hour and minute of the clock, checked one by one. *)
Lemma hhmm_ok_all :
  forallb (fun h => forallb (hhmm_ok h) (seqZ 0 60)) (seqZ 0 24) = true.
Proof. vm_compute. reflexivity. Qed.

Lemma hhmm_matches (h m : Z) :
  0 <= h <= 23 -> 0 <= m <= 59 ->
  JS.toLowerCase (JS.trim (BusinessHours.hhmm h m)) = BusinessHours.hhmm h m
  /\ match_tokens [OneOrTwo; Lit ":"; Two] (BusinessHours.hhmm h m) = Some [h; m].
Proof.
  intros Hh Hm. pose proof hhmm_ok_all as Hall.
  rewrite forallb_forall in Hall. specialize (Hall h).
  rewrite forallb_forall in Hall.
  assert (Hok : hhmm_ok h m = true).
  { apply Hall; apply list_elem_of_In, elem_of_seqZ; lia. }
  unfold hhmm_ok in Hok. apply andb_true_iff in Hok as [Ht Hmt].
  apply String.eqb_eq in Ht. split; [exact Ht|].
  destruct (match_tokens _ _) as [[|h' [|m' [|x l]]]|]; try discriminate.
  apply andb_true_iff in Hmt as [H1 H2]. apply Z.eqb_eq in H1, H2. now subst.
Qed.

(** The date of the clock is a valid date, and a time of day set on it
    is read back. *)
Lemma fo_today_at (off clock h m : Z) :
  0 <= h <= 23 -> 0 <= m <= 59 ->
  let now := fo_fieldsOf off clock in
  exists t, fo_fromObject off (mkFields (year now) (month now) (day now) h m) = Some t
            /\ hour (fo_fieldsOf off t) = h /\ minute (fo_fieldsOf off t) = m.
Proof.
  intros Hh Hm. cbv zeta. unfold fo_fieldsOf at 1 2 3. cbn [year month day].
  set (l := toLocal off clock).
  pose proof (MonthFromTime_range l) as Hmo.
  pose proof (DateFromTime_range l) as Hd.
  pose proof (DateFromTime_le_daysInMonth l) as Hdm.
  unfold fo_fromObject, validFields. cbn [year month day hour minute].
  repeat rewrite (proj2 (Z.leb_le _ _)) by lia.
  cbn [andb orb]. eexists. split; [reflexivity|].
  unfold fo_fieldsOf, toLocal, ofLocal, objToLocalTS, MakeDate, MakeTime. cbn [hour minute].
  unfold HourFromTime, MinFromTime, msPerDay, msPerHour, msPerMinute, msPerSecond.
  split; dlia.
Qed.

(** X17: In a zone at a fixed offset, parseTime reads every clock text
    HH:MM from 00:00 to 23:59 (two digits each) as that hour and that
    minute, whatever the current date. *)
Theorem parseTime_reads_back_the_clock_text
    (off : Z) (timezone : string) (clock h m : Z) :
  0 <= h <= 23 -> 0 <= m <= 59 ->
  Server.parseTime (fun _ => FixedOffset.zone off) timezone clock (BusinessHours.hhmm h m)
  = Some (h, m).
Proof.
  intros Hh Hm. destruct (hhmm_matches h m Hh Hm) as [Htext Htok].
  destruct (fo_today_at off clock h m Hh Hm) as (t & Ht & Hth & Htm).
  unfold Server.parseTime. rewrite Htext.
  cbn [firstFormat]. change (@fromFormat (FixedOffset.zone off)) with (fo_fromFormat off).
  unfold fo_fromFormat. cbn [String.eqb Ascii.eqb Bool.eqb]. rewrite Htok, Ht.
  change (@fieldsOf (FixedOffset.zone off)) with (fo_fieldsOf off).
  now rewrite Hth, Htm.
Qed.

Lemma parseTime_reads_back_the_clock_text_witness :
  Server.parseTime (fun _ => FixedOffset.zone (-360)) chicago monday "07:05" = Some (7, 5).
Proof. apply (parseTime_reads_back_the_clock_text (-360) chicago monday 7 5); lia. Defined.

(** X18: In a zone at a fixed offset, the route does not check that the
    date and start time it read form a valid instant: when they do not
    (month 13, day 45), the calendar is still called, with a null start,
    and the route answers 200 or 500 as the calendar decides. *)
Theorem out_of_range_date_reaches_the_calendar
    (off : Z) (events_insert : string -> EventBody -> insert_result)
    (businessTz businessName : string)
    (clock : Z) (body : BookRequest) (y m d sh sm eh em : Z) :
  let zoneOf := fun _ : string => FixedOffset.zone off in
  Reads zoneOf businessTz clock body y m d sh sm eh em ->
  validFields (mkFields y m d sh sm) = false ->
  exists req : EventBody,
    snd (Server.book_appointment zoneOf events_insert businessTz businessName clock body)
    = [EventsInsert (field (calendarId body) "primary") req]
    /\ ev_start req = None
    /\ fst (Server.book_appointment zoneOf events_insert businessTz businessName clock body)
       = match events_insert (field (calendarId body) "primary") req with
         | Inserted id => Ok200 id None (ev_end req)
         | InsertThrows msg => Status500 msg
         end.
Proof.
  intros zoneOf Hreads Hinv.
  destruct (book_appointment_reads zoneOf events_insert businessTz businessName
              clock body y m d sh sm eh em Hreads)
    as (req & Hstart & Hend & _ & Hbook).
  change (@fromObject (zoneOf (JS.or_default (timezone body) businessTz)))
    with (fo_fromObject off) in Hstart, Hend, Hbook.
  unfold fo_fromObject in Hstart at 1. rewrite Hinv in Hstart.
  exists req. rewrite Hbook. cbn [fst snd].
  split; [reflexivity|]. split; [exact Hstart|].
  destruct (events_insert _ req); [|reflexivity].
  unfold fo_fromObject at 1. rewrite Hinv. now rewrite <- Hend.
Qed.

Lemma out_of_range_date_reaches_the_calendar_witness :
  exists req : EventBody,
    snd (Server.book_appointment (fun _ => FixedOffset.zone (-360)) accepting chicago
           "ArenaMinds AI" monday
           (mkBookRequest None (Some "2025-13-45") (Some "09:00") (Some "09:30")
                          None None None None))
    = [EventsInsert "primary" req]
    /\ ev_start req = None
    /\ fst (Server.book_appointment (fun _ => FixedOffset.zone (-360)) accepting chicago
              "ArenaMinds AI" monday
              (mkBookRequest None (Some "2025-13-45") (Some "09:00") (Some "09:30")
                             None None None None))
       = match accepting "primary" req with
         | Inserted id => Ok200 id None (ev_end req)
         | InsertThrows msg => Status500 msg
         end.
Proof.
  apply (out_of_range_date_reaches_the_calendar (-360) accepting chicago "ArenaMinds AI"
           monday
           (mkBookRequest None (Some "2025-13-45") (Some "09:00") (Some "09:30")
                          None None None None) 2025 13 45 9 0 9 30).
  - split; reflexivity.
  - reflexivity.
Defined.
End ServerFacts.

(* ===================================================================== *)
(** ** services/hume-conversation.js on concrete inputs *)
(* ===================================================================== *)

Module ConversationEvaluation.
Import Examples JSText Conversation PostCall.

Lemma parseInt_examples :
  (parseInt (Some "  -0x1F"), parseInt (Some "08"), parseInt (Some "12abc"),
   parseInt (Some "abc"), parseInt None)
  = (Some (-31), Some 8, Some 12, None, None).
Proof. vm_compute. reflexivity. Qed.

Lemma padNumber_examples :
  (padNumber 4 2025, padNumber 2 7, padNumber 4 (-5)) = ("2025", "07", "-0005").
Proof. vm_compute. reflexivity. Qed.

Lemma matches_examples :
  (nameMatch "hi this is maria lopez calling", dayMatch "how about next friday",
   dateMatch "maybe 11/15 or 3-4", timeMatch "at 4:45 PM please",
   serviceMentions "a fade and a first-time trim, trimmed")
  = (Some "maria lopez", Some 5, Some ("11", "15"), Some ("4", Some "45", Some "PM"),
     ["fade"; "first-time"; "trim"; "trim"]).
Proof. vm_compute. reflexivity. Qed.

Lemma startOf_examples :
  (option_map startOf (timeMatch "at 12 am"), option_map startOf (timeMatch "at 7pm"),
   option_map (fun s => endOf (startOf s)) (timeMatch "at 7:45pm"))
  = (Some (Some 0, Some 0), Some (Some 19, Some 0), Some (Some 20, Some 15)).
Proof. vm_compute. reflexivity. Qed.

(** On Monday 2025-01-06, 10:00 at UTC-6: a date of the past is moved to
    the next year, a day that does not exist is an invalid DateTime, and
    the day of the clock is next week's. *)
Lemma appointmentDateOf_examples :
  (appointmentDateOf (FixedOffsetWeek.zoneEx (-360)) monday "see you on 1/3 then",
   appointmentDateOf (FixedOffsetWeek.zoneEx (-360)) monday "see you on 2/30 then",
   appointmentDateOf (FixedOffsetWeek.zoneEx (-360)) monday "monday works")
  = (Fine (Some (Some (utc 2026 1 3 6 0 0 0))), Fine (Some None),
     Fine (Some (Some (utc 2025 1 13 16 0 0 0)))).
Proof. vm_compute. reflexivity. Qed.

Lemma mock_conversation_parsed :
  parseAppointmentFromConversation (fun _ => FixedOffsetWeek.zoneEx (-360)) None monday
    (mockConversation (Some "+15125550100"))
  = Fine (mkAppointment true (Some "2025-01-07") (Some "14:00") (Some "14:30")
            "America/Chicago" "john smith" "+15125550100" "General appointment"
            "john smith - General appointment"
            "Booked via phone conversation. Customer: john smith Phone: +15125550100").
Proof. vm_compute. reflexivity. Qed.
End ConversationEvaluation.

(* ===================================================================== *)
(** ** The decimal text of a number, written and read *)
(* ===================================================================== *)

Module DecimalFacts.
Import JSText Conversation StringFacts MoreStringFacts.

Lemma uint_digits (d : Decimal.uint) :
  JS.all_digits (NilEmpty.string_of_uint d) = true.
Proof. induction d; simpl; auto. Qed.

Lemma uint_val_acc (d : Decimal.uint) (acc : positive) :
  JS.digits_val (Z.pos acc) (NilEmpty.string_of_uint d) = Z.pos (Pos.of_uint_acc d acc).
Proof.
  revert acc. induction d as [|d IH|d IH|d IH|d IH|d IH|d IH|d IH|d IH|d IH|d IH];
    intros acc; cbn [NilEmpty.string_of_uint JS.digits_val Pos.of_uint_acc];
    [reflexivity|..]; rewrite <- IH; f_equal;
    match goal with
    | |- context [JS.digit_val ?c] =>
        let v := eval vm_compute in (JS.digit_val c) in
        change (JS.digit_val c) with v
    end; lia.
Qed.

Lemma uint_val (d : Decimal.uint) :
  JS.digits_val 0 (NilEmpty.string_of_uint d) = Z.of_uint d.
Proof.
  unfold Z.of_uint.
  induction d as [|d IH|d IH|d IH|d IH|d IH|d IH|d IH|d IH|d IH|d IH];
    cbn [NilEmpty.string_of_uint JS.digits_val Pos.of_uint]; try reflexivity;
    try exact IH; apply (uint_val_acc d).
Qed.

(** The decimal text of a natural number: digits only, at least one,
    and its value is the number. *)
Lemma string_of_Z_nonneg (z : Z) :
  0 <= z ->
  JS.all_digits (JS.string_of_Z z) = true
  /\ JS.truthy_str (JS.string_of_Z z) = true
  /\ JS.digits_val 0 (JS.string_of_Z z) = z.
Proof.
  intros Hz. pose proof (DecimalZ.of_to z) as Hof. unfold JS.string_of_Z.
  destruct (Z.to_int z) as [u|u] eqn:Hu.
  - cbn [NilZero.string_of_int]. cbn [Z.of_int] in Hof.
    destruct u; cbn [NilZero.string_of_uint];
      try (split; [apply uint_digits|]; split; [reflexivity|];
           rewrite uint_val; exact Hof).
    split; [reflexivity|]. split; [reflexivity|]. exact Hof.
  - exfalso. destruct z; simpl in Hu; try discriminate. lia.
Qed.

Lemma digits_prefix_digits (s : string) (acc : option Z) :
  JS.all_digits s = true ->
  digits_prefix dec_val 10 acc s =
    match s with
    | EmptyString => acc
    | String _ _ => Some (JS.digits_val (match acc with Some a => a | None => 0 end) s)
    end.
Proof.
  revert acc. induction s as [|c s IH]; intros acc Hs; [reflexivity|].
  cbn [JS.all_digits] in Hs. apply andb_true_iff in Hs as [Hc Hs].
  cbn [digits_prefix]. unfold dec_val at 1. rewrite Hc, (IH _ Hs).
  destruct s; reflexivity.
Qed.

(** [parseInt] on a text of digits. *)
Lemma parseInt_all_digits (s : string) :
  JS.all_digits s = true -> JS.truthy_str s = true ->
  parseInt (Some s) = Some (JS.digits_val 0 s).
Proof.
  intros Hs Ht. unfold parseInt. rewrite (all_digits_trimStart s Hs).
  destruct s as [|c r]; [discriminate|]. clear Ht.
  pose proof Hs as Hs'. cbn [JS.all_digits] in Hs'. apply andb_true_iff in Hs' as [Hc Hr].
  assert (Hu : parseInt_unsigned (String c r) = Some (JS.digits_val 0 (String c r))).
  { assert (Hd : digits_prefix dec_val 10 None (String c r)
                 = Some (JS.digits_val 0 (String c r)))
      by (rewrite digits_prefix_digits by exact Hs; reflexivity).
    unfold parseInt_unsigned.
    destruct r as [|x r']; [destruct c as [[] [] [] [] [] [] [] []]; exact Hd|].
    cbn [JS.all_digits] in Hr. apply andb_true_iff in Hr as [Hx _].
    assert (Hxx : Ascii.eqb x "x" || Ascii.eqb x "X" = false).
    { rewrite (is_digit_not x "x"), (is_digit_not x "X") by (reflexivity || exact Hx).
      reflexivity. }
    destruct c as [[] [] [] [] [] [] [] []]; try exact Hd. rewrite Hxx. exact Hd. }
  assert (Hm : Ascii.eqb c "-" = false) by (apply (is_digit_not c "-"); [reflexivity|exact Hc]).
  assert (Hp : Ascii.eqb c "+" = false) by (apply (is_digit_not c "+"); [reflexivity|exact Hc]).
  destruct c as [[] [] [] [] [] [] [] []]; try discriminate; exact Hu.
Qed.

Lemma repeat_zero_digits (k : nat) (s : string) :
  JS.all_digits (repeat_char k "0" ++ s) = JS.all_digits s
  /\ JS.digits_val 0 (repeat_char k "0" ++ s) = JS.digits_val 0 s.
Proof.
  induction k as [|k [IH1 IH2]]; [split; reflexivity|].
  cbn [repeat_char]. rewrite append_cons. cbn [JS.all_digits JS.digits_val].
  split; [exact IH1 | exact IH2].
Qed.

Lemma truthy_app_r (a b : string) : JS.truthy_str b = true -> JS.truthy_str (a ++ b) = true.
Proof. destruct a; [intros H; exact H | reflexivity]. Qed.

(** The padded text of a natural number has neither dash nor colon and
    is read back by [parseInt]. *)
Lemma padded (n : nat) (z : Z) :
  0 <= z ->
  JS.no_char "-" (padNumber n z) = true /\ JS.no_char ":" (padNumber n z) = true
  /\ parseInt (Some (padNumber n z)) = Some z
  /\ padStart n "0" (string_of_num (Some z)) = padNumber n z.
Proof.
  intros Hz. destruct (string_of_Z_nonneg z Hz) as (Hd & Ht & Hv).
  unfold padNumber, string_of_num. destruct (Z.ltb_spec z 0); [lia|].
  unfold padStart.
  destruct (repeat_zero_digits (n - String.length (JS.string_of_Z z)) (JS.string_of_Z z))
    as [Hd' Hv'].
  rewrite Hd in Hd'. rewrite Hv in Hv'.
  split; [apply all_digits_no_char; [reflexivity | exact Hd']|].
  split; [apply all_digits_no_char; [reflexivity | exact Hd']|].
  split; [|reflexivity].
  rewrite parseInt_all_digits by (exact Hd' || apply truthy_app_r, Ht).
  now rewrite Hv'.
Qed.

End DecimalFacts.

(* ===================================================================== *)
(** ** services/hume-conversation.js and the booking after the call *)
(* ===================================================================== *)

Module PostCallFacts.
Import Luxon LuxonWeek JSText Conversation PostCall PostCallChecks StringFacts MoreStringFacts
  DecimalFacts.

Lemma leftmost_None {A} (here : string -> option A) (f : ascii -> bool) (s : string) :
  (forall c r, here (String c r) = None <-> f c = false) ->
  here EmptyString = None ->
  leftmost here s = None <-> any_char f s = false.
Proof.
  intros Hhere Hnil. induction s as [|c s IH].
  - simpl. rewrite Hnil. tauto.
  - cbn [leftmost any_char]. destruct (here (String c s)) eqn:Hh.
    + split; [discriminate|]. intros Hf. apply orb_false_iff in Hf as [Hf _].
      apply (proj2 (Hhere c s)) in Hf. congruence.
    + apply (proj1 (Hhere c s)) in Hh. rewrite Hh. exact IH.
Qed.

Lemma time_here_None (c : ascii) (r : string) :
  time_here (String c r) = None <-> JS.is_digit c = false.
Proof.
  cbn [time_here]. destruct (JS.is_digit c); [|tauto].
  split; [|discriminate].
  repeat match goal with
         | |- context [let '(_, _) := ?x in _] => destruct x
         end.
  discriminate.
Qed.

Lemma timeMatch_None (s : string) :
  timeMatch s = None <-> any_char JS.is_digit s = false.
Proof. apply leftmost_None; [apply time_here_None | reflexivity]. Qed.

(** X19: parseAppointmentFromConversation finds no start time exactly
    when the text of the conversation has no decimal digit: any digit (a
    head count, a phone number) is read as the hour, and an appointment
    is reported found only for a text with a digit. *)
Theorem a_start_time_needs_only_a_digit
    (zoneOf : string -> ZoneEx) (BUSINESS_TIMEZONE : option string)
    (clock : Z) (conversation : Conversation) (a : Appointment) :
  parseAppointmentFromConversation zoneOf BUSINESS_TIMEZONE clock conversation = Fine a ->
  (startTime a = None <-> any_char JS.is_digit (fullTextOf conversation) = false)
  /\ (found a = true -> any_char JS.is_digit (fullTextOf conversation) = true).
Proof.
  unfold parseAppointmentFromConversation.
  destruct (appointmentDateOf _ clock _) as [appointmentDate|e]; [|discriminate].
  intros [= <-]. cbn [startTime found].
  pose proof (timeMatch_None (fullTextOf conversation)) as Hnone.
  destruct (timeMatch (fullTextOf conversation)) as [m|]; cbn [option_map].
  - assert (Hd : any_char JS.is_digit (fullTextOf conversation) = true).
    { apply not_false_iff_true. intros Hc. apply Hnone in Hc. discriminate Hc. }
    rewrite Hd. split; [split; intros Hx; discriminate Hx | reflexivity].
  - split; [tauto|]. destruct appointmentDate; intros Hx; discriminate Hx.
Qed.

Lemma a_start_time_needs_only_a_digit_witness :
  let conversation :=
    mkConversation (Some [mkMessage None (Some "Tomorrow please, we are 3 people") None None])
                   None None None in
  exists a : Appointment,
    parseAppointmentFromConversation (fun _ => FixedOffsetWeek.zoneEx (-360)) None
      Examples.monday conversation = Fine a
    /\ found a = true /\ startTime a = Some "03:00"
    /\ any_char JS.is_digit (fullTextOf conversation) = true.
Proof.
  cbv zeta. eexists. split; [reflexivity|]. split; [reflexivity|]. split; [reflexivity|].
  apply (a_start_time_needs_only_a_digit (fun _ => FixedOffsetWeek.zoneEx (-360)) None
           Examples.monday
           (mkConversation
              (Some [mkMessage None (Some "Tomorrow please, we are 3 people") None None])
              None None None) _ eq_refl).
  reflexivity.
Defined.

(** ** The groups of the time *)

Lemma leftmost_Some {A} (here : string -> option A) (s : string) (x : A) :
  leftmost here s = Some x -> exists s', here s' = Some x.
Proof.
  induction s as [|c s IH]; cbn [leftmost].
  - destruct (here EmptyString) eqn:Hh; [|discriminate]. intros [= <-]. eauto.
  - destruct (here (String c s)) eqn:Hh; [intros [= <-]; eauto | exact IH].
Qed.

Lemma is_digit_chars (a : ascii) : JS.is_digit a = true -> In a digit_chars.
Proof.
  destruct a as [[] [] [] [] [] [] [] []]; intros H; try discriminate H;
    cbn; tauto.
Qed.

Lemma digits_ok_all :
  forallb (fun a => forallb (digits_ok a) digit_chars) digit_chars = true.
Proof. vm_compute. reflexivity. Qed.

Lemma parseInt_digits (a b : ascii) :
  JS.is_digit a = true -> JS.is_digit b = true ->
  exists x y,
    parseInt (Some (String a EmptyString)) = Some x
    /\ parseInt (Some (String a (String b EmptyString))) = Some y
    /\ 0 <= x <= 9 /\ 0 <= y <= 99.
Proof.
  intros Ha Hb. pose proof digits_ok_all as Hall.
  rewrite forallb_forall in Hall. specialize (Hall a (is_digit_chars a Ha)).
  rewrite forallb_forall in Hall. specialize (Hall b (is_digit_chars b Hb)).
  assert (Hb' : forallb (digits_ok b) digit_chars = true).
  { pose proof digits_ok_all as Hall'. rewrite forallb_forall in Hall'.
    apply Hall', is_digit_chars, Hb. }
  rewrite forallb_forall in Hb'. specialize (Hb' b (is_digit_chars b Hb)).
  unfold digits_ok in Hall, Hb'.
  destruct (parseInt (Some (String a EmptyString))) as [x|]; [|discriminate].
  destruct (parseInt (Some (String a (String b EmptyString)))) as [y|]; [|discriminate].
  destruct (parseInt (Some (String b EmptyString))) as [x'|]; [|discriminate].
  destruct (parseInt (Some (String b (String b EmptyString)))) as [y'|]; [|discriminate].
  repeat (apply andb_true_iff in Hall as [Hall ?]).
  repeat (apply andb_true_iff in Hb' as [Hb' ?]).
  exists x, y. split; [reflexivity|]. split; [reflexivity|]. lia.
Qed.

(** What the pattern of the time captures: one or two digits, then
    possibly two digits. *)
Lemma time_here_groups (s g1 : string) (g2 g3 : option string) :
  time_here s = Some (g1, g2, g3) ->
  (exists h, parseInt (Some g1) = Some h /\ 0 <= h <= 99)
  /\ (g2 = None
      \/ exists g mi, g2 = Some g /\ JS.truthy_str g = true
                      /\ parseInt (Some g) = Some mi /\ 0 <= mi <= 99).
Proof.
  destruct s as [|a r]; [discriminate|]. cbn [time_here].
  destruct (JS.is_digit a) eqn:Ha; [|discriminate].
  assert (H1 : forall h r1,
             match r with
             | String b r' =>
                 if JS.is_digit b then (String a (String b EmptyString), r')
                 else (String a EmptyString, r)
             | EmptyString => (String a EmptyString, r)
             end = (h, r1) ->
             exists x, parseInt (Some h) = Some x /\ 0 <= x <= 99).
  { intros h r1. destruct r as [|b r'].
    - intros [= <- <-]. destruct (parseInt_digits a a Ha Ha) as (x & y & Hx & _ & Hr & _).
      exists x. split; [exact Hx | lia].
    - destruct (JS.is_digit b) eqn:Hb.
      + intros [= <- <-]. destruct (parseInt_digits a b Ha Hb) as (x & y & _ & Hy & _ & Hr).
        exists y. split; [exact Hy | lia].
      + intros [= <- <-]. destruct (parseInt_digits a a Ha Ha) as (x & y & Hx & _ & Hr & _).
        exists x. split; [exact Hx | lia]. }
  destruct (match r with String b r' => _ | EmptyString => _ end) as [h r1].
  specialize (H1 h r1 eq_refl).
  assert (H2 : forall mi r2,
             match r1 with
             | String ":" (String c (String d r'')) =>
                 if JS.is_digit c && JS.is_digit d
                 then (Some (String c (String d EmptyString)), r'')
                 else (None, r1)
             | _ => (None, r1)
             end = (mi, r2) ->
             mi = None
             \/ exists g x, mi = Some g /\ JS.truthy_str g = true
                            /\ parseInt (Some g) = Some x /\ 0 <= x <= 99).
  { intros mi r2.
    destruct r1 as [|[[] [] [] [] [] [] [] []] [|c [|d r'']]];
      try (intros [= <- <-]; left; reflexivity).
    destruct (JS.is_digit c) eqn:Hc; destruct (JS.is_digit d) eqn:Hd; cbn [andb];
      try (intros [= <- <-]; left; reflexivity).
    intros [= <- <-]. right.
    destruct (parseInt_digits c d Hc Hd) as (x & y & _ & Hy & _ & Hr).
    exists (String c (String d EmptyString)), y.
    split; [reflexivity|]. split; [reflexivity|]. split; [exact Hy | lia]. }
  destruct (match r1 with String _ _ => _ | EmptyString => _ end) as [mi r2].
  specialize (H2 mi r2 eq_refl).
  intros [= <- <- <-]. split; [exact H1 | exact H2].
Qed.

(** The start computed from such groups: an hour and a minute below 100
    (the meridiem adds 12 to an hour below 12, or turns 12 into 0). *)
Lemma startOf_groups (g1 : string) (g2 g3 : option string) (s : string) :
  time_here s = Some (g1, g2, g3) ->
  exists h mi, startOf (g1, g2, g3) = (Some h, Some mi) /\ 0 <= h <= 99 /\ 0 <= mi <= 99.
Proof.
  intros Hm. destruct (time_here_groups s g1 g2 g3 Hm) as ((h & Hh & Hhr) & Hg2).
  unfold startOf. rewrite Hh.
  assert (Hmi : exists mi,
             match g2 with
             | Some g => if JS.truthy_str g then parseInt (Some g) else Some 0
             | None => Some 0
             end = Some mi /\ 0 <= mi <= 99).
  { destruct Hg2 as [->|(g & mi & -> & Ht & Hp & Hr)].
    - exists 0. split; [reflexivity | lia].
    - exists mi. rewrite Ht. split; [exact Hp | exact Hr]. }
  destruct Hmi as (mi & -> & Hmr).
  unfold JS.lt, num_add. cbn [option_map].
  destruct (is_meridian (option_map JS.toLowerCase g3) "pm"); cbn [andb].
  - destruct (Z.ltb_spec h 12).
    + destruct (is_meridian _ "am" && (h + 12 =? 12)).
      * exists 0, mi. split; [reflexivity | lia].
      * exists (h + 12), mi. split; [reflexivity | lia].
    + destruct (is_meridian _ "am" && (h =? 12)).
      * exists 0, mi. split; [reflexivity | lia].
      * exists h, mi. split; [reflexivity | lia].
  - destruct (is_meridian _ "am" && (h =? 12)).
    + exists 0, mi. split; [reflexivity | lia].
    + exists h, mi. split; [reflexivity | lia].
Qed.

(** X20: When a start time is found, it is the padded text of an hour
    and a minute between 0 and 99 (not checked against 23 and 59), the
    end minute is between 0 and 59, and the end is thirty minutes after
    the start whenever the start minute is at most 89. *)
Theorem parsed_appointment_lasts_thirty_minutes
    (zoneOf : string -> ZoneEx) (BUSINESS_TIMEZONE : option string)
    (clock : Z) (conversation : Conversation) (a : Appointment) (start : string) :
  parseAppointmentFromConversation zoneOf BUSINESS_TIMEZONE clock conversation = Fine a ->
  startTime a = Some start ->
  exists h mi eh emi : Z,
    start = clockText (Some h, Some mi)
    /\ endTime a = Some (clockText (Some eh, Some emi))
    /\ 0 <= h <= 99 /\ 0 <= mi <= 99 /\ 0 <= emi <= 59
    /\ (mi <= 89 -> eh * 60 + emi = h * 60 + mi + 30).
Proof.
  unfold parseAppointmentFromConversation.
  destruct (appointmentDateOf _ clock _) as [appointmentDate|e]; [|discriminate].
  intros [= <-]. cbn [startTime endTime].
  destruct (timeMatch (fullTextOf conversation)) as [m|] eqn:Htm;
    cbn [option_map]; [|discriminate].
  intros [= <-]. destruct m as [[g1 g2] g3].
  apply leftmost_Some in Htm as (s' & Hs').
  destruct (startOf_groups g1 g2 g3 s' Hs') as (h & mi & Hst & Hh & Hmi).
  rewrite Hst.
  exists h, mi, (if mi + 30 >=? 60 then h + 1 else h), (Z.rem (mi + 30) 60).
  split; [reflexivity|]. split.
  { unfold endOf, JS.ge, JS.le, num_add, num_rem. cbn [option_map].
    rewrite Z.geb_leb. destruct (60 <=? mi + 30); reflexivity. }
  split; [exact Hh|]. split; [exact Hmi|].
  rewrite Z.rem_mod_nonneg by lia. split.
  - pose proof (Z.mod_pos_bound (mi + 30) 60 ltac:(lia)). lia.
  - intros Hle. rewrite Z.geb_leb.
    destruct (Z.leb_spec 60 (mi + 30)); Z.div_mod_to_equations; lia.
Qed.

Lemma parsed_appointment_lasts_thirty_minutes_witness :
  exists (a : Appointment) (h mi eh emi : Z),
    parseAppointmentFromConversation (fun _ => FixedOffsetWeek.zoneEx (-360)) None
      Examples.monday
      (mkConversation (Some [mkMessage None (Some "today at 4:45 pm") None None])
                      None None None) = Fine a
    /\ "16:45" = clockText (Some h, Some mi)
    /\ endTime a = Some (clockText (Some eh, Some emi))
    /\ 0 <= h <= 99 /\ 0 <= mi <= 99 /\ 0 <= emi <= 59
    /\ (mi <= 89 -> eh * 60 + emi = h * 60 + mi + 30).
Proof.
  eexists.
  destruct (parsed_appointment_lasts_thirty_minutes
              (fun _ => FixedOffsetWeek.zoneEx (-360)) None Examples.monday
              (mkConversation (Some [mkMessage None (Some "today at 4:45 pm") None None])
                              None None None) _ "16:45" eq_refl eq_refl)
    as (h & mi & eh & emi & H).
  exists h, mi, eh, emi. split; [reflexivity | exact H].
Defined.

(** X21: With an API key, findRecentHumeChat returns the id of one of
    the 20 first listed chats: one that started within two minutes of
    the call or, when none did, the first listed one; it throws 'No
    recent Hume chats found' only when the listing is empty. *)
Theorem most_recent_chat_is_the_fallback
    (key : option string) (chats : list Chat) (callTimestamp : JSDate.Date)
    (phoneNumber : option string) :
  missing key = false ->
  match findRecentHumeChat key (Fine chats) callTimestamp phoneNumber with
  | Fine i =>
      exists c, In c (take 20 chats) /\ id c = i
        /\ (startedNear callTimestamp c = true
            \/ (forallb (fun c' => negb (startedNear callTimestamp c')) (take 20 chats) = true
                /\ head chats = Some c))
  | Throws e => chats = [] /\ e = Error "No recent Hume chats found"
  end.
Proof.
  intros Hkey. unfold findRecentHumeChat. rewrite Hkey.
  destruct (List.find (startedNear callTimestamp) (take 20 chats)) as [c|] eqn:Hfind.
  - apply find_some in Hfind as [Hin Hnear]. exists c. auto.
  - destruct chats as [|c rest]; [split; reflexivity|].
    change (take 20 (c :: rest)) with (c :: take 19 rest) in *.
    exists c. split; [left; reflexivity|]. split; [reflexivity|]. right.
    split; [|reflexivity].
    apply forallb_forall. intros x Hx. apply negb_true_iff.
    exact (find_none _ _ Hfind x Hx).
Qed.

Lemma most_recent_chat_is_the_fallback_witness :
  let chats := [mkChat "chat-old" (Some (Examples.utc 2025 1 6 9 0 0 0)) None;
                mkChat "chat-older" None (Some (Examples.utc 2025 1 5 9 0 0 0))] in
  findRecentHumeChat (Some "key") (Fine chats) (Some Examples.monday) None = Fine "chat-old"
  /\ match findRecentHumeChat (Some "key") (Fine chats) (Some Examples.monday) None with
     | Fine i =>
         exists c, In c (take 20 chats) /\ id c = i
           /\ (startedNear (Some Examples.monday) c = true
               \/ (forallb (fun c' => negb (startedNear (Some Examples.monday) c'))
                           (take 20 chats) = true
                   /\ head chats = Some c))
     | Throws e => chats = [] /\ e = Error "No recent Hume chats found"
     end.
Proof.
  cbv zeta. split; [reflexivity|].
  apply (most_recent_chat_is_the_fallback (Some "key")
           [mkChat "chat-old" (Some (Examples.utc 2025 1 6 9 0 0 0)) None;
            mkChat "chat-older" None (Some (Examples.utc 2025 1 5 9 0 0 0))]
           (Some Examples.monday) None).
  reflexivity.
Defined.


(** ** The date and the times, written and read back *)

Lemma split_three (sep : ascii) (a b c : string) :
  JS.no_char sep a = true -> JS.no_char sep b = true -> JS.no_char sep c = true ->
  JS.split sep (a ++ String sep (b ++ String sep c)) = [a; b; c].
Proof.
  intros Ha Hb Hc. unfold JS.split.
  rewrite split_go_prefix by exact Ha. cbn [JS.split_go]. rewrite Ascii.eqb_refl.
  rewrite rev_string_involutive. f_equal.
  exact (split_two sep b c Hb Hc).
Qed.





(** The three numbers of a date text [yyyy-MM-dd]. *)
Lemma partOf_date (y m d : Z) :
  0 <= y -> 0 <= m -> 0 <= d ->
  let date := padNumber 4 y ++ "-" ++ padNumber 2 m ++ "-" ++ padNumber 2 d in
  partOf "-" date 0 = Some y /\ partOf "-" date 1 = Some m /\ partOf "-" date 2 = Some d.
Proof.
  intros Hy Hm Hd. cbv zeta.
  destruct (padded 4 y Hy) as (Hyd & _ & Hyp & _).
  destruct (padded 2 m Hm) as (Hmd & _ & Hmp & _).
  destruct (padded 2 d Hd) as (Hdd & _ & Hdp & _).
  unfold partOf.
  change (padNumber 4 y ++ "-" ++ padNumber 2 m ++ "-" ++ padNumber 2 d)
    with (padNumber 4 y ++ String "-" (padNumber 2 m ++ String "-" (padNumber 2 d))).
  rewrite (split_three "-" _ _ _ Hyd Hmd Hdd). cbn [nth_error].
  auto.
Qed.

(** The two numbers of a time text [HH:mm]. *)
Lemma partOf_time (h mi : Z) :
  0 <= h -> 0 <= mi ->
  partOf ":" (clockText (Some h, Some mi)) 0 = Some h
  /\ partOf ":" (clockText (Some h, Some mi)) 1 = Some mi.
Proof.
  intros Hh Hmi.
  destruct (padded 2 h Hh) as (_ & Hhc & Hhp & Hhs).
  destruct (padded 2 mi Hmi) as (_ & Hmc & Hmp & Hms).
  unfold partOf, clockText. cbn [fst snd]. rewrite Hhs, Hms.
  change (padNumber 2 h ++ ":" ++ padNumber 2 mi)
    with (padNumber 2 h ++ String ":" (padNumber 2 mi)).
  rewrite (split_two ":" _ _ Hhc Hmc). cbn [nth_error]. auto.
Qed.

(** X22: The date text yyyy-MM-dd and the time text HH:mm that
    parseAppointmentFromConversation writes are read back by
    bookAndNotify, with split and parseInt, as the numbers they were
    written from, for every year, month, day, hour and minute from 0 to
    2^53 - 1 (the integers that JavaScript holds exactly and writes in
    plain decimal), which covers all that the parser writes. *)
Theorem written_date_and_times_are_read_back (y m d h mi : Z) :
  0 <= y <= 9007199254740991 -> 0 <= m <= 9007199254740991 ->
  0 <= d <= 9007199254740991 -> 0 <= h <= 9007199254740991 ->
  0 <= mi <= 9007199254740991 ->
  let date := padNumber 4 y ++ "-" ++ padNumber 2 m ++ "-" ++ padNumber 2 d in
  let time := clockText (Some h, Some mi) in
  partOf "-" date 0 = Some y /\ partOf "-" date 1 = Some m /\ partOf "-" date 2 = Some d
  /\ partOf ":" time 0 = Some h /\ partOf ":" time 1 = Some mi.
Proof.
  intros [Hy _] [Hm _] [Hd _] [Hh _] [Hmi _]. cbv zeta.
  destruct (partOf_date y m d Hy Hm Hd) as (Py & Pm & Pd).
  destruct (partOf_time h mi Hh Hmi) as (Ph & Pmi).
  cbv zeta in Py, Pm, Pd. auto.
Qed.

Lemma written_date_and_times_are_read_back_witness :
  partOf "-" "2025-01-07" 0 = Some 2025 /\ partOf "-" "2025-01-07" 1 = Some 1
  /\ partOf "-" "2025-01-07" 2 = Some 7
  /\ partOf ":" "14:05" 0 = Some 14 /\ partOf ":" "14:05" 1 = Some 5.
Proof. apply (written_date_and_times_are_read_back 2025 1 7 14 5); lia. Defined.

Section Booking.
Variable zoneOf : string -> ZoneEx.
Variable BUSINESS_TIMEZONE : option string.
Variable HUME_API_KEY : option string.
Variable HUME_CONFIG_ID : option string.
Variable TWILIO_PHONE_NUMBER : option string.
Variable BUSINESS_NAME : option string.
Variable events_insert : string -> Server.EventBody -> Server.insert_result.
Variable messages_create : string -> string -> string -> option string.
Variable listChats : result (list Chat).
Variable listChatEvents : string -> result (list ChatEvent).

Local Abbreviation bookAndNotify :=
  (PostCall.bookAndNotify zoneOf TWILIO_PHONE_NUMBER BUSINESS_NAME events_insert
                          messages_create).
Local Abbreviation parseAndBook :=
  (PostCall.parseAndBook zoneOf BUSINESS_TIMEZONE TWILIO_PHONE_NUMBER BUSINESS_NAME
                         events_insert messages_create).
Local Abbreviation processPostCallBooking :=
  (PostCall.processPostCallBooking zoneOf BUSINESS_TIMEZONE HUME_API_KEY
     TWILIO_PHONE_NUMBER BUSINESS_NAME events_insert messages_create listChats
     listChatEvents).
Local Abbreviation twilioNumber := (PostCall.twilioPhoneNumber TWILIO_PHONE_NUMBER).

(** X23: bookAndNotify does nothing, or inserts one event in the primary
    calendar, or inserts one event and then sends one SMS; the SMS is
    sent only after the insert succeeded, to the customer's non-empty
    number and from the non-empty Twilio number. *)
Theorem confirmation_is_sent_only_after_the_insert
    (callSid : string) (customerPhone : option string) (a : Appointment) :
  match snd (bookAndNotify callSid customerPhone a) with
  | [] => True
  | [Insert c r] => c = "primary" /\ found a = true
  | [Insert c r; Sms body from to] =>
      (exists eventId, events_insert c r = Server.Inserted eventId)
      /\ customerPhone = Some to /\ to <> EmptyString
      /\ from = twilioNumber /\ from <> EmptyString
  | _ => False
  end.
Proof.
  unfold PostCall.bookAndNotify.
  destruct (found a); cbn [negb]; [|exact I].
  destruct (date a) as [date|]; [|exact I].
  destruct (startTime a) as [startTime|]; [|exact I].
  destruct (endTime a) as [endTime|]; [|exact I].
  destruct (fromParts zoneOf _ _ _ _ _ _) as [startDt|e]; [|exact I].
  destruct (fromParts zoneOf _ _ _ _ _ _) as [endDt|e]; [|exact I].
  destruct (events_insert _ _) as [eventId|msg] eqn:Hins; [|split; reflexivity].
  destruct customerPhone as [[|c phone]|]; cbn [JS.or_default JS.truthy_str andb];
    try (split; reflexivity).
  destruct (PostCall.twilioPhoneNumber TWILIO_PHONE_NUMBER) as [|c' tw] eqn:Htw;
    cbn [JS.truthy_str]; [split; reflexivity|].
  destruct (messages_create _ _ _); cbn [snd];
    (split; [eauto|]; split; [reflexivity|]; split; [discriminate|];
     split; [reflexivity | discriminate]).
Qed.

(** [bookAndNotify] reads back the date and the times that
    [parseAppointmentFromConversation] wrote. *)
Lemma bookAndNotify_reads_back
    (callSid : string) (customerPhone : option string) (a : Appointment)
    (dateText startText : string) (y m d sh sm eh em : Z) :
  found a = true ->
  date a = Some dateText ->
  dateText = padNumber 4 y ++ "-" ++ padNumber 2 m ++ "-" ++ padNumber 2 d ->
  startTime a = Some startText ->
  startText = clockText (Some sh, Some sm) ->
  endTime a = Some (clockText (Some eh, Some em)) ->
  0 <= y -> 0 <= m -> 0 <= d -> 0 <= sh -> 0 <= sm -> 0 <= eh -> 0 <= em ->
  let z := base (zoneOf (timezone a)) in
  let req :=
    Server.mkEventBody (summary a) (description a)
      (@fromObject z (mkFields y m d sh sm)) (@fromObject z (mkFields y m d eh em))
      (timezone a) None in
  bookAndNotify callSid customerPhone a =
    match events_insert "primary" req with
    | Server.InsertThrows msg => (Throws (Error msg), [Insert "primary" req])
    | Server.Inserted _ =>
        if JS.truthy_str (JS.or_default customerPhone EmptyString)
           && JS.truthy_str twilioNumber then
          let sms :=
            Sms (confirmationMessage BUSINESS_NAME (customerName a) dateText startText)
                twilioNumber (JS.or_default customerPhone EmptyString) in
          match messages_create
                  (confirmationMessage BUSINESS_NAME (customerName a) dateText startText)
                  twilioNumber (JS.or_default customerPhone EmptyString) with
          | Some msg => (Throws (Error msg), [Insert "primary" req; sms])
          | None => (Fine tt, [Insert "primary" req; sms])
          end
        else (Fine tt, [Insert "primary" req])
    end.
Proof.
  intros Hfound Hdate Hdt Hstart Hst Hend Hy Hm Hd Hsh Hsm Heh Hem. cbv zeta.
  unfold PostCall.bookAndNotify. rewrite Hfound, Hdate, Hstart, Hend. cbn [negb].
  destruct (partOf_date y m d Hy Hm Hd) as (Py & Pm & Pd). cbv zeta in Py, Pm, Pd.
  destruct (partOf_time sh sm Hsh Hsm) as (Psh & Psm).
  destruct (partOf_time eh em Heh Hem) as (Peh & Pem).
  rewrite Hdt, Hst, Py, Pm, Pd, Psh, Psm, Peh, Pem.
  unfold fromParts, toISO. reflexivity.
Qed.

(** A conversation that says "tomorrow" and has a time is an appointment
    for the day after the clock's. *)
Lemma parse_tomorrow (clock : Z) (conversation : Conversation) (st : JS.num * JS.num) :
  JS.includes (fullTextOf conversation) "tomorrow" = true ->
  option_map startOf (timeMatch (fullTextOf conversation)) = Some st ->
  let tz := JS.or_default BUSINESS_TIMEZONE "America/Chicago" in
  exists a : Appointment,
    parseAppointmentFromConversation zoneOf BUSINESS_TIMEZONE clock conversation = Fine a
    /\ found a = true
    /\ date a = Some (toFormat_ymd (zoneOf tz)
                        (Some (@plusDaysTs (base (zoneOf tz)) 1 clock)))
    /\ startTime a = Some (clockText st)
    /\ endTime a = Some (clockText (endOf st))
    /\ timezone a = tz.
Proof.
  intros Hinc Hst. cbv zeta.
  unfold parseAppointmentFromConversation, appointmentDateOf.
  rewrite Hinc, Hst.
  destruct (dateMatch (fullTextOf conversation)) as [[g1 g2]|];
    eexists; (split; [reflexivity|]); cbn; auto.
Qed.

Lemma mock_text (customerPhone : option string) :
  fullTextOf (mockConversation customerPhone) = mockText.
Proof. reflexivity. Qed.

Lemma mock_facts :
  JS.includes mockText "tomorrow" = true
  /\ dateMatch mockText = None
  /\ option_map startOf (timeMatch mockText) = Some (Some 14, Some 0)
  /\ nameMatch mockText = Some "john smith"
  /\ serviceMentions mockText = [].
Proof. vm_compute. auto. Qed.

(** X24: When no chat id is stored for the call and the search for a
    recent chat throws, processPostCallBooking books the built-in mock
    conversation: it asks the calendar for 'john smith - General
    appointment' tomorrow from 14:00 to 14:30 in the business zone
    (tomorrow's year, month and day being read as non-negative numbers),
    whoever called, and leaves the table of chat ids as it was. *)
Theorem lookup_failure_books_the_mock_appointment
    (clock : Z) (callSid : string) (customerPhone : option string)
    (table : gmap string string) (e : exn) :
  JS.or_str (table !! callSid) None = None ->
  findRecentHumeChat HUME_API_KEY listChats (Some clock) customerPhone = Throws e ->
  let tz := JS.or_default BUSINESS_TIMEZONE "America/Chicago" in
  let z := base (zoneOf tz) in
  let tomorrow := @fieldsOf z (@plusDaysTs z 1 clock) in
  0 <= year tomorrow -> 0 <= month tomorrow -> 0 <= day tomorrow ->
  exists (req : Server.EventBody) (rest : list effect),
    processPostCallBooking clock callSid customerPhone table
    = (Insert "primary" req :: rest, table)
    /\ Server.ev_summary req = "john smith - General appointment"
    /\ Server.ev_start req
       = @fromObject z (mkFields (year tomorrow) (month tomorrow) (day tomorrow) 14 0)
    /\ Server.ev_end req
       = @fromObject z (mkFields (year tomorrow) (month tomorrow) (day tomorrow) 14 30)
    /\ (rest = []
        \/ exists date,
             rest = [Sms (confirmationMessage BUSINESS_NAME "john smith" date "14:00")
                         twilioNumber (JS.or_default customerPhone EmptyString)]).
Proof.
  intros Htable Hfind tz z tomorrow Hy Hm Hd.
  unfold PostCall.processPostCallBooking. rewrite Htable, Hfind.
  unfold PostCall.parseAndBook, PostCall.parse.
  destruct mock_facts as (Hinc & Hdm & Hst & Hname & Hserv).
  assert (Hparse : exists a : Appointment,
             parseAppointmentFromConversation zoneOf BUSINESS_TIMEZONE clock
               (mockConversation customerPhone) = Fine a
             /\ found a = true
             /\ date a = Some (toFormat_ymd (zoneOf tz) (Some (@plusDaysTs z 1 clock)))
             /\ startTime a = Some "14:00" /\ endTime a = Some "14:30"
             /\ timezone a = tz /\ customerName a = "john smith"
             /\ summary a = "john smith - General appointment").
  { unfold parseAppointmentFromConversation, appointmentDateOf.
    rewrite mock_text, Hinc, Hdm, Hst, Hname, Hserv.
    eexists. split; [reflexivity|]. cbn. auto 10. }
  destruct Hparse as (a & -> & Hfound & Hdate & Hstart & Hend & Htz & Hcn & Hsum).
  rewrite (bookAndNotify_reads_back callSid customerPhone a _ "14:00"
             (year tomorrow) (month tomorrow) (day tomorrow) 14 0 14 30
             Hfound Hdate eq_refl Hstart eq_refl Hend Hy Hm Hd)
    by lia.
  cbv zeta. rewrite Htz, Hcn. fold tz. fold z.
  set (req := Server.mkEventBody _ _ _ _ _ _).
  set (body := confirmationMessage BUSINESS_NAME "john smith" _ "14:00").
  exists req,
    (match events_insert "primary" req with
     | Server.Inserted _ =>
         if JS.truthy_str (JS.or_default customerPhone EmptyString)
            && JS.truthy_str twilioNumber
         then [Sms body twilioNumber (JS.or_default customerPhone EmptyString)]
         else []
     | Server.InsertThrows _ => []
     end).
  split.
  { destruct (events_insert "primary" req) as [eventId|msg]; [|reflexivity].
    destruct (JS.truthy_str (JS.or_default customerPhone EmptyString)
              && JS.truthy_str twilioNumber); [|reflexivity].
    destruct (messages_create _ _ _); reflexivity. }
  split; [exact Hsum|]. split; [reflexivity|]. split; [reflexivity|].
  destruct (events_insert "primary" req) as [eventId|msg]; [|left; reflexivity].
  destruct (JS.truthy_str (JS.or_default customerPhone EmptyString)
            && JS.truthy_str twilioNumber); [|left; reflexivity].
  right. eexists. reflexivity.
Qed.
End Booking.

Lemma lookup_failure_books_the_mock_appointment_witness :
  let zoneOf := fun _ : string => FixedOffsetWeek.zoneEx (-360) in
  let z := base (zoneOf (JS.or_default None "America/Chicago")) in
  let tomorrow := @fieldsOf z (@plusDaysTs z 1 Examples.monday) in
  (exists (req : Server.EventBody) (rest : list effect),
     PostCall.processPostCallBooking zoneOf None
       (Some "key") (Some "+15125550199") (Some "Fade League")
       Examples.accepting (fun _ _ _ => None) (Throws (Error "503"))
       (fun _ => Throws (Error "503")) Examples.monday "CA1" (Some "+15125550100") ∅
     = (Insert "primary" req :: rest, ∅)
     /\ Server.ev_summary req = "john smith - General appointment"
     /\ Server.ev_start req
        = @fromObject z (mkFields (year tomorrow) (month tomorrow) (day tomorrow) 14 0)
     /\ Server.ev_end req
        = @fromObject z (mkFields (year tomorrow) (month tomorrow) (day tomorrow) 14 30)
     /\ (rest = []
         \/ exists date,
              rest = [Sms (confirmationMessage (Some "Fade League") "john smith" date "14:00")
                          (PostCall.twilioPhoneNumber (Some "+15125550199"))
                          (JS.or_default (Some "+15125550100") EmptyString)]))
  /\ @fromObject z (mkFields (year tomorrow) (month tomorrow) (day tomorrow) 14 0)
     = Some (Examples.utc 2025 1 7 20 0 0 0).
Proof.
  cbv zeta. split; [|vm_compute; reflexivity].
  apply (lookup_failure_books_the_mock_appointment
           (fun _ => FixedOffsetWeek.zoneEx (-360)) None (Some "key")
           (Some "+15125550199") (Some "Fade League") Examples.accepting
           (fun _ _ _ => None) (Throws (Error "503")) (fun _ => Throws (Error "503"))
           Examples.monday "CA1" (Some "+15125550100") ∅ (Error "503"));
    first [reflexivity | (vm_compute; discriminate)].
Defined.

Import Ecma FixedOffset CalendarFacts.

(** The day after the clock's, in a zone at a fixed offset, is a date of
    the calendar. *)
Lemma fo_fields_in_range (off t : Z) :
  1 <= month (fo_fieldsOf off t) <= 12
  /\ 1 <= day (fo_fieldsOf off t)
          <= daysInMonth (year (fo_fieldsOf off t)) (month (fo_fieldsOf off t))
  /\ day (fo_fieldsOf off t) <= 31.
Proof.
  unfold fo_fieldsOf. cbn [year month day].
  pose proof (MonthFromTime_range (toLocal off t)).
  pose proof (DateFromTime_range (toLocal off t)).
  pose proof (DateFromTime_le_daysInMonth (toLocal off t)). lia.
Qed.

(** X25: In a zone at a fixed offset, a conversation that says
    'tomorrow' (in a year that is not negative) with a start time from
    23:31 to 23:59 is sent to the calendar with a valid start and a null
    end: the end is computed as hour 24 with a non-zero minute, which
    luxon rejects, and nothing stops the insert. *)
Theorem late_start_is_booked_without_an_end
    (off : Z) (BUSINESS_TIMEZONE TWILIO_PHONE_NUMBER BUSINESS_NAME : option string)
    (events_insert : string -> Server.EventBody -> Server.insert_result)
    (messages_create : string -> string -> string -> option string)
    (clock : Z) (callSid : string) (customerPhone : option string)
    (conversation : Conversation) (mi : Z) :
  let zoneOf := fun _ : string => FixedOffsetWeek.zoneEx off in
  JS.includes (fullTextOf conversation) "tomorrow" = true ->
  option_map startOf (timeMatch (fullTextOf conversation)) = Some (Some 23, Some mi) ->
  31 <= mi <= 59 ->
  0 <= year (fo_fieldsOf off (fo_plusDaysTs off 1 clock)) ->
  exists (req : Server.EventBody) (rest : list effect) (s : Z),
    snd (PostCall.parseAndBook zoneOf BUSINESS_TIMEZONE TWILIO_PHONE_NUMBER BUSINESS_NAME
           events_insert messages_create clock callSid customerPhone conversation)
    = Insert "primary" req :: rest
    /\ Server.ev_start req = Some s /\ Server.ev_end req = None.
Proof.
  intros zoneOf Hinc Hst Hmi Hy.
  destruct (parse_tomorrow zoneOf BUSINESS_TIMEZONE clock conversation _ Hinc Hst)
    as (a & Hparse & Hfound & Hdate & Hstart & Hend & Htz).
  unfold PostCall.parseAndBook, PostCall.parse. rewrite Hparse.
  set (f := fo_fieldsOf off (fo_plusDaysTs off 1 clock)) in *.
  destruct (fo_fields_in_range off (fo_plusDaysTs off 1 clock)) as (Hm & Hd & Hd31).
  fold f in Hm, Hd, Hd31.
  assert (Hend' : endOf (Some 23, Some mi) = (Some 24, Some (mi - 30))).
  { unfold endOf, JS.ge, JS.le, num_add, num_rem. cbn [option_map].
    destruct (Z.leb_spec 60 (mi + 30)); [|lia]. f_equal. f_equal.
    rewrite Z.rem_mod_nonneg by lia. Z.div_mod_to_equations. lia. }
  rewrite Hend' in Hend.
  assert (Hdt : toFormat_ymd (zoneOf (JS.or_default BUSINESS_TIMEZONE "America/Chicago"))
                  (Some (@plusDaysTs
                           (base (zoneOf (JS.or_default BUSINESS_TIMEZONE "America/Chicago")))
                           1 clock))
                = padNumber 4 (year f) ++ "-" ++ padNumber 2 (month f) ++ "-"
                  ++ padNumber 2 (day f))
    by reflexivity.
  rewrite (bookAndNotify_reads_back zoneOf TWILIO_PHONE_NUMBER BUSINESS_NAME events_insert
             messages_create callSid customerPhone a _ _
             (year f) (month f) (day f) 23 mi 24 (mi - 30)
             Hfound Hdate Hdt Hstart eq_refl Hend)
    by lia.
  cbv zeta.
  change (@fromObject (base (zoneOf (timezone a)))) with (fo_fromObject off).
  assert (Hs : exists s, fo_fromObject off (mkFields (year f) (month f) (day f) 23 mi) = Some s).
  { unfold fo_fromObject, validFields. cbn [year month day hour minute].
    repeat rewrite (proj2 (Z.leb_le _ _)) by lia. cbn [andb orb]. eauto. }
  assert (He : fo_fromObject off (mkFields (year f) (month f) (day f) 24 (mi - 30)) = None).
  { unfold fo_fromObject, validFields. cbn [year month day hour minute].
    replace (24 <=? 23) with false by reflexivity.
    replace (mi - 30 =? 0) with false by (symmetry; apply Z.eqb_neq; lia).
    now rewrite !andb_false_r, !andb_false_l. }
  destruct Hs as (s & Hs). rewrite Hs, He.
  set (req := Server.mkEventBody _ _ _ _ _ _).
  destruct (events_insert "primary" req) as [eventId|msg].
  - destruct (JS.truthy_str _ && JS.truthy_str _).
    + destruct (messages_create _ _ _); cbn [snd]; eexists req, _, s; repeat split.
    + eexists req, _, s; repeat split.
  - eexists req, _, s; repeat split.
Qed.

Lemma late_start_is_booked_without_an_end_witness :
  exists (req : Server.EventBody) (rest : list effect) (s : Z),
    snd (PostCall.parseAndBook (fun _ => FixedOffsetWeek.zoneEx (-360)) None None None
           Examples.accepting (fun _ _ _ => None) Examples.monday "CA1" None
           (mkConversation (Some [mkMessage None (Some "Tomorrow at 23:45") None None])
                           None None None))
    = Insert "primary" req :: rest
    /\ Server.ev_start req = Some s /\ Server.ev_end req = None.
Proof.
  apply (late_start_is_booked_without_an_end (-360) None None None Examples.accepting
           (fun _ _ _ => None) Examples.monday "CA1" None
           (mkConversation (Some [mkMessage None (Some "Tomorrow at 23:45") None None])
                           None None None) 45);
    first [reflexivity | lia | (vm_compute; discriminate)].
Defined.
End PostCallFacts.

(* ===================================================================== *)
(** ** services/hume-conversation.js: the day of the week *)
(* ===================================================================== *)

Module WeekdayFacts.
Import Ecma Luxon LuxonWeek FixedOffset FixedOffsetWeek JSText Conversation PostCallFacts.

Import CalendarFacts.

Lemma index_ci_range (lits : list string) (i k : Z) (s : string) :
  index_ci lits i s = Some k -> i <= k < i + Z.of_nat (List.length lits).
Proof.
  revert i. induction lits as [|lit rest IH]; intros i; cbn [index_ci List.length].
  - discriminate.
  - destruct (lit_ci lit s).
    + intros [= <-]. lia.
    + intros Hk. apply IH in Hk. lia.
Qed.

Lemma day_here_range (s : string) (k : Z) : day_here s = Some k -> 1 <= k <= 7.
Proof.
  unfold day_here. intros Hk.
  assert (Hr : forall s', index_ci daysOfWeek 1 s' = Some k -> 1 <= k <= 7).
  { intros s' Hs. apply index_ci_range in Hs. simpl in Hs. lia. }
  destruct (lit_ci "next" s) as [r|]; [|eauto].
  destruct (spaces1 r) as [r'|]; [|eauto].
  destruct (index_ci daysOfWeek 1 r') eqn:E; [|eauto].
  injection Hk as <-. eauto.
Qed.

Lemma isoWeekday_range (l : Z) : 1 <= isoWeekday l <= 7.
Proof. unfold isoWeekday, WeekDay. dlia. Qed.

Lemma isoWeekday_plus_days (l n : Z) :
  isoWeekday (l + n * msPerDay) = (isoWeekday l - 1 + n) mod 7 + 1.
Proof.
  unfold isoWeekday, WeekDay, Day, msPerDay.
  replace ((l + n * 86400000) / 86400000) with (l / 86400000 + n)
    by (rewrite Z.div_add by lia; reflexivity).
  dlia.
Qed.

(** X26: In a zone at a fixed offset, a text that names a weekday and
    contains neither 'tomorrow' nor 'today' resolves to the current time
    of day on that weekday, 1 to 13 days ahead, and at most 7 days ahead
    when the text does not contain 'next'. *)
Theorem weekday_name_gives_a_later_day_of_that_name
    (off clock k : Z) (fullText : string) :
  JS.includes fullText "tomorrow" = false ->
  JS.includes fullText "today" = false ->
  dayMatch fullText = Some k ->
  exists n,
    appointmentDateOf (zoneEx off) clock fullText = Fine (Some (Some (clock + n * msPerDay)))
    /\ 1 <= n <= 13
    /\ isoWeekday (toLocal off (clock + n * msPerDay)) = k
    /\ (JS.includes fullText "next" = false -> n <= 7).
Proof.
  intros Htom Htod Hday.
  assert (Hk : 1 <= k <= 7).
  { apply leftmost_Some in Hday as [s' Hs']. exact (day_here_range s' k Hs'). }
  pose proof (isoWeekday_range (toLocal off clock)) as Hw.
  set (w := isoWeekday (toLocal off clock)) in *.
  assert (Hwd : forall n, (w - 1 + n) mod 7 + 1 = k ->
                  isoWeekday (toLocal off (clock + n * msPerDay)) = k).
  { intros n Hn. unfold toLocal in *.
    replace (clock + n * msPerDay + off * msPerMinute)
      with (clock + off * msPerMinute + n * msPerDay) by lia.
    rewrite isoWeekday_plus_days. exact Hn. }
  assert (Hdate : forall d : DateTime,
            match dateMatch fullText, Some d with
            | Some (g1, g2), None =>
                match parseInt (Some g1), parseInt (Some g2) with
                | Some month, Some day =>
                    let d0 := @fromObject (FixedOffset.zone off)
                                (mkFields (year (@fieldsOf (FixedOffset.zone off) clock))
                                          month day 0 0) in
                    Fine (Some (if JS.lt d0 (Some clock)
                                then plusYears (zoneEx off) 1 d0 else d0))
                | _, _ => Throws InvalidUnit
                end
            | _, _ => Fine (Some d)
            end = Fine (Some d)).
  { intros d. destruct (dateMatch fullText) as [[g1 g2]|]; reflexivity. }
  unfold appointmentDateOf. rewrite Htom, Htod, Hday.
  cbn [setWeekday zoneEx setWeekdayTs base]. unfold fo_setWeekdayTs. fold w.
  rewrite Hdate.
  destruct (dt_le (Some (clock + (k - w) * msPerDay)) (Some clock)
            || JS.includes fullText "next") eqn:Hc.
  - cbn [plusDays]. rewrite FixedOffsetFacts.plusDaysTs_fixed.
    exists (k - w + 7). split; [f_equal; f_equal; f_equal; unfold msPerDay; lia|].
    split.
    + apply orb_true_iff in Hc as [Hc|Hc]; lia.
    + split; [apply Hwd; dlia|].
      intros Hnext. rewrite Hnext, orb_false_r in Hc.
      unfold dt_le, JS.le in Hc. apply Z.leb_le in Hc. unfold msPerDay in Hc. lia.
  - apply orb_false_iff in Hc as [Hc Hnext].
    unfold dt_le, JS.le in Hc. apply Z.leb_gt in Hc. unfold msPerDay in Hc.
    exists (k - w). split; [reflexivity|].
    split; [lia|]. split; [apply Hwd; dlia | intros _; lia].
Qed.


Lemma weekday_name_gives_a_later_day_of_that_name_witness :
  exists n,
    appointmentDateOf (zoneEx (-360)) Examples.monday "see you next friday at 3pm"
    = Fine (Some (Some (Examples.monday + n * msPerDay)))
    /\ 1 <= n <= 13
    /\ isoWeekday (toLocal (-360) (Examples.monday + n * msPerDay)) = 5
    /\ (JS.includes "see you next friday at 3pm" "next" = false -> n <= 7).
Proof.
  apply (weekday_name_gives_a_later_day_of_that_name (-360) Examples.monday 5
           "see you next friday at 3pm");
    vm_compute; reflexivity.
Defined.
End WeekdayFacts.

(* ===================================================================== *)
(** ** The spoken flow: /voice/handle-input and /voice/schedule-time *)
(* ===================================================================== *)

Module VoiceFlowFacts.
Import Examples Ecma JSDate Luxon Datetime Server VoiceFlow VoiceFlowObs.

Section Routes.
Context `{Zone}.
Variable chrono_parse : string -> JSDate.Date -> list DateParser.ParsedResult.
Variable events_insert : string -> EventBody -> insert_result.
Variable businessTz : string.
Variable businessName : string.
Variable getRelevantContext : string -> option string.
Variable buildRecentMemorySnippet : string -> string -> option string.
Variable inferIntentFromText : string -> string -> option Intent.

Section AnyLocalZone.
Variable LocalTZA : Z -> bool -> Z.

Local Abbreviation route :=
  (VoiceFlow.schedule_time chrono_parse LocalTZA events_insert businessTz businessName
                           getRelevantContext inferIntentFromText).
Local Abbreviation input :=
  (VoiceFlow.handle_input chrono_parse LocalTZA events_insert businessTz businessName
                          getRelevantContext buildRecentMemorySnippet inferIntentFromText).




End AnyLocalZone.

Section FixedLocalZone.
Variable off : Z.

Local Abbreviation book :=
  (VoiceFlow.book (fixedTZA off) events_insert businessTz businessName).

Lemma book_calls (clock n : Z) (speech raw : string) (parsed : Date) (c : calendar_call) :
  referenceOf (fixedTZA off) clock = Some n ->
  c ∈ snd (book clock speech (Text raw parsed)) ->
  half_hour_from n c.
Proof.
  intros Hn. unfold VoiceFlow.book.
  destruct parsed as [t|].
  - destruct (ensureFutureIso (fixedTZA off) clock (Text raw (Some t))) as [i|o|] eqn:E.
    + exfalso. unfold ensureFutureIso in E.
      match type of E with toISOString ?d = _ => destruct d end; discriminate.
    + destruct (DatetimeClaims.ensureFutureIso_not_before_reference off clock raw t n o Hn E) as [Hle _].
      simpl. intros Hc. apply list_elem_of_singleton in Hc as ->.
      eexists _, o. repeat split. exact Hle.
    + simpl. intros Hc. apply elem_of_nil in Hc as [].
  - simpl. intros Hc. apply elem_of_nil in Hc as [].
Qed.

(** X28: With the process at a fixed local offset, every event that
    /voice/handle-input or /voice/schedule-time sends to the calendar
    goes to the primary calendar, starts at or after the current second
    (the reference instant of ensureFutureIso) and ends thirty minutes
    after its start, whatever the caller said and whatever the model
    returned. *)
Theorem spoken_bookings_start_no_earlier_than_now
    (clock n : Z) (callSid from speech : string) (sessions : gmap string Session)
    (c : calendar_call) :
  referenceOf (fixedTZA off) clock = Some n ->
  c ∈ (snd (fst (VoiceFlow.schedule_time chrono_parse (fixedTZA off) events_insert businessTz
                   businessName getRelevantContext inferIntentFromText
                   clock callSid speech sessions))
       ++ snd (fst (handle_input chrono_parse (fixedTZA off) events_insert businessTz businessName
                      getRelevantContext buildRecentMemorySnippet inferIntentFromText
                      clock callSid from speech sessions)))%list ->
  half_hour_from n c.
Proof.
  intros Hn Hc. apply elem_of_app in Hc as [Hc|Hc].
  - revert Hc. unfold VoiceFlow.schedule_time.
    destruct (awaiting callSid sessions); simpl; [|intros Hc; apply elem_of_nil in Hc as []].
    destruct (getRelevantContext speech) as [context|];
      [|intros Hc; apply elem_of_nil in Hc as []].
    destruct (inferIntentFromText speech context) as [i|];
      [|intros Hc; apply elem_of_nil in Hc as []].
    destruct (resolve chrono_parse clock speech i) as [|raw parsed];
      [intros Hc; apply elem_of_nil in Hc as []|].
    pose proof (book_calls clock n speech raw parsed c Hn) as Hb.
    destruct (VoiceFlow.book (fixedTZA off) events_insert businessTz businessName
                clock speech (Text raw parsed)) as [[id|msg] calls]; exact Hb.
  - revert Hc. unfold handle_input.
    destruct (JS.truthy_str speech); simpl; [|intros Hc; apply elem_of_nil in Hc as []].
    destruct (inferIntentFromText speech _) as [i|];
      [|intros Hc; apply elem_of_nil in Hc as []].
    destruct (String.eqb (intent i) "schedule");
      [|intros Hc; apply elem_of_nil in Hc as []].
    destruct (resolve chrono_parse clock speech i) as [|raw parsed];
      [intros Hc; apply elem_of_nil in Hc as []|].
    pose proof (book_calls clock n speech raw parsed c Hn) as Hb.
    destruct (VoiceFlow.book (fixedTZA off) events_insert businessTz businessName
                clock speech (Text raw parsed)) as [[id|msg] calls]; exact Hb.
Qed.
End FixedLocalZone.
End Routes.



Lemma spoken_bookings_start_no_earlier_than_now_witness :
  half_hour_from monday (EventsInsert "primary" tuesdayEvent).
Proof.
  apply (spoken_bookings_start_no_earlier_than_now (H := CST) (fun _ _ => []) accepting
           chicago "our office" (fun _ => Some EmptyString) (fun _ _ => None) tuesdayNine
           (-360) monday monday "CA1" "+15550100" "tuesday at nine" awaitingCall).
  - vm_compute. reflexivity.
  - vm_compute. constructor.
Defined.
End VoiceFlowFacts.

(* ===================================================================== *)
(** ** services/knowledge.js: the chunks *)
(* ===================================================================== *)

Module KnowledgeFacts.
Import Knowledge KnowledgeObs.

Lemma chunkText_example :
  chunkText "One. Two!  Three? Four" 10 = ["One. Two!"; "Three?"; "Four"].
Proof. vm_compute. reflexivity. Qed.

Lemma sentences_example :
  sentences "a.b. c  d.  " = ["a.b."; "c  d."; ""].
Proof. vm_compute. reflexivity. Qed.

Lemma trim_after_space (s : string) : JS.trim (" " ++ s) = JS.trim s.
Proof. reflexivity. Qed.

Lemma truthy_nonempty (s : string) : JS.truthy_str s = true -> s <> EmptyString.
Proof. destruct s; [discriminate|congruence]. Qed.

Lemma chunk_fold (maxLen : nat) (all l : list string) (parts : list string) (current : string) :
  (forall s, In s l -> In s all) ->
  (forall c, In c parts -> chunk_ok maxLen all c) ->
  ((String.length (JS.trim current) <= maxLen)%nat \/ In current all) ->
  forall c, In c (chunk_end (fold_left (chunk_step maxLen) l (parts, current))) ->
            chunk_ok maxLen all c.
Proof.
  revert parts current. induction l as [|s l IH]; intros parts current Hl Hp Hc.
  - cbn [fold_left chunk_end]. destruct (JS.truthy_str (JS.trim current)) eqn:Ht.
    + intros c Hin. apply in_app_or in Hin as [Hin|[<-|[]]]; [auto|].
      split; [apply truthy_nonempty, Ht|].
      destruct Hc as [Hc|Hc]; [left; exact Hc | right; eauto].
    + exact Hp.
  - cbn [fold_left]. unfold chunk_step at 2.
    destruct (maxLen <? String.length (JS.trim (current ++ " " ++ s)))%nat eqn:Hlen.
    + apply IH.
      * intros x Hx. apply Hl. now right.
      * destruct (JS.truthy_str (JS.trim current)) eqn:Ht; [|exact Hp].
        intros c Hin. apply in_app_or in Hin as [Hin|[<-|[]]]; [auto|].
        split; [apply truthy_nonempty, Ht|].
        destruct Hc as [Hc|Hc]; [left; exact Hc | right; eauto].
      * right. apply Hl. now left.
    + apply Nat.ltb_ge in Hlen. apply IH.
      * intros x Hx. apply Hl. now right.
      * exact Hp.
      * left. destruct current as [|a current]; [|exact Hlen].
        exact Hlen.
Qed.

(** X29: chunkText returns no empty chunk, and a chunk longer than
    maxLen is one single sentence of the text, trimmed: sentences are
    joined into a chunk only up to maxLen characters. *)
Theorem long_chunk_is_a_single_sentence (text : string) (maxLen : nat) (c : string) :
  In c (chunkText text maxLen) ->
  c <> EmptyString
  /\ ((String.length c <= maxLen)%nat
      \/ exists s, In s (sentences text) /\ c = JS.trim s).
Proof.
  intros Hin.
  apply (chunk_fold maxLen (sentences text) (sentences text) [] EmptyString); auto.
  - intros x [].
  - left. simpl. lia.
Qed.

Lemma long_chunk_is_a_single_sentence_witness :
  "Three?" <> EmptyString
  /\ ((String.length "Three?" <= 10)%nat
      \/ exists s, In s (sentences "One. Two!  Three? Four") /\ "Three?" = JS.trim s).
Proof.
  apply (long_chunk_is_a_single_sentence "One. Two!  Three? Four" 10 "Three?").
  vm_compute. right. left. reflexivity.
Defined.

End KnowledgeFacts.

